(** * Vegas casino: blackjack rounds, dice rolls and score aggregation

    A shallow embedding of the game-round and scoring code of the casino
    services, with the properties of its specification stated over it,
    followed by the whack-a-mole and slots services and the balance handling
    of the frontend.

    Conventions of the embedding.
    - JavaScript numbers, Go [float64] and Java [Double] amounts (bets,
      payouts, rates) are exact rationals [Q]; rounding, infinities and NaN are
      outside the model.  Card ranks, scores, counts and row ids are [Z].
    - [Math.random()] is a stream of rationals in the interval [0, 1), threaded
      through the handlers explicitly.
    - Instants ([new Date()], [LocalDateTime.now()]) are integers; each handler
      receives the instant at which it runs.
    - The module-level [games] map of the blackjack service is a [gmap] keyed by
      user name, as is the one of the whack-a-mole service; database tables
      are lists of rows in storage order. *)

From Stdlib Require Import ZArith QArith Qround Lia Lqa.
From stdpp Require Import base option list sorting strings gmap.

Open Scope Z_scope.

Definition Time := Z.

(** ** Blackjack service

    [blackjack-service-grpc.js], the module loaded by
    [services/blackjack/index.js]: the HTTP routes [/deal], [/hit], [/stand],
    [/double] and the gRPC methods [Deal], [Hit], [Stand], [Double] of
    [BlackjackServiceImpl], which share the [games] map.  The calls of the logger and of the tracer leave no
    state and are left out. *)

Module Blackjack.

Inductive Suit := Hearts | Diamonds | Clubs | Spades.

(** A card [{ rank, suit }].  [suit] is [None] when the array read
    [suits[i]] falls outside the array. *)
Record Card := mkCard { rank : Z; suit : option Suit }.

(** A result of [Math.random()]: a rational in [0, 1). *)
Record Unit01 := mkUnit01 {
  u_val : Q;
  u_ok : Qle_bool 0 u_val && negb (Qle_bool 1 u_val) = true
}.

(** The source of randomness: the successive results of [Math.random()]. *)
Definition Rng := nat -> Unit01.

Definition random (g : Rng) : Unit01 * Rng := (g O, fun n => g (S n)).

Definition suits : list Suit := [Hearts; Diamonds; Clubs; Spades].

(** [Math.floor(Math.random() * n)] *)
Definition randomIndex (r : Unit01) (n : Z) : Z := Qfloor (u_val r * inject_Z n).

Definition drawCard (g : Rng) : Card * Rng :=
  let (r1, g1) := random g in
  let rank := randomIndex r1 13 + 1 in
  let (r2, g2) := random g1 in
  let i := randomIndex r2 (Z.of_nat (length suits)) in
  let suit := if i <? 0 then None else suits !! Z.to_nat i in
  (mkCard rank suit, g2).

(** The [for] loop of [scoreHand]: the running [score] and the number of
    [aces] met so far. *)
Fixpoint scoreCards (hand : list Card) (score : Z) (aces : nat) : Z * nat :=
  match hand with
  | [] => (score, aces)
  | card :: rest =>
      if rank card =? 1 then scoreCards rest (score + 11) (S aces)
      else if rank card >? 10 then scoreCards rest (score + 10) aces
      else scoreCards rest (score + rank card) aces
  end.

(** The [while (score > 21 && aces > 0)] loop; it returns the final score and
    the number of aces still counted as 11. *)
Fixpoint reduceAces (aces : nat) (score : Z) : Z * nat :=
  match aces with
  | O => (score, O)
  | S a => if score >? 21 then reduceAces a (score - 10) else (score, aces)
  end.

Definition scoreHandState (hand : list Card) : Z * nat :=
  let (score, aces) := scoreCards hand 0 O in reduceAces aces score.

Definition scoreHand (hand : list Card) : Z := fst (scoreHandState hand).

(** The stored round of one user: [{ playerHand, dealerHand, betAmount }]. *)
Record Game := mkGame {
  playerHand : list Card;
  dealerHand : list Card;
  betAmount : Q
}.

(** The value written to Redis under [blackjack:<user>:state].
    Modelled from the spec: [set] and [del] of [common/redis] are not among
    the sources; after the Session Store's operations (create, get, update,
    delete) they write and remove the value of a key, and they are taken to
    succeed. *)
Record RedisState := mkRedisState {
  rs_playerHand : list Card;
  rs_dealerHand : list Card;
  rs_betAmount : Q;
  rs_timestamp : Time
}.

Inductive Outcome := Win | Lose | Push.

(** The message handed to the scoring service by the gRPC [Stand]. *)
Record StandRecord := mkStandRecord {
  sr_username : string;
  sr_betAmount : Q;
  sr_payout : Q;
  sr_win : bool;
  sr_result : Outcome;
  sr_playerHand : list Card;
  sr_dealerHand : list Card;
  sr_playerScore : Z;
  sr_dealerScore : Z;
  sr_timestamp : Time
}.

(** The state the handlers work on: the [games] map, the Redis keys, the
    results sent to the scoring service, and the random source. *)
Record World := mkWorld {
  games : gmap string Game;
  redis : gmap string RedisState;
  recorded : list StandRecord;
  rng : Rng
}.

(** Request bodies: HTTP [{ BetAmount, Username }], gRPC
    [{ bet_amount, username }]; an absent field is [None]. *)
Record Body := mkBody { BetAmount : option Q; Username : option string }.

Inductive Response :=
| DealOk (playerHand dealerHand : list Card) (playerScore dealerScore : Z)
         (betAmount : Q) (timestamp : Time)
| HitOk (newCard : Card) (playerScore dealerScore : Z) (timestamp : Time)
| StandOk (dealerFinalHand : list Card) (dealerScore : Z) (result : Outcome)
          (payout : Q) (timestamp : Time)
| DoubleOk (newCard : Card) (playerScore dealerScore : Z) (additionalBet : Q)
           (timestamp : Time)
| HttpError (status : Z) (error : string)
| GrpcError (code : string) (message : string)
| TypeError.

(** [p.Username || 'Anonymous'] *)
Definition usernameOf (p : Body) : string :=
  match Username p with
  | Some s => if bool_decide (s = "") then "Anonymous" else s
  | None => "Anonymous"
  end.

(** [p.BetAmount || 10] *)
Definition betAmountOf (p : Body) : Q :=
  match BetAmount p with
  | Some b => if Qeq_bool b 0 then 10%Q else b
  | None => 10%Q
  end.

(** [scoreHand([g.dealerHand[0]])]: reading [rank] of the missing first card
    of an empty hand raises a TypeError. *)
Definition upCardScore (dealerHand : list Card) : option Z :=
  match dealerHand with
  | [] => None
  | c :: _ => Some (scoreHand [c])
  end.

Definition stateKey (user : string) : string :=
  ("blackjack:" ++ user ++ ":state")%string.

(** The dealer score shown after a deal. *)
Definition shownDealerScore (playerHand dealerHand : list Card) : option Z :=
  if scoreHand playerHand >=? 21 then Some (scoreHand dealerHand)
  else upCardScore dealerHand.

(** [app.post('/deal')] and [Deal]. *)
Definition dealHands (g : Rng) : list Card * list Card * Rng :=
  let (p1, g1) := drawCard g in
  let (p2, g2) := drawCard g1 in
  let (d1, g3) := drawCard g2 in
  let (d2, g4) := drawCard g3 in
  ([p1; p2], [d1; d2], g4).

Definition http_deal (w : World) (p : Body) (now : Time) : Response * World :=
  let bet := betAmountOf p in
  let user := usernameOf p in
  let '(ph, dh, g') := dealHands (rng w) in
  let w' := mkWorld (<[user := mkGame ph dh bet]> (games w)) (redis w) (recorded w) g' in
  match shownDealerScore ph dh with
  | Some ds => (DealOk ph dh (scoreHand ph) ds bet now, w')
  | None => (TypeError, w')
  end.

Definition grpc_Deal (w : World) (p : Body) (now : Time) : Response * World :=
  let bet := betAmountOf p in
  let user := usernameOf p in
  let '(ph, dh, g') := dealHands (rng w) in
  let w' := mkWorld (<[user := mkGame ph dh bet]> (games w))
                    (<[stateKey user := mkRedisState ph dh bet now]> (redis w))
                    (recorded w) g' in
  match shownDealerScore ph dh with
  | Some ds => (DealOk ph dh (scoreHand ph) ds bet now, w')
  | None => (TypeError, w')
  end.

(** [g.playerHand.push(drawCard())] on the stored round of [user]. *)
Definition pushPlayerCard (g : Game) (c : Card) : Game :=
  mkGame (playerHand g ++ [c]) (dealerHand g) (betAmount g).

(** [app.post('/hit')] *)
Definition http_hit (w : World) (p : Body) (now : Time) : Response * World :=
  let user := usernameOf p in
  match games w !! user with
  | None => (HttpError 400 "No active hand", w)
  | Some g =>
      let (newCard, g') := drawCard (rng w) in
      let gm := pushPlayerCard g newCard in
      let w' := mkWorld (<[user := gm]> (games w)) (redis w) (recorded w) g' in
      match upCardScore (dealerHand gm) with
      | Some ds => (HitOk newCard (scoreHand (playerHand gm)) ds now, w')
      | None => (TypeError, w')
      end
  end.

(** [BlackjackServiceImpl.Hit] *)
Definition grpc_Hit (w : World) (p : Body) (now : Time) : Response * World :=
  let user := usernameOf p in
  match games w !! user with
  | None => (GrpcError "INVALID_ARGUMENT" "No active hand", w)
  | Some g =>
      let (newCard, g') := drawCard (rng w) in
      let gm := pushPlayerCard g newCard in
      match upCardScore (dealerHand gm) with
      | Some ds =>
          let st := mkRedisState (playerHand gm) (dealerHand gm) (betAmount gm) now in
          (HitOk newCard (scoreHand (playerHand gm)) ds now,
           mkWorld (<[user := gm]> (games w)) (<[stateKey user := st]> (redis w))
                   (recorded w) g')
      | None =>
          (TypeError, mkWorld (<[user := gm]> (games w)) (redis w) (recorded w) g')
      end
  end.

(** [while (scoreHand(g.dealerHand) < 17) g.dealerHand.push(drawCard())].
    [fuel] bounds the number of iterations; [None] means the bound was hit. *)
Fixpoint dealerPlay (fuel : nat) (hand : list Card) (g : Rng)
  : option (list Card * Rng) :=
  if scoreHand hand <? 17 then
    match fuel with
    | O => None
    | S f => let (c, g') := drawCard g in dealerPlay f (hand ++ [c]) g'
    end
  else Some (hand, g).

(** The comparison of the final scores. *)
Definition settle (playerScore dealerScore : Z) : Outcome :=
  if playerScore >? 21 then Lose
  else if (dealerScore >? 21) || (playerScore >? dealerScore) then Win
  else if playerScore =? dealerScore then Push
  else Lose.

Definition payoutOf (result : Outcome) (bet : Q) : Q :=
  match result with
  | Win => (bet * 2)%Q
  | Push => bet
  | Lose => 0%Q
  end.

Definition isWin (result : Outcome) : bool :=
  match result with Win => true | _ => false end.

(** [app.post('/stand')] *)
Definition http_stand (fuel : nat) (w : World) (p : Body) (now : Time)
  : option (Response * World) :=
  let user := usernameOf p in
  match games w !! user with
  | None => Some (HttpError 400 "No active hand", w)
  | Some g =>
      match dealerPlay fuel (dealerHand g) (rng w) with
      | None => None
      | Some (dh, g') =>
          let playerScore := scoreHand (playerHand g) in
          let dealerScore := scoreHand dh in
          let result := settle playerScore dealerScore in
          let payout := payoutOf result (betAmount g) in
          Some (StandOk dh dealerScore result payout now,
                mkWorld (delete user (games w)) (redis w) (recorded w) g')
      end
  end.

(** [BlackjackServiceImpl.Stand] *)
Definition grpc_Stand (fuel : nat) (w : World) (p : Body) (now : Time)
  : option (Response * World) :=
  let user := usernameOf p in
  match games w !! user with
  | None => Some (GrpcError "INVALID_ARGUMENT" "No active hand", w)
  | Some g =>
      match dealerPlay fuel (dealerHand g) (rng w) with
      | None => None
      | Some (dh, g') =>
          let playerScore := scoreHand (playerHand g) in
          let dealerScore := scoreHand dh in
          let result := settle playerScore dealerScore in
          let payout := payoutOf result (betAmount g) in
          let rec := mkStandRecord user (betAmount g) payout (isWin result) result
                       (playerHand g) dh playerScore dealerScore now in
          Some (StandOk dh dealerScore result payout now,
                mkWorld (delete user (games w)) (delete (stateKey user) (redis w))
                        (recorded w ++ [rec]) g')
      end
  end.

(** [app.post('/double')] and [BlackjackServiceImpl.Double];
    [doubleDownEnabled] is the value of the feature flag
    [blackjack.double-down]. *)
Definition doubleDown (w : World) (user : string) (g : Game) (now : Time)
  : Response * World :=
  let (newCard, g') := drawCard (rng w) in
  let additionalBet := betAmount g in
  let gm := mkGame (playerHand g ++ [newCard]) (dealerHand g) (betAmount g * 2)%Q in
  let w' := mkWorld (<[user := gm]> (games w)) (redis w) (recorded w) g' in
  match upCardScore (dealerHand gm) with
  | Some ds => (DoubleOk newCard (scoreHand (playerHand gm)) ds additionalBet now, w')
  | None => (TypeError, w')
  end.

Definition http_double (doubleDownEnabled : bool) (w : World) (p : Body) (now : Time)
  : Response * World :=
  let user := usernameOf p in
  match games w !! user with
  | None => (HttpError 400 "No active hand", w)
  | Some g =>
      if negb doubleDownEnabled then
        (HttpError 403 "Double-down feature is disabled", w)
      else doubleDown w user g now
  end.

Definition grpc_Double (doubleDownEnabled : bool) (w : World) (p : Body) (now : Time)
  : Response * World :=
  let user := usernameOf p in
  match games w !! user with
  | None => (GrpcError "INVALID_ARGUMENT" "No active hand", w)
  | Some g =>
      if negb doubleDownEnabled then
        (GrpcError "PERMISSION_DENIED" "Double-down feature is disabled", w)
      else doubleDown w user g now
  end.

(** *** Reference notions used to state the properties *)

(** The value of a card with its ace counted as 11, and as 1. *)
Definition softValue (c : Card) : Z :=
  if rank c =? 1 then 11 else if rank c >? 10 then 10 else rank c.

Definition softTotal (hand : list Card) : Z := foldr (fun c t => softValue c + t) 0 hand.

Definition aceCount (hand : list Card) : nat := length (filter (fun c => rank c = 1) hand).

(** The total of a hand with every ace counted as 1. *)
Definition hardTotal (hand : list Card) : Z := softTotal hand - 10 * Z.of_nat (aceCount hand).

Definition validCard (c : Card) : Prop := 1 <= rank c <= 13.

(** The next [n] cards of the random source. *)
Fixpoint drawCards (n : nat) (g : Rng) : list Card * Rng :=
  match n with
  | O => ([], g)
  | S m =>
      let (c, g1) := drawCard g in
      let (cs, g2) := drawCards m g1 in
      (c :: cs, g2)
  end.

(** *** Sample data *)

Definition half : Unit01 := mkUnit01 (1 # 2) eq_refl.
Definition third : Unit01 := mkUnit01 (1 # 3) eq_refl.

(** A random source whose every card is a seven of clubs, and one whose every
    card is a five of diamonds. *)
Definition sevens : Rng := fun _ => half.
Definition fives : Rng := fun _ => third.

Definition card (r : Z) : Card := mkCard r (Some Spades).

Definition alice : Body := mkBody None (Some "alice").

(** Alice holds 10 and 10 against a dealer showing 10 and 6, for a bet of 10. *)
Definition aliceTwenty : World :=
  mkWorld {[ "alice" := mkGame [card 10; card 10] [card 10; card 6] 10%Q ]} ∅ [] fives.

(** The same round with the random source dealing sevens, and one in which the
    dealer holds 10 and 7. *)
Definition dealerSixteen : World :=
  mkWorld {[ "alice" := mkGame [card 10; card 10] [card 10; card 6] 10%Q ]} ∅ [] sevens.

Definition dealerSeventeen : World :=
  mkWorld {[ "alice" := mkGame [card 10; card 10] [card 10; card 7] 10%Q ]} ∅ [] sevens.

(** A service with no round at all. *)
Definition noRounds : World := mkWorld ∅ ∅ [] sevens.

End Blackjack.

(** ** Dice service

    The Go program of the dice service ([services/dice/go], package [main]):
    [rollHandler], and [rollDie] of its test file. *)

Module Dice.

(** Go's global [math/rand] source, seeded in [main]: the successive results
    of [rand.Intn(6)]. *)
Definition RandSource := nat -> Z.

(** [RollRequest]; a field absent from the JSON body has Go's zero value. *)
Record RollRequest := mkRollRequest { BetAmount : Q; BetType : string }.

(** The HTTP request: its method and its decoded body ([None] when the body
    does not decode). *)
Record HttpRequest := mkHttpRequest { Method : string; Body : option RollRequest }.

Record RollResponse := mkRollResponse {
  Dice1 : Z;
  Dice2 : Z;
  Sum : Z;
  Win : bool;
  Payout : Q;
  RBetAmount : Q;
  RBetType : string;
  PayoutMultiplier : Q;
  Timestamp : Time
}.

Inductive Reply :=
| RollOk (r : RollResponse)
| HttpError (status : Z) (msg : string).

(** The [switch betType]: the win condition and the payout multiplier. *)
Definition winRule (betType : string) (d1 d2 : Z) : bool * Q :=
  let sum := d1 + d2 in
  if bool_decide (betType = "pass") then ((sum =? 7) || (sum =? 11), 2%Q)
  else if bool_decide (betType = "dont_pass") then ((sum =? 2) || (sum =? 3), 2%Q)
  else if bool_decide (betType = "field") then
    ((sum =? 2) || (sum =? 3) || (sum =? 4) || (sum =? 9) || (sum =? 10)
     || (sum =? 11) || (sum =? 12), 2%Q)
  else if bool_decide (betType = "snake_eyes") then ((d1 =? 1) && (d2 =? 1), 30%Q)
  else if bool_decide (betType = "boxcars") then ((d1 =? 6) && (d2 =? 6), 30%Q)
  else if bool_decide (betType = "seven_out") then (sum =? 7, 4%Q)
  else ((sum =? 7) || (sum =? 11), 2%Q).

(** [rollHandler].  The two dice are the constants the source assigns
    ([d1 := 4], [d2 := 3], with the calls of [rand.Intn] left in a comment);
    the random source is passed through untouched. *)
Definition rollHandler (src : RandSource) (req : HttpRequest) (now : Time)
  : Reply * RandSource :=
  if negb (bool_decide (Method req = "POST")) then
    (HttpError 405 "Method not allowed", src)
  else
    match Body req with
    | None => (HttpError 400 "Invalid request body", src)
    | Some body =>
        let betAmount := if Qeq_bool (BetAmount body) 0 then 10%Q else BetAmount body in
        let betType := if bool_decide (BetType body = "") then "pass" else BetType body in
        let d1 := 4 in
        let d2 := 3 in
        let sum := d1 + d2 in
        let (win, payoutMultiplier) := winRule betType d1 d2 in
        let payout := if win then (betAmount * payoutMultiplier)%Q else 0%Q in
        (RollOk (mkRollResponse d1 d2 sum win payout betAmount betType
                                payoutMultiplier now), src)
    end.

(** The dice pair of a reply, when it carries one. *)
Definition dicePair (r : Reply) : option (Z * Z) :=
  match r with
  | RollOk resp => Some (Dice1 resp, Dice2 resp)
  | HttpError _ _ => None
  end.

(** [rollDie] of the service's test file: [1 + rand.Intn(6)]. *)
Definition rollDie (src : RandSource) : Z * RandSource :=
  (1 + src O, fun n => src (S n)).

(** [calculatePayout] of the service's test file. *)
Definition calculatePayout (dice1 dice2 : Z) (betAmount : Q) : Q :=
  let sum := dice1 + dice2 in
  if ((dice1 =? 1) && (dice2 =? 1)) || ((dice1 =? 6) && (dice2 =? 6)) then
    (betAmount * 30)%Q
  else if sum =? 7 then (betAmount * 4)%Q
  else 0%Q.

End Dice.

(** ** Scoring service

    [ScoringController], [ScoringService], [GameResultRepository] and
    [PlayerScoreRepository] of [services/scoring] (package
    [com.vegas.scoring]).  The spans and log lines leave no state and are left out, but for the
    places where setting a span attribute unboxes a null. *)

Module Scoring.

(** The outcome of a call that may raise an exception. *)
Inductive Exc (A : Type) : Type :=
| Ok (a : A)
| Throw (e : string).
Arguments Ok {A} a.
Arguments Throw {A} e.

#[global] Instance Exc_ret : MRet Exc := fun A a => Ok a.
#[global] Instance Exc_bind : MBind Exc := fun A B k m =>
  match m with
  | Ok a => k a
  | Throw e => Throw e
  end.

#[global] Instance Qlt_decision (a b : Q) : Decision (a < b)%Q :=
  match Qlt_le_dec a b with
  | left H => left H
  | right H => right (Qle_not_lt _ _ H)
  end.

(** Modelled from the spec: the entity class [GameResult] is not among the
    sources; its fields are those of the RoundResult of the data model and of
    the constructor call and setters of [ScoringService.recordGameResult]. *)
Record GameResult := mkGameResult {
  gr_id : Z;
  gr_username : string;
  gr_game : string;
  gr_action : string;
  gr_betAmount : Q;
  gr_payout : Q;
  gr_win : bool;
  gr_result : option string;
  gr_gameData : option string;
  gr_metadata : option string;
  gr_timestamp : Time
}.

(** Modelled from the spec: the entity class [PlayerScore] is not among the
    sources; its fields are those of the PlayerScore of the data model and of
    the constructor call, getters and setters used by [ScoringService]. *)
Record PlayerScore := mkPlayerScore {
  ps_id : Z;
  ps_username : string;
  ps_role : string;
  ps_game : string;
  ps_score : Q;
  ps_timestamp : Time;
  ps_metadata : option string
}.

Definition setScore (s : PlayerScore) (v : Q) : PlayerScore :=
  mkPlayerScore (ps_id s) (ps_username s) (ps_role s) (ps_game s) v
                (ps_timestamp s) (ps_metadata s).
Definition setTimestamp (s : PlayerScore) (t : Time) : PlayerScore :=
  mkPlayerScore (ps_id s) (ps_username s) (ps_role s) (ps_game s) (ps_score s)
                t (ps_metadata s).
Definition setMetadata (s : PlayerScore) (m : string) : PlayerScore :=
  mkPlayerScore (ps_id s) (ps_username s) (ps_role s) (ps_game s) (ps_score s)
                (ps_timestamp s) (Some m).

(** Modelled from the spec: the class [GameResultRequest] is not among the
    sources; its fields are those the controller reads.  A JSON [null] or an
    absent field of a boxed type is [None]. *)
Record GameResultRequest := mkGameResultRequest {
  req_username : string;
  req_game : string;
  req_action : string;
  req_betAmount : option Q;
  req_payout : option Q;
  req_win : option bool;
  req_result : option string;
  req_gameData : option string;
  req_metadata : option string
}.

Record ScoreResponse := mkScoreResponse {
  resp_username : string;
  resp_role : string;
  resp_game : string;
  resp_score : Q;
  resp_rank : option Z;
  resp_initialBet : option Q;
  resp_winnings : option Q
}.

Record DashboardStats := mkDashboardStats {
  ds_game : string;
  totalGames : Z;
  totalWins : Z;
  totalLosses : Z;
  winRate : Q;
  totalBetAmount : Q;
  totalPayout : Q;
  netRevenue : Q;
  averageBetAmount : Q;
  averagePayout : Q;
  recentGames : Z;
  topPlayers : list ScoreResponse
}.

(** What the service takes from the Java platform and from classes that are
    not among the sources:
    - [formatScoreMetadata bet payout net now]: the [String.format] call that
      builds the metadata of a score row;
    - [readMetadata s]: the values [ObjectMapper.readValue] and the two
      [containsKey] tests extract from a metadata string, [initial_bet] and
      [winnings], each [None] when absent or when the parse fails;
    - [hashMapValues m]: the order in which [HashMap.values()] enumerates the
      map built by [Collectors.toMap];
    - [requestValid]: the bean validation ([@Valid]) of the request class. *)
Class Platform := {
  formatScoreMetadata : Q -> Q -> Q -> Time -> string;
  readMetadata : string -> option Q * option Q;
  hashMapValues : gmap string PlayerScore -> list PlayerScore;
  hashMapValues_perm : forall m, hashMapValues m ≡ₚ (map_to_list m).*2;
  requestValid : GameResultRequest -> bool
}.

(** *** Tables *)

(** The two tables in storage order, and the next generated id of each. *)
Record Db := mkDb {
  game_results : list GameResult;
  player_scores : list PlayerScore;
  next_result_id : Z;
  next_score_id : Z
}.

Definition emptyDb : Db := mkDb [] [] 1 1.

(** A stable insertion sort: [le x y] holds when [x] may come before [y];
    rows the order does not separate keep their relative order. *)
Fixpoint insertSorted {A} (le : A -> A -> bool) (x : A) (l : list A) : list A :=
  match l with
  | [] => [x]
  | y :: r => if le x y then x :: y :: r else y :: insertSorted le x r
  end.

Definition stableSort {A} (le : A -> A -> bool) (l : list A) : list A :=
  foldr (insertSorted le) [] l.

(** [a > b] on amounts. *)
Definition Qgtb (a b : Q) : bool := negb (Qle_bool a b).

(** ORDER BY score DESC: [a] may come before [b]. *)
Definition scoreDesc (a b : PlayerScore) : bool := Qle_bool (ps_score b) (ps_score a).

(** ORDER BY timestamp DESC *)
Definition timestampDesc (a b : PlayerScore) : bool := ps_timestamp b <=? ps_timestamp a.
Definition resultTimestampDesc (a b : GameResult) : bool := gr_timestamp b <=? gr_timestamp a.

Definition counted (game : string) (g : GameResult) : bool :=
  bool_decide (gr_game g = game) && Qgtb (gr_betAmount g) 0.

(** [GameResultRepository] and [PlayerScoreRepository] over the tables.  A
    query orders its rows by the key it names; rows with equal keys come in
    storage order. *)
Definition db_countTotalByGame (db : Db) (game : string) : Z :=
  Z.of_nat (length (filter (fun g => counted game g = true) (game_results db))).

Definition db_countWinsByGame (db : Db) (game : string) : Z :=
  Z.of_nat (length (filter (fun g => (counted game g && gr_win g) = true) (game_results db))).

Definition Qsum (l : list Q) : Q := foldr Qplus 0%Q l.

Definition db_sumBetAmountsByGame (db : Db) (game : string) : Q :=
  Qsum (gr_betAmount <$> filter (fun g => counted game g = true) (game_results db)).

Definition db_sumPayoutsByGame (db : Db) (game : string) : Q :=
  Qsum (gr_payout <$> filter (fun g => counted game g = true) (game_results db)).

Definition db_findByGameAndTimestampBetween (db : Db) (game : string) (start stop : Time)
  : list GameResult :=
  stableSort resultTimestampDesc
    (filter (fun g => (counted game g && (start <=? gr_timestamp g)
                       && (gr_timestamp g <=? stop)) = true) (game_results db)).

Definition db_findTopNByGame (db : Db) (game : string) (limit : Z) : Exc (list PlayerScore) :=
  if limit <? 0 then Throw "LIMIT must not be negative"
  else Ok (take (Z.to_nat limit)
             (stableSort scoreDesc
                (filter (fun s => ps_game s = game) (player_scores db)))).

Definition db_findByUsernameAndGameOrderByTimestampDesc (db : Db) (username game : string)
  : list PlayerScore :=
  stableSort timestampDesc
    (filter (fun s => ps_username s = username /\ ps_game s = game) (player_scores db)).

(** [save] of a new entity appends a row with a generated id. *)
Definition saveNewGameResult (db : Db) (g : GameResult) : GameResult * Db :=
  let saved := mkGameResult (next_result_id db) (gr_username g) (gr_game g) (gr_action g)
                 (gr_betAmount g) (gr_payout g) (gr_win g) (gr_result g)
                 (gr_gameData g) (gr_metadata g) (gr_timestamp g) in
  (saved, mkDb (game_results db ++ [saved]) (player_scores db)
               (next_result_id db + 1) (next_score_id db)).

Definition saveNewScore (db : Db) (s : PlayerScore) : PlayerScore * Db :=
  let saved := mkPlayerScore (next_score_id db) (ps_username s) (ps_role s) (ps_game s)
                 (ps_score s) (ps_timestamp s) (ps_metadata s) in
  (saved, mkDb (game_results db) (player_scores db ++ [saved])
               (next_result_id db) (next_score_id db + 1)).

(** [save] of a loaded entity writes its row back in place. *)
Definition saveScore (db : Db) (s : PlayerScore) : Db :=
  mkDb (game_results db)
       ((fun r => if ps_id r =? ps_id s then s else r) <$> player_scores db)
       (next_result_id db) (next_score_id db).

(** The read-only queries the dashboard uses, each of which may raise. *)
Record Repositories := mkRepositories {
  countTotalByGame : string -> Exc Z;
  countWinsByGame : string -> Exc Z;
  sumBetAmountsByGame : string -> Exc (option Q);
  sumPayoutsByGame : string -> Exc (option Q);
  findByGameAndTimestampBetweenOrderByTimestampDesc :
    string -> Time -> Time -> Exc (list GameResult);
  findTopNByGame : string -> Z -> Exc (list PlayerScore);
  findAll : Exc (list PlayerScore)
}.

(** The repositories of a database that answers every query. *)
Definition dbRepositories (db : Db) : Repositories := {|
  countTotalByGame game := Ok (db_countTotalByGame db game);
  countWinsByGame game := Ok (db_countWinsByGame db game);
  sumBetAmountsByGame game := Ok (Some (db_sumBetAmountsByGame db game));
  sumPayoutsByGame game := Ok (Some (db_sumPayoutsByGame db game));
  findByGameAndTimestampBetweenOrderByTimestampDesc game start stop :=
    Ok (db_findByGameAndTimestampBetween db game start stop);
  findTopNByGame game limit := db_findTopNByGame db game limit;
  findAll := Ok (player_scores db)
|}.

(** *** ScoringService *)

Section Service.
Context {P : Platform}.

(** [Collectors.toMap(PlayerScore::getUsername, score -> score,
    (a, b) -> a.getScore() > b.getScore() ? a : b)] over the rows in
    encounter order. *)
Definition toMapBestPerUser (rows : list PlayerScore) : gmap string PlayerScore :=
  foldl (fun m s =>
           match m !! ps_username s with
           | Some a =>
               <[ps_username s := if Qgtb (ps_score a) (ps_score s) then a else s]> m
           | None => <[ps_username s := s]> m
           end) ∅ rows.

Definition getTopPlayers (R : Repositories) (game : string) (limit : Z)
  : Exc (list PlayerScore) :=
  if bool_decide (game = "all") then
    rows ← findAll R;
    let best := hashMapValues (toMapBestPerUser rows) in
    if limit <? 0 then Throw "IllegalArgumentException"
    else Ok (take (Z.to_nat limit) (stableSort scoreDesc best))
  else findTopNByGame R game limit.

(** [x != null ? x : 0.0] *)
Definition orZero (x : option Q) : Q := default 0%Q x.

(** Twenty-four hours, in the unit of [Time] (nanoseconds). *)
Definition hours24 : Z := 24 * 3600 * 1000000000.

(** The body of the [mapToObj] of [getDashboardStats]: the row of rank
    [i + 1]. *)
Definition toScoreResponse (i : nat) (score : PlayerScore) : ScoreResponse :=
  let '(initialBet, winnings) :=
    match ps_metadata score with
    | Some m => if bool_decide (m = "") then (None, None) else readMetadata m
    | None => (None, None)
    end in
  mkScoreResponse (ps_username score) (ps_role score) (ps_game score) (ps_score score)
                  (Some (Z.of_nat i + 1)) initialBet
                  (Some (default (ps_score score) winnings)).

Definition getDashboardStats (R : Repositories) (now : Time) (game : string)
  : Exc DashboardStats :=
  totalGames ← countTotalByGame R game;
  totalWins ← countWinsByGame R game;
  let totalLosses := totalGames - totalWins in
  let winRate :=
    if totalGames >? 0 then (inject_Z totalWins / inject_Z totalGames * 100)%Q
    else 0%Q in
  totalBetAmount ← sumBetAmountsByGame R game;
  totalPayout ← sumPayoutsByGame R game;
  let netRevenue := (orZero totalBetAmount - orZero totalPayout)%Q in
  let averageBetAmount :=
    if totalGames >? 0 then (orZero totalBetAmount / inject_Z totalGames)%Q else 0%Q in
  let averagePayout :=
    if totalGames >? 0 then (orZero totalPayout / inject_Z totalGames)%Q else 0%Q in
  recentResults ←
    findByGameAndTimestampBetweenOrderByTimestampDesc R game (now - hours24) now;
  topPlayerScores ← getTopPlayers R game 10;
  mret (mkDashboardStats game totalGames totalWins totalLosses winRate
          (orZero totalBetAmount) (orZero totalPayout) netRevenue
          averageBetAmount averagePayout
          (Z.of_nat (length recentResults))
          (imap toScoreResponse topPlayerScores)).

(** The row built in the [catch] of [getAllGamesDashboardStats]. *)
Definition emptyStats (game : string) : DashboardStats :=
  mkDashboardStats game 0 0 0 0%Q 0%Q 0%Q 0%Q 0%Q 0%Q 0 [].

Definition allGames : list string := ["slots"; "roulette"; "dice"; "blackjack"].

Definition getAllGamesDashboardStats (R : Repositories) (now : Time)
  : list DashboardStats :=
  (fun game =>
     match getDashboardStats R now game with
     | Ok stats => stats
     | Throw _ => emptyStats game
     end) <$> allGames.

(** [recordGameResult] runs in a transaction: when it raises, the tables are
    as they were.  A null amount raises NullPointerException where
    [payout - betAmount] is unboxed. *)
Definition recordGameResult (db : Db) (now : Time) (username game action : string)
    (betAmount payout : option Q) (win : bool)
    (result gameData metadata : option string) : Exc GameResult * Db :=
  match betAmount, payout with
  | Some bet, Some pay =>
      let gameResult :=
        mkGameResult 0 username game action bet pay win result gameData metadata now in
      let (savedResult, db1) := saveNewGameResult db gameResult in
      let existingScores :=
        db_findByUsernameAndGameOrderByTimestampDesc db1 username game in
      let scoreMetadata := formatScoreMetadata bet pay (pay - bet)%Q now in
      match head existingScores with
      | Some existingScore =>
          let currentBestPayout := ps_score existingScore in
          if Qgtb pay currentBestPayout then
            (Ok savedResult,
             saveScore db1
               (setMetadata (setTimestamp (setScore existingScore pay) now)
                            scoreMetadata))
          else
            (Ok savedResult, saveScore db1 (setTimestamp existingScore now))
      | None =>
          let newScore :=
            setMetadata (mkPlayerScore 0 username "player" game pay now None)
                        scoreMetadata in
          (Ok savedResult, snd (saveNewScore db1 newScore))
      end
  | _, _ => (Throw "NullPointerException", db)
  end.

(** *** ScoringController *)

Inductive HttpResult :=
| Created (body : GameResult)
| BadRequest
| ServerError (e : string).

(** [POST /api/scoring/game-result].  A null [win] raises where the span
    attribute [scoring.win] is unboxed, before the service is called. *)
Definition ScoringController_recordGameResult (db : Db) (now : Time)
    (request : GameResultRequest) : HttpResult * Db :=
  if negb (requestValid request) then (BadRequest, db)
  else
    match req_betAmount request with
    | None => (BadRequest, db)
    | Some b =>
        if Qle_bool b 0 then (BadRequest, db)
        else
          match req_win request with
          | None => (ServerError "NullPointerException", db)
          | Some win =>
              match recordGameResult db now (req_username request) (req_game request)
                      (req_action request) (req_betAmount request)
                      (req_payout request) win (req_result request)
                      (req_gameData request) (req_metadata request) with
              | (Ok result, db') => (Created result, db')
              | (Throw e, db') => (ServerError e, db')
              end
          end
    end.

(** [GET /api/scoring/dashboard/{game}] over the tables. *)
Definition ScoringController_getDashboardStats (db : Db) (now : Time) (game : string)
  : Exc DashboardStats :=
  getDashboardStats (dbRepositories db) now game.

(** One call of [ScoringService.recordGameResult] and the instant at which it
    runs. *)
Record Call := mkCall {
  c_now : Time;
  c_username : string;
  c_game : string;
  c_action : string;
  c_betAmount : option Q;
  c_payout : option Q;
  c_win : bool;
  c_result : option string;
  c_gameData : option string;
  c_metadata : option string
}.

Definition runCall (db : Db) (c : Call) : Db :=
  snd (recordGameResult db (c_now c) (c_username c) (c_game c) (c_action c)
         (c_betAmount c) (c_payout c) (c_win c) (c_result c) (c_gameData c)
         (c_metadata c)).

Definition runCalls (db : Db) (calls : list Call) : Db := foldl runCall db calls.

(** The score row [recordGameResult] reads for a player and a game, and its
    best payout. *)
Definition storedScore (db : Db) (username game : string) : option PlayerScore :=
  head (db_findByUsernameAndGameOrderByTimestampDesc db username game).

Definition bestPayout (db : Db) (username game : string) : option Q :=
  ps_score <$> storedScore db username game.

(** [GET /api/scoring/leaderboard/{game}]: the rows of [getTopPlayers] with
    their position as rank, built with the five-argument constructor of
    [ScoreResponse]. *)
Definition ScoringController_getLeaderboard (R : Repositories) (game : string) (limit : Z)
  : Exc (list ScoreResponse) :=
  scores ← getTopPlayers R game limit;
  mret (imap (fun i score =>
                mkScoreResponse (ps_username score) (ps_role score) (ps_game score)
                  (ps_score score) (Some (Z.of_nat i + 1)) None None) scores).

End Service.

(** *** Reference notions used to state the properties *)

Definition scoreKey (s : PlayerScore) : string * string := (ps_username s, ps_game s).

(** The shape of a score table that only [recordGameResult] has written: no
    two rows for the same player and game, distinct ids, all below the next
    generated id. *)
Definition scoresConsistent (db : Db) : Prop :=
  NoDup (scoreKey <$> player_scores db) /\
  NoDup (ps_id <$> player_scores db) /\
  Forall (fun s => ps_id s < next_score_id db) (player_scores db).

(** *** Sample data *)

(** A platform for the examples: the map is enumerated in key order, every
    request passes validation, and metadata strings carry nothing. *)
Definition samplePlatform : Platform := {|
  formatScoreMetadata := fun _ _ _ _ => "{}";
  readMetadata := fun _ => (None, None);
  hashMapValues := fun m => (map_to_list m).*2;
  hashMapValues_perm := fun m => reflexivity _;
  requestValid := fun _ => true
|}.

(** Two rounds of Alice at the slots: a payout of 50, then one of 30. *)
Definition round50 : Call :=
  mkCall 100 "alice" "slots" "spin" (Some 10%Q) (Some 50%Q) true None None None.
Definition round30 : Call :=
  mkCall 200 "alice" "slots" "spin" (Some 10%Q) (Some 30%Q) true None None None.

(** A submission with a bet of 0. *)
Definition zeroBet : GameResultRequest :=
  mkGameResultRequest "alice" "slots" "spin" (Some 0%Q) (Some 50%Q) (Some true)
                      None None None.

(** Repositories whose queries for the dice game raise, over a database with
    one round of slots. *)
Definition oneRound : Db := runCall (P := samplePlatform) emptyDb round50.

Definition diceDown : Repositories :=
  let R := dbRepositories oneRound in
  mkRepositories
    (fun game => if bool_decide (game = "dice") then Throw "connection refused"
                 else countTotalByGame R game)
    (countWinsByGame R) (sumBetAmountsByGame R) (sumPayoutsByGame R)
    (findByGameAndTimestampBetweenOrderByTimestampDesc R)
    (findTopNByGame R) (findAll R).

(** Two score rows at the slots with the same best payout: Bob's is the older
    one and was stored first. *)
Definition bobRow : PlayerScore := mkPlayerScore 1 "bob" "player" "slots" 50%Q 100 None.
Definition carolRow : PlayerScore := mkPlayerScore 2 "carol" "player" "slots" 50%Q 200 None.
Definition tiedScores : Db := mkDb [] [bobRow; carolRow] 1 3.

(** *** More of the repositories and of the service *)

(** [findFirstByUsernameAndGameOrderByScoreDesc] and
    [ScoringService.getBestScoreForUser]. *)
Definition db_findFirstByUsernameAndGameOrderByScoreDesc (db : Db) (username game : string)
  : option PlayerScore :=
  head (stableSort scoreDesc
          (filter (fun s => ps_username s = username /\ ps_game s = game)
                  (player_scores db))).

Definition getBestScoreForUser (db : Db) (username game : string) : option PlayerScore :=
  db_findFirstByUsernameAndGameOrderByScoreDesc db username game.

(** [findRecentByGame] and [ScoringService.getRecentGameResults]. *)
Definition db_findRecentByGame (db : Db) (game : string) (limit : Z)
  : Exc (list GameResult) :=
  if limit <? 0 then Throw "LIMIT must not be negative"
  else Ok (take (Z.to_nat limit)
             (stableSort resultTimestampDesc
                (filter (fun g => counted game g = true) (game_results db)))).

Definition getRecentGameResults (db : Db) (game : string) (limit : Z)
  : Exc (list GameResult) :=
  db_findRecentByGame db game limit.

(** [findByTimestampBetween] and [ScoringService.getGameResultsByTimeRange]. *)
Definition db_findByTimestampBetween (db : Db) (start stop : Time) : list GameResult :=
  stableSort resultTimestampDesc
    (filter (fun g => (Qgtb (gr_betAmount g) 0 && (start <=? gr_timestamp g)
                       && (gr_timestamp g <=? stop)) = true) (game_results db)).

Definition getGameResultsByTimeRange (db : Db) (start stop : Time) : list GameResult :=
  db_findByTimestampBetween db start stop.

(** [ScoringService.recordScore]: a new [PlayerScore] is built and saved.  A
    null score raises where the span attribute [db.score] is unboxed, before
    the row is saved. *)
Definition recordScore (db : Db) (now : Time) (username role game : string)
    (score : option Q) (metadata : option string) : Exc PlayerScore * Db :=
  match score with
  | Some sc =>
      let playerScore := mkPlayerScore 0 username role game sc now metadata in
      let (savedScore, db') := saveNewScore db playerScore in
      (Ok savedScore, db')
  | None => (Throw "NullPointerException", db)
  end.

(** Sample data: Alice's round of 50 followed by a score of 7 recorded for
    her at the slots at a later instant. *)
Definition oneRoundThenScore : Db :=
  snd (recordScore oneRound 150 "alice" "player" "slots" (Some 7%Q) None).

(** The score rows mirror the stored rounds: the row of a player and game
    holds the payout of one of their rounds, no round of theirs paid more,
    and there is no row exactly when they have no round. *)
Definition scoresMirrorRounds (db : Db) : Prop :=
  forall u g : string,
    match storedScore db u g with
    | Some row =>
        (exists r, r ∈ game_results db /\ gr_username r = u /\ gr_game r = g /\
                   gr_payout r = ps_score row) /\
        (forall r, r ∈ game_results db -> gr_username r = u -> gr_game r = g ->
                   (gr_payout r <= ps_score row)%Q)
    | None =>
        forall r, r ∈ game_results db -> ~ (gr_username r = u /\ gr_game r = g)
    end.

End Scoring.

(** ** Whack-a-mole service

    The HTTP whack-a-mole service: the routes [/start], [/hit], [/miss],
    [/end] and [/status/:username] over the module-level [games] map.
    [Date.now()] counts milliseconds; hits, misses and scores are integers,
    far below the range in which a JavaScript number stops being exact. *)

Module WhackAMole.

(** [{ score, moles, timeRemaining, hits, misses, startTime, combo, maxCombo }] *)
Record Game := mkGame {
  score : Z;
  moles : Z;
  timeRemaining : Z;
  hits : Z;
  misses : Z;
  startTime : Time;
  combo : Z;
  maxCombo : Z
}.

Definition Games := gmap string Game.

Definition GAME_DURATION : Z := 60000.
Definition INITIAL_MOLE_COUNT : Z := 3.
Definition MAX_MOLES : Z := 8.

Definition initializeGame (now : Time) : Game :=
  mkGame 0 INITIAL_MOLE_COUNT GAME_DURATION 0 0 now 0 0.

(** [Math.floor(combo * 10)] of an integer [combo] is [combo * 10]. *)
Definition calculateScore (hits misses combo : Z) : Z :=
  let baseScore := hits * 100 in
  let comboBonus := combo * 10 in
  let penalty := misses * 5 in
  Z.max 0 (baseScore + comboBonus - penalty).

(** The request body [{ Username }]; an absent field is [None]. *)
Record Body := mkBody { Username : option string }.

(** The replies.  [Accuracy] is [None] for the text ['0%'] and otherwise the
    percentage that [toFixed(2)] then prints. *)
Inductive Response :=
| Started (Username : string) (Score Moles TimeRemaining : Z) (GameId : Time)
| HitOk (Score Hits Misses Combo Moles TimeRemaining : Z)
| MissOk (Score Hits Misses Combo TimeRemaining : Z)
| Ended (FinalScore Hits Misses MaxCombo : Z) (Accuracy : option Q)
| StatusOk (Username : string) (Active : bool)
           (Score Hits Misses Combo Moles TimeRemaining : Z)
| NotFound
| GameOver (FinalScore Hits Misses MaxCombo : Z).

(** [req.body.Username || 'anonymous'] *)
Definition usernameOf (p : Body) : string :=
  match Username p with
  | Some s => if bool_decide (s = "") then "anonymous" else s
  | None => "anonymous"
  end.

(** [app.post('/start')]: [now] is the instant read by [initializeGame],
    [idNow] the one read for the [GameId]. *)
Definition post_start (games : Games) (p : Body) (now idNow : Time) : Response * Games :=
  let username := usernameOf p in
  let game := initializeGame now in
  (Started username (score game) (moles game) (timeRemaining game) idNow,
   <[username := game]> games).

(** [app.post('/hit')]; the stored object is updated in place. *)
Definition post_hit (games : Games) (p : Body) (now : Time) : Response * Games :=
  let username := usernameOf p in
  match games !! username with
  | None => (NotFound, games)
  | Some game =>
      let timeElapsed := now - startTime game in
      if GAME_DURATION <? timeElapsed then
        (GameOver (score game) (hits game) (misses game) (maxCombo game), games)
      else
        let hits' := hits game + 1 in
        let combo' := combo game + 1 in
        let maxCombo' := Z.max (maxCombo game) combo' in
        let score' := calculateScore hits' (misses game) combo' in
        let moles' :=
          if (Z.rem hits' 5 =? 0) && (moles game <? MAX_MOLES)
          then moles game + 1 else moles game in
        let game' := mkGame score' moles' (timeRemaining game) hits' (misses game)
                            (startTime game) combo' maxCombo' in
        (HitOk score' hits' (misses game) combo' moles'
               (Z.max 0 (GAME_DURATION - timeElapsed)),
         <[username := game']> games)
  end.

(** [app.post('/miss')] *)
Definition post_miss (games : Games) (p : Body) (now : Time) : Response * Games :=
  let username := usernameOf p in
  match games !! username with
  | None => (NotFound, games)
  | Some game =>
      let timeElapsed := now - startTime game in
      if GAME_DURATION <? timeElapsed then
        (GameOver (score game) (hits game) (misses game) (maxCombo game), games)
      else
        let misses' := misses game + 1 in
        let combo' := 0 in
        let score' := calculateScore (hits game) misses' combo' in
        let game' := mkGame score' (moles game) (timeRemaining game) (hits game) misses'
                            (startTime game) combo' (maxCombo game) in
        (MissOk score' (hits game) misses' combo'
                (Z.max 0 (GAME_DURATION - timeElapsed)),
         <[username := game']> games)
  end.

(** [hits > 0 ? (hits / (hits + misses) * 100).toFixed(2) + '%' : '0%'] *)
Definition accuracy (hits misses : Z) : option Q :=
  if 0 <? hits
  then Some (inject_Z hits / inject_Z (hits + misses) * 100)%Q
  else None.

(** [app.post('/end')] *)
Definition post_end (games : Games) (p : Body) : Response * Games :=
  let username := usernameOf p in
  match games !! username with
  | None => (NotFound, games)
  | Some game =>
      (Ended (score game) (hits game) (misses game) (maxCombo game)
             (accuracy (hits game) (misses game)),
       delete username games)
  end.

(** [app.get('/status/:username')]: the name is the path parameter as given. *)
Definition get_status (games : Games) (username : string) (now : Time) : Response :=
  match games !! username with
  | None => NotFound
  | Some game =>
      let timeElapsed := now - startTime game in
      let gameActive := timeElapsed <? GAME_DURATION in
      StatusOk username gameActive (score game) (hits game) (misses game) (combo game)
               (moles game) (Z.max 0 (GAME_DURATION - timeElapsed))
  end.

(** *** Sessions *)

(** The requests that change the map, and a sequence of them served in
    order. *)
Inductive Request :=
| Start (p : Body) (now idNow : Time)
| Hit (p : Body) (now : Time)
| Miss (p : Body) (now : Time)
| Stop (p : Body).

Definition serve (games : Games) (r : Request) : Response * Games :=
  match r with
  | Start p now idNow => post_start games p now idNow
  | Hit p now => post_hit games p now
  | Miss p now => post_miss games p now
  | Stop p => post_end games p
  end.

Definition serveAll (games : Games) (rs : list Request) : Games :=
  foldl (fun g r => (serve g r).2) games rs.

(** What every stored game satisfies. *)
Definition wellFormed (g : Game) : Prop :=
  0 <= misses g /\
  0 <= combo g <= maxCombo g /\
  maxCombo g <= hits g /\
  moles g = Z.min MAX_MOLES (INITIAL_MOLE_COUNT + hits g / 5) /\
  score g = calculateScore (hits g) (misses g) (combo g) /\
  timeRemaining g = GAME_DURATION.

(** *** Sample data *)

Definition bob : Body := mkBody (Some "bob").

(** Bob starts at instant 1000, hits five times and misses once. *)
Definition bobPlays : list Request :=
  [Start bob 1000 1000; Hit bob 2000; Hit bob 3000; Hit bob 4000; Hit bob 5000;
   Hit bob 6000; Miss bob 7000].

End WhackAMole.

(** ** Slots service

    The slots service with gRPC support: [calculateWin], the gRPC method
    [Spin] of [SlotsServiceImpl] and the HTTP route [/spin].  Symbols are the
    strings of the source; joining and comparing them as byte strings agrees
    with JavaScript's joining and [===] on the same texts. *)

Module Slots.
Import Blackjack(Unit01, u_val, Rng, random, randomIndex).

Definition symbols : list string := ["🍒"; "🍋"; "🍊"; "🔔"; "⭐"; "💎"; "7️⃣"].

(** The table [winMultipliers]; a text that is no key of it reads as
    [undefined]. *)
Definition winMultipliers : gmap string Z :=
  list_to_map [("7️⃣7️⃣7️⃣", 100); ("💎💎💎", 50); ("⭐⭐⭐", 25);
               ("🔔🔔🔔", 10); ("🍒🍒🍒", 5); ("🍋🍋🍋", 3);
               ("🍊🍊🍊", 2)].

(** [{ win, winAmount, multiplier, winType }] *)
Record WinResult := mkWinResult {
  win : bool;
  winAmount : Q;
  multiplier : Z;
  winType : string
}.

(** [calculateWin(result, betAmount)].  [result[i]] beyond the end of the
    array is [undefined], equal to itself under [===]. *)
Definition calculateWin (result : list string) (betAmount : Q) : WinResult :=
  let resultStr := String.concat "" result in
  let multiplier := default 0 (winMultipliers !! resultStr) in
  let winAmount := if 0 <? multiplier then (betAmount * inject_Z multiplier)%Q else 0%Q in
  let win := 0 <? multiplier in
  let winType :=
    if 100 <=? multiplier then "jackpot"
    else if 25 <=? multiplier then "big-win"
    else if 5 <=? multiplier then "win"
    else if bool_decide (result !! 0%nat = result !! 1%nat)
            || bool_decide (result !! 1%nat = result !! 2%nat) then "near-miss"
    else "none" in
  mkWinResult win winAmount multiplier winType.

(** Request bodies: HTTP [{ BetAmount, CheatActive, CheatType }], gRPC
    [{ bet_amount, cheat_active, cheat_type, username }]; an absent field is
    [None]. *)
Record Body := mkBody {
  BetAmount : option Q;
  CheatActive : option bool;
  CheatType : option string;
  Username : option string
}.

(** [p.BetAmount || 10] *)
Definition betAmountOf (p : Body) : Q :=
  match BetAmount p with
  | Some b => if Qeq_bool b 0 then 10%Q else b
  | None => 10%Q
  end.

(** [p.CheatActive || false] *)
Definition cheatActiveOf (p : Body) : bool := default false (CheatActive p).

(** [p.CheatType || ''] *)
Definition cheatTypeOf (p : Body) : string := default "" (CheatType p).

(** [username || 'Anonymous'] *)
Definition usernameOf (p : Body) : string :=
  match Username p with
  | Some s => if bool_decide (s = "") then "Anonymous" else s
  | None => "Anonymous"
  end.

(** The values of the flags [slots.min-bet] and [slots.max-bet] as numbers. *)
Record Flags := mkFlags { min_bet : Q; max_bet : Q }.

(** [Number(flag) || 10] and [Number(flag) || 1000] *)
Definition minBetOf (f : Flags) : Q := if Qeq_bool (min_bet f) 0 then 10%Q else min_bet f.
Definition maxBetOf (f : Flags) : Q := if Qeq_bool (max_bet f) 0 then 1000%Q else max_bet f.

(** [symbols[Math.floor(Math.random() * symbols.length)]]; the index is
    always within the array. *)
Definition drawSymbol (g : Rng) : string * Rng :=
  let (r, g') := random g in
  (default "" (symbols !! Z.to_nat (randomIndex r (Z.of_nat (length symbols)))), g').

Definition threeSevens : list string := ["7️⃣"; "7️⃣"; "7️⃣"].

(** The three symbols of a spin and [cheatBoosted]; [Math.random() < 0.3]
    is read only when the cheat [symbolControl] is active, and 0.3 is the
    rational 3/10. *)
Definition spinSymbols (g : Rng) (cheatActive : bool) (cheatType : string)
  : list string * bool * Rng :=
  let (s1, g1) := drawSymbol g in
  let (s2, g2) := drawSymbol g1 in
  let (s3, g3) := drawSymbol g2 in
  if cheatActive && bool_decide (cheatType = "symbolControl") then
    let (r, g4) := random g3 in
    if bool_decide (u_val r < 3 # 10)%Q then (threeSevens, true, g4)
    else ([s1; s2; s3], false, g4)
  else ([s1; s2; s3], false, g3).

(** The reply of a spin; its [description] is ['You won <winAmount>!'] for a
    win and ['Better luck next time!'] otherwise. *)
Record SpinReply := mkSpinReply {
  r_result : list string;
  r_win : bool;
  r_winAmount : Q;
  r_betAmount : Q;
  r_multiplier : Z;
  r_winType : string;
  r_timestamp : Time;
  r_cheatActive : bool;
  r_cheatType : string;
  r_cheatBoosted : bool
}.

Inductive Response :=
| SpinOk (reply : SpinReply)
| InvalidArgument (minBet maxBet : Q).

(** The value written to Redis under [slots:<user>:state]. *)
Record SlotsState := mkSlotsState {
  lastSpin : Time;
  lastResult : list string;
  lastWin : bool;
  lastWinAmount : Q
}.

(** The message handed to the scoring service by [Spin]; its [result] is
    ['win'] or ['lose'] after [sr_win]. *)
Record SpinRecord := mkSpinRecord {
  sr_username : string;
  sr_betAmount : Q;
  sr_payout : Q;
  sr_win : bool;
  sr_result : list string;
  sr_multiplier : Z;
  sr_winType : string;
  sr_cheatActive : bool;
  sr_cheatType : string;
  sr_cheatBoosted : bool;
  sr_timestamp : Time
}.

(** The state the handlers work on: the Redis keys, the results sent to the
    scoring service, and the random source.  As in the blackjack service,
    [set] of [common/redis] is taken to succeed; the expiry of the key after
    an hour is not modelled. *)
Record World := mkWorld {
  redis : gmap string SlotsState;
  recorded : list SpinRecord;
  rng : Rng
}.

Definition stateKey (user : string) : string := ("slots:" ++ user ++ ":state")%string.

(** [SlotsServiceImpl.Spin] *)
Definition grpc_Spin (f : Flags) (w : World) (p : Body) (now : Time) : Response * World :=
  let betAmount := betAmountOf p in
  let cheatActive := cheatActiveOf p in
  let cheatType := cheatTypeOf p in
  let user := usernameOf p in
  let minBet := minBetOf f in
  let maxBet := maxBetOf f in
  if bool_decide (betAmount < minBet)%Q || bool_decide (maxBet < betAmount)%Q then
    (InvalidArgument minBet maxBet, w)
  else
    let '(result, cheatBoosted, g') := spinSymbols (rng w) cheatActive cheatType in
    let r := calculateWin result betAmount in
    let state := mkSlotsState now result (win r) (winAmount r) in
    let record := mkSpinRecord user betAmount (winAmount r) (win r) result (multiplier r)
                               (winType r) cheatActive cheatType cheatBoosted now in
    (SpinOk (mkSpinReply result (win r) (winAmount r) betAmount (multiplier r) (winType r)
                         now cheatActive cheatType cheatBoosted),
     mkWorld (<[stateKey user := state]> (redis w)) (recorded w ++ [record]) g').

(** [app.post('/spin')] *)
Definition http_spin (w : World) (p : Body) (now : Time) : Response * World :=
  let betAmount := betAmountOf p in
  let cheatActive := cheatActiveOf p in
  let cheatType := cheatTypeOf p in
  let '(result, cheatBoosted, g') := spinSymbols (rng w) cheatActive cheatType in
  let r := calculateWin result betAmount in
  (SpinOk (mkSpinReply result (win r) (winAmount r) betAmount (multiplier r) (winType r)
                       now cheatActive cheatType cheatBoosted),
   mkWorld (redis w) (recorded w) g').

(** *** Sample data *)

Definition defaultFlags : Flags := mkFlags 10 1000.

Definition idle : World := mkWorld ∅ [] Blackjack.sevens.

End Slots.

(** ** Frontend service

    [frontend-service.js]: the balance functions over Redis,
    [updateBalanceFromGameResult], and the routes
    [/api/games/:gameId/deal] and [/api/games/:gameId/stand] that proxy a
    blackjack round to the game service.  The call of the game service is an
    input of the route: its result, or its failure.  Redis holds the text of
    the balance, which [parseFloat] reads back as the number written; the
    store below holds the number. *)

Module Frontend.

Definition DEFAULT_START_BALANCE : Q := 1000.
Definition BALANCE_KEY_PREFIX : string := "vegas:balance:".

(** The Redis client: whether it answers, and the balances stored.  A call
    on a client that does not answer raises. *)
Record Redis := mkRedis {
  available : bool;
  balances : gmap string Q
}.

(** [Math.max(0, x)] *)
Definition max0 (x : Q) : Q := if Qle_bool 0 x then x else 0%Q.

(** [a || b] on texts and on numbers. *)
Definition strOr (a : option string) (b : string) : string :=
  match a with
  | Some s => if bool_decide (s = "") then b else s
  | None => b
  end.

Definition numOr (a : option Q) (b : Q) : Q :=
  match a with
  | Some x => if Qeq_bool x 0 then b else x
  | None => b
  end.

Definition balanceKey (username : option string) : string :=
  (BALANCE_KEY_PREFIX ++ strOr username "Anonymous")%string.

(** [getUserBalance]: the error of the client is caught. *)
Definition getUserBalance (r : Redis) (username : option string) : Q :=
  if available r
  then default DEFAULT_START_BALANCE (balances r !! balanceKey username)
  else DEFAULT_START_BALANCE.

(** [setUserBalance] *)
Definition setUserBalance (r : Redis) (username : option string) (balance : Q) : Q * Redis :=
  if available r
  then (max0 balance,
        mkRedis (available r) (<[balanceKey username := max0 balance]> (balances r)))
  else (balance, r).

(** [updateUserBalance]: when the write raises, the handler computes the
    same sum again from the balance it reads. *)
Definition updateUserBalance (r : Redis) (username : option string) (delta : Q) : Q * Redis :=
  let currentBalance := getUserBalance r username in
  let newBalance := max0 (currentBalance + delta) in
  if available r
  then (newBalance,
        mkRedis (available r) (<[balanceKey username := newBalance]> (balances r)))
  else (newBalance, r).

(** The result object of a game service, as far as the balance and the
    scoring messages read it; its other fields travel with it unchanged. *)
Record GameOutcome := mkGameOutcome {
  payout : option Q;
  winAmount : option Q;
  game : option string;
  action : option string;
  result : option string;
  cheat_active : option bool;
  cheat_type : option string
}.

(** The two requests posted to the scoring service: [/api/scoring/game-result]
    and [/api/scoring/record]. *)
Inductive ScoringPost :=
| GameResultPost (username game action : string) (betAmount payout : Q) (win : bool)
                 (result : string) (balance : Q) (cheatActive : bool)
                 (cheatType : option string) (timestamp : Time)
| RecordPost (username role game : string) (score : Q) (betAmount payout : Q)
             (win : bool) (timestamp : Time).

(** Redis and the requests posted so far. *)
Record State := mkState {
  redis : Redis;
  posts : list ScoringPost
}.

(** [updateBalanceFromGameResult(username, betAmount, result)]; a failure of
    either post is caught. *)
Definition updateBalanceFromGameResult (st : State) (username : option string)
    (betAmount : option Q) (o : GameOutcome) (now : Time) : option Q * State :=
  if bool_decide (strOr username "" = "") then (None, st)
  else
    match betAmount with
    | None => (None, st)
    | Some bet =>
        if Qle_bool bet 0 then (None, st)
        else
          let r1 := (updateUserBalance (redis st) username (- bet)).2 in
          let pay := numOr (payout o) (numOr (winAmount o) 0) in
          let r2 := if bool_decide (0 < pay)%Q
                    then (updateUserBalance r1 username pay).2 else r1 in
          let newBalance := getUserBalance r2 username in
          let user := strOr username "" in
          let gameName := strOr (game o) "unknown" in
          let actionName := strOr (action o) "play" in
          let win := bool_decide (0 < pay)%Q in
          let resultType := strOr (result o) (if win then "win" else "lose") in
          (Some newBalance,
           mkState r2
             (posts st ++
                [GameResultPost user gameName actionName bet pay win resultType newBalance
                                (default false (cheat_active o))
                                (match cheat_type o with
                                 | Some s => if bool_decide (s = "") then None else Some s
                                 | None => None
                                 end) now;
                 RecordPost user "player" gameName newBalance bet pay win now]))
    end.

(** The body of a game request: [{ Username, username, BetAmount, betAmount }]. *)
Record Body := mkBody {
  Username : option string;
  username_lc : option string;
  BetAmount : option Q;
  betAmount_lc : option Q
}.

(** [req.body.Username || req.body.username || 'Anonymous'] *)
Definition usernameOf (b : Body) : string :=
  strOr (Username b) (strOr (username_lc b) "Anonymous").

(** [req.body.BetAmount || req.body.betAmount || 0], raised to 10 when it is
    not positive. *)
Definition betAmountOf (b : Body) : Q :=
  let betAmount := numOr (BetAmount b) (numOr (betAmount_lc b) 0) in
  if Qle_bool betAmount 0 then 10%Q else betAmount.

(** The replies of a game route; [A] is the result object of the game
    service, sent back with [newBalance] added. *)
Inductive Response (A : Type) :=
| Unavailable
| InsufficientBalance (balance required : Q)
| Played (result : A) (newBalance : Q)
| Failed.
Arguments Unavailable {A}.
Arguments InsufficientBalance {A}.
Arguments Played {A}.
Arguments Failed {A}.

(** [app.post('/api/games/:gameId/deal')]: [clientAvailable] tells whether
    [grpcClients[gameId].deal] exists, [call] is the result of the call, or
    [None] when it fails. *)
Definition post_deal {A} (st : State) (b : Body) (clientAvailable : bool)
    (call : option A) : Response A * State :=
  let username := usernameOf b in
  let betAmount := betAmountOf b in
  if negb clientAvailable then (Unavailable, st)
  else
    let currentBalance := getUserBalance (redis st) (Some username) in
    if bool_decide (currentBalance < betAmount)%Q
    then (InsufficientBalance currentBalance betAmount, st)
    else
      let r1 := (updateUserBalance (redis st) (Some username) (- betAmount)).2 in
      match call with
      | None => (Failed, mkState r1 (posts st))
      | Some result =>
          let newBalance := getUserBalance r1 (Some username) in
          (Played result newBalance, mkState r1 (posts st))
      end.

(** [app.post('/api/games/:gameId/stand')] *)
Definition post_stand (st : State) (gameId : string) (b : Body) (clientAvailable : bool)
    (call : option GameOutcome) (now : Time) : Response GameOutcome * State :=
  let username := usernameOf b in
  let betAmount := betAmountOf b in
  if negb clientAvailable then (Unavailable, st)
  else
    match call with
    | None => (Failed, st)
    | Some result0 =>
        let result := mkGameOutcome (payout result0) (winAmount result0) (Some gameId)
                                    (Some "stand") (Frontend.result result0)
                                    (cheat_active result0) (cheat_type result0) in
        let pay := numOr (payout result) 0 in
        let r1 := if bool_decide (0 < pay)%Q
                  then (updateUserBalance (redis st) (Some username) pay).2
                  else redis st in
        let newBalance := getUserBalance r1 (Some username) in
        let st1 := (updateBalanceFromGameResult (mkState r1 (posts st)) (Some username)
                      (Some betAmount)
                      (mkGameOutcome (Some pay) (winAmount result) (game result)
                                     (action result) (Frontend.result result)
                                     (cheat_active result) (cheat_type result))
                      now).2 in
        (Played result newBalance, st1)
    end.

(** *** Sample data *)

(** Dana holds 100 and bets 10; the hand is won with a payout of 20. *)
Definition dana : Body := mkBody (Some "dana") None (Some 10%Q) None.

Definition danaHolds100 : State :=
  mkState (mkRedis true {[ balanceKey (Some "dana") := 100%Q ]}) [].

Definition wonTwenty : GameOutcome :=
  mkGameOutcome (Some 20%Q) None None None (Some "win") None None.

End Frontend.

(** * Properties *)

(** ** Blackjack *)

Module BlackjackFacts.
Import Blackjack.

Lemma scoreCards_totals hand : forall score aces,
  scoreCards hand score aces = (score + softTotal hand, (aces + aceCount hand)%nat).
Proof.
  induction hand as [|c rest IH]; intros score aces; simpl.
  - f_equal; [lia | unfold aceCount; simpl; lia].
  - unfold aceCount, softValue in *. rewrite filter_cons.
    destruct (Z.eqb_spec (rank c) 1) as [E|E].
    + rewrite IH. rewrite decide_True by done. simpl. f_equal; lia.
    + rewrite decide_False by done.
      destruct (rank c >? 10); rewrite IH; f_equal; lia.
Qed.

(** The loop that turns aces from 11 to 1: it makes [k] reductions, each one
    while the running total exceeded 21, and stops above 21 only when no ace
    is left to reduce. *)
Lemma reduceAces_spec aces : forall score,
  exists k : nat,
    (k <= aces)%nat /\
    reduceAces aces score = (score - 10 * Z.of_nat k, (aces - k)%nat) /\
    (forall j : nat, (j < k)%nat -> 21 < score - 10 * Z.of_nat j) /\
    (21 < score - 10 * Z.of_nat k -> k = aces).
Proof.
  induction aces as [|a IH]; intros score; simpl.
  - exists O. repeat split; try lia. f_equal; lia.
  - destruct (Z.gtb_spec score 21) as [Hgt|Hle].
    + destruct (IH (score - 10)) as (k & Hk & Hr & Hj & Hstop).
      exists (S k). repeat split.
      * lia.
      * rewrite Hr. f_equal; lia.
      * intros [|j] Hlt; [lia|]. specialize (Hj j). lia.
      * intros H. rewrite Hstop; [done | lia].
    + exists O. repeat split; try lia. f_equal; lia.
Qed.

Lemma scoreHandState_spec hand :
  exists k : nat,
    (k <= aceCount hand)%nat /\
    scoreHandState hand = (softTotal hand - 10 * Z.of_nat k, (aceCount hand - k)%nat) /\
    (forall j : nat, (j < k)%nat -> 21 < softTotal hand - 10 * Z.of_nat j) /\
    (21 < softTotal hand - 10 * Z.of_nat k -> k = aceCount hand).
Proof.
  unfold scoreHandState. rewrite scoreCards_totals. simpl.
  destruct (reduceAces_spec (aceCount hand) (softTotal hand)) as (k & H1 & H2 & H3 & H4).
  exists k. replace (0 + softTotal hand) with (softTotal hand) by lia. auto.
Qed.

(** C2: [scoreHand] counts every ace as 11 ([softTotal]) and takes 10 off per
    ace, [k] times, each time while the running total exceeded 21; the score
    it returns is above 21 only when all aces already count as 1, so a hand
    whose total with aces as 1 is at most 21 never scores above 21.  This
    holds for every list of cards, those with ranks 1..13 among them. *)
Theorem scoreHand_soft_ace_reduction (hand : list Card) :
  exists k : nat,
    (k <= aceCount hand)%nat /\
    scoreHand hand = softTotal hand - 10 * Z.of_nat k /\
    snd (scoreHandState hand) = (aceCount hand - k)%nat /\
    (forall j : nat, (j < k)%nat -> 21 < softTotal hand - 10 * Z.of_nat j) /\
    (21 < scoreHand hand -> snd (scoreHandState hand) = O /\ scoreHand hand = hardTotal hand) /\
    (hardTotal hand <= 21 -> scoreHand hand <= 21).
Proof.
  destruct (scoreHandState_spec hand) as (k & Hk & Hs & Hj & Hstop).
  exists k. unfold scoreHand, hardTotal. rewrite Hs. simpl.
  repeat split; auto.
  - specialize (Hstop H). lia.
  - specialize (Hstop H). subst k. done.
  - intros Hhard. destruct (Z_lt_le_dec 21 (softTotal hand - 10 * Z.of_nat k)) as [Hgt|]; [|done].
    specialize (Hstop Hgt). subst k. lia.
Qed.

Lemma scoreHand_soft_ace_reduction_witness :
  exists k : nat,
    (k <= aceCount [card 1; card 1; card 9])%nat /\
    scoreHand [card 1; card 1; card 9] = softTotal [card 1; card 1; card 9] - 10 * Z.of_nat k /\
    scoreHand [card 1; card 1; card 9] <= 21.
Proof.
  destruct (scoreHand_soft_ace_reduction [card 1; card 1; card 9])
    as (k & Hk & Hscore & _ & _ & _ & Hle).
  exists k. split; [exact Hk|]. split; [exact Hscore|].
  apply Hle. vm_compute. discriminate.
Defined.

(** Two aces and a nine make 21 (one ace still counts 11); an ace, a king and
    a five make 16 (the ace counts 1); a king, a queen and a five make 25 (no
    ace to reduce). *)
Example scoreHand_samples :
  scoreHandState [card 1; card 1; card 9] = (21, 1%nat) /\
  scoreHandState [card 1; card 13; card 5] = (16, 0%nat) /\
  scoreHandState [card 13; card 12; card 5] = (25, 0%nat).
Proof. repeat split; reflexivity. Qed.

(** *** The dealer's turn *)

Lemma randomIndex_range (r : Unit01) (n : Z) :
  0 < n -> 0 <= randomIndex r n < n.
Proof.
  intros Hn. unfold randomIndex.
  destruct r as [u Hu]. cbn [u_val].
  apply andb_true_iff in Hu as [H0 H1].
  apply Qle_bool_iff in H0.
  apply negb_true_iff in H1.
  assert (Hlt : (u < 1)%Q).
  { apply Qnot_le_lt. intros Hle. apply Qle_bool_iff in Hle. congruence. }
  assert (Hn' : (inject_Z 0 < inject_Z n)%Q) by (rewrite <- Zlt_Qlt; lia).
  change (inject_Z 0) with 0%Q in Hn'.
  split.
  - rewrite <- (Qfloor_Z 0). apply Qfloor_resp_le.
    apply Qmult_le_0_compat; [done | by apply Qlt_le_weak].
  - rewrite Zlt_Qlt. eapply Qle_lt_trans; [apply Qfloor_le|].
    rewrite <- (Qmult_1_l (inject_Z n)) at 2.
    apply Qmult_lt_compat_r; done.
Qed.

Lemma drawCard_valid (g : Rng) : validCard (fst (drawCard g)).
Proof.
  unfold drawCard, random, validCard. simpl.
  pose proof (randomIndex_range (g O) 13). lia.
Qed.

Lemma softTotal_app (a b : list Card) : softTotal (a ++ b) = softTotal a + softTotal b.
Proof. induction a as [|c a IH]; simpl; lia. Qed.

Lemma aceCount_app (a b : list Card) : aceCount (a ++ b) = (aceCount a + aceCount b)%nat.
Proof. unfold aceCount. by rewrite filter_app, length_app. Qed.

Lemma hardTotal_app (a b : list Card) : hardTotal (a ++ b) = hardTotal a + hardTotal b.
Proof. unfold hardTotal. rewrite softTotal_app, aceCount_app. lia. Qed.

Lemma hardTotal_single (c : Card) : validCard c -> 1 <= hardTotal [c].
Proof.
  unfold validCard, hardTotal, aceCount, softValue. simpl. rewrite filter_cons, filter_nil.
  intros Hc. unfold softValue.
  destruct (Z.eqb_spec (rank c) 1) as [E|E].
  - rewrite decide_True by done. simpl. lia.
  - rewrite decide_False by done. simpl.
    destruct (Z.gtb_spec (rank c) 10); lia.
Qed.

Lemma hardTotal_nonneg (hand : list Card) : Forall validCard hand -> 0 <= hardTotal hand.
Proof.
  induction 1 as [|c rest Hc _ IH]; [done|].
  change (c :: rest) with ([c] ++ rest). rewrite hardTotal_app.
  pose proof (hardTotal_single c Hc). lia.
Qed.

Lemma hardTotal_le_scoreHand (hand : list Card) : hardTotal hand <= scoreHand hand.
Proof.
  destruct (scoreHandState_spec hand) as (k & Hk & Hs & _).
  unfold scoreHand, hardTotal. rewrite Hs. simpl. lia.
Qed.

(** The dealer's loop ends within the fuel whenever the fuel covers the gap
    between the hand counted with aces as 1 and 17; it takes cards from the
    random source one by one, each while the score was below 17, and leaves a
    score of at least 17. *)
Lemma dealerPlay_spec (fuel : nat) : forall (hand : list Card) (g : Rng),
  17 - hardTotal hand <= Z.of_nat fuel ->
  exists (drawn : list Card) (g' : Rng),
    dealerPlay fuel hand g = Some (hand ++ drawn, g') /\
    drawCards (length drawn) g = (drawn, g') /\
    (forall n : nat, (n < length drawn)%nat -> scoreHand (hand ++ take n drawn) < 17) /\
    17 <= scoreHand (hand ++ drawn).
Proof.
  induction fuel as [|f IH]; intros hand g Hfuel.
  - pose proof (hardTotal_le_scoreHand hand) as Hle.
    exists [], g. simpl. rewrite app_nil_r.
    destruct (Z.ltb_spec (scoreHand hand) 17); [lia|].
    repeat split; auto. intros n Hn. simpl in Hn. lia.
  - cbn [dealerPlay]. destruct (Z.ltb_spec (scoreHand hand) 17) as [Hlt|Hge].
    + destruct (drawCard g) as [c g1] eqn:Hdraw.
      assert (Hc : validCard c).
      { pose proof (drawCard_valid g) as Hv. by rewrite Hdraw in Hv. }
      destruct (IH (hand ++ [c]) g1) as (drawn & g' & Hrun & Hcards & Hpre & Hfin).
      { rewrite hardTotal_app. pose proof (hardTotal_single c Hc). lia. }
      exists (c :: drawn), g'. rewrite <- !app_assoc in *.
      cbn [drawCards length app] in *.
      rewrite Hdraw, Hcards. repeat split; auto.
      intros [|n] Hn; cbn [take].
      * by rewrite app_nil_r.
      * specialize (Hpre n). rewrite <- app_assoc in Hpre. apply Hpre. lia.
    + exists [], g. cbn [drawCards length]. rewrite app_nil_r.
      repeat split; auto. intros n Hn. lia.
Qed.

(** The rounds a Deal stores hold cards of ranks 1..13, and no other handler
    changes a dealer hand before the Stand. *)
Lemma deal_stores_valid_cards (w : World) (p : Body) (now : Time) :
  exists g : Game,
    games (snd (http_deal w p now)) !! usernameOf p = Some g /\
    games (snd (grpc_Deal w p now)) !! usernameOf p = Some g /\
    Forall validCard (playerHand g) /\ Forall validCard (dealerHand g).
Proof.
  unfold http_deal, grpc_Deal, dealHands.
  pose proof (drawCard_valid (rng w)) as H1.
  destruct (drawCard (rng w)) as [c1 g1].
  pose proof (drawCard_valid g1) as H2. destruct (drawCard g1) as [c2 g2].
  pose proof (drawCard_valid g2) as H3. destruct (drawCard g2) as [c3 g3].
  pose proof (drawCard_valid g3) as H4. destruct (drawCard g3) as [c4 g4].
  exists (mkGame [c1; c2] [c3; c4] (betAmountOf p)).
  simpl in H1, H2, H3, H4.
  destruct (shownDealerScore [c1; c2] [c3; c4]); simpl;
    rewrite !lookup_insert_eq; repeat split;
    repeat (apply Forall_cons; split; [assumption|]); apply Forall_nil_2.
Qed.

(** What a Stand does on an open round, for both front ends. *)
Lemma stand_run (fuel : nat) (w : World) (p : Body) (now : Time) (g : Game) :
  games w !! usernameOf p = Some g ->
  Forall validCard (dealerHand g) ->
  (17 <= fuel)%nat ->
  exists (drawn : list Card) (g' : Rng),
    let user := usernameOf p in
    let dh := dealerHand g ++ drawn in
    let ps := scoreHand (playerHand g) in
    let ds := scoreHand dh in
    let result := settle ps ds in
    let payout := payoutOf result (betAmount g) in
    drawCards (length drawn) (rng w) = (drawn, g') /\
    (forall n : nat, (n < length drawn)%nat ->
       scoreHand (dealerHand g ++ take n drawn) < 17) /\
    17 <= ds /\
    http_stand fuel w p now =
      Some (StandOk dh ds result payout now,
            mkWorld (delete user (games w)) (redis w) (recorded w) g') /\
    grpc_Stand fuel w p now =
      Some (StandOk dh ds result payout now,
            mkWorld (delete user (games w)) (delete (stateKey user) (redis w))
              (recorded w ++
                 [mkStandRecord user (betAmount g) payout (isWin result) result
                    (playerHand g) dh ps ds now]) g').
Proof.
  intros Hg Hvalid Hfuel.
  destruct (dealerPlay_spec fuel (dealerHand g) (rng w)) as (drawn & g' & Hrun & Hcards & Hpre & Hfin).
  { pose proof (hardTotal_nonneg _ Hvalid). lia. }
  exists drawn, g'. simpl. unfold http_stand, grpc_Stand. rewrite Hg, Hrun.
  repeat split; auto.
Qed.

Lemma settle_rules (ps ds : Z) (bet : Q) :
  (21 < ps -> settle ps ds = Lose /\ payoutOf (settle ps ds) bet = 0%Q) /\
  (ps <= 21 -> 21 < ds \/ ds < ps ->
     settle ps ds = Win /\ payoutOf (settle ps ds) bet = (bet * 2)%Q) /\
  (ps <= 21 -> ds <= 21 -> ps = ds ->
     settle ps ds = Push /\ payoutOf (settle ps ds) bet = bet) /\
  (ps <= 21 -> ds <= 21 -> ps < ds ->
     settle ps ds = Lose /\ payoutOf (settle ps ds) bet = 0%Q).
Proof.
  unfold settle.
  destruct (Z.gtb_spec ps 21), (Z.gtb_spec ds 21), (Z.gtb_spec ps ds),
    (Z.eqb_spec ps ds); simpl; repeat split; intros; try lia; auto.
Qed.

(** C5: on an open round whose dealer cards have ranks 1..13, Stand (HTTP
    and gRPC) lets the dealer draw from the random source while the dealer's
    score is below 17 and stops at the first score of at least 17 (so a hand
    at 17 or more draws nothing, a hand below 17 draws at least one card);
    then the player above 21 loses with payout 0, otherwise a dealer above 21
    or a strictly higher player score wins exactly twice the bet, equal scores
    push with the bet returned, and a lower player score loses with payout 0;
    the round leaves the store. *)
Theorem stand_dealer_draws_to_17_and_settles
    (fuel : nat) (w : World) (p : Body) (now : Time) (g : Game) :
  games w !! usernameOf p = Some g ->
  Forall validCard (dealerHand g) ->
  (17 <= fuel)%nat ->
  exists (drawn : list Card) (g' : Rng) (result : Outcome) (payout : Q),
    let user := usernameOf p in
    let dh := dealerHand g ++ drawn in
    let ps := scoreHand (playerHand g) in
    let ds := scoreHand dh in
    drawCards (length drawn) (rng w) = (drawn, g') /\
    (forall n : nat, (n < length drawn)%nat ->
       scoreHand (dealerHand g ++ take n drawn) < 17) /\
    17 <= ds /\
    (17 <= scoreHand (dealerHand g) -> drawn = []) /\
    (scoreHand (dealerHand g) < 17 -> drawn <> []) /\
    http_stand fuel w p now =
      Some (StandOk dh ds result payout now,
            mkWorld (delete user (games w)) (redis w) (recorded w) g') /\
    (exists w', grpc_Stand fuel w p now = Some (StandOk dh ds result payout now, w') /\
                games w' = delete user (games w)) /\
    (21 < ps -> result = Lose /\ payout = 0%Q) /\
    (ps <= 21 -> 21 < ds \/ ds < ps -> result = Win /\ payout = (betAmount g * 2)%Q) /\
    (ps <= 21 -> ds <= 21 -> ps = ds -> result = Push /\ payout = betAmount g) /\
    (ps <= 21 -> ds <= 21 -> ps < ds -> result = Lose /\ payout = 0%Q).
Proof.
  intros Hg Hvalid Hfuel.
  destruct (stand_run fuel w p now g Hg Hvalid Hfuel)
    as (drawn & g' & Hcards & Hpre & Hfin & Hhttp & Hgrpc).
  exists drawn, g'. eexists. eexists. simpl.
  split; [exact Hcards|]. split; [exact Hpre|]. split; [exact Hfin|].
  split.
  { intros H17. destruct drawn as [|c rest]; [done|].
    specialize (Hpre O). simpl in Hpre. rewrite app_nil_r in Hpre. lia. }
  split.
  { intros Hlt ->. rewrite app_nil_r in Hfin. lia. }
  split; [exact Hhttp|].
  split; [eexists; split; [exact Hgrpc | done]|].
  apply settle_rules.
Qed.

Lemma stand_dealer_draws_to_17_and_settles_witness :
  games dealerSixteen !! usernameOf alice
    = Some (mkGame [card 10; card 10] [card 10; card 6] 10%Q) /\
  Forall validCard [card 10; card 6] /\
  (17 <= 17)%nat /\
  exists (drawn : list Card) (result : Outcome) (payout : Q) (w' : World),
    drawn <> [] /\
    17 <= scoreHand ([card 10; card 6] ++ drawn) /\
    http_stand 17 dealerSixteen alice 0
      = Some (StandOk ([card 10; card 6] ++ drawn)
                (scoreHand ([card 10; card 6] ++ drawn)) result payout 0, w') /\
    games w' !! "alice" = None.
Proof.
  assert (H1 : games dealerSixteen !! usernameOf alice
               = Some (mkGame [card 10; card 10] [card 10; card 6] 10%Q))
    by reflexivity.
  assert (H2 : Forall validCard [card 10; card 6])
    by (repeat constructor; unfold validCard; simpl; lia).
  assert (H3 : (17 <= 17)%nat) by lia.
  split; [exact H1|]. split; [exact H2|]. split; [exact H3|].
  destruct (stand_dealer_draws_to_17_and_settles 17 dealerSixteen alice 0 _ H1 H2 H3)
    as (drawn & g' & result & payout & _ & _ & Hfin & _ & Hdraw & Hhttp & _).
  exists drawn, result, payout. eexists.
  split; [apply Hdraw; reflexivity|]. split; [exact Hfin|]. split; [exact Hhttp|].
  apply lookup_delete_eq.
Defined.

(** The two dealer hands of the specification's scenario: 10 and 6 takes a
    card (here a seven, and the dealer is out at 23), 10 and 7 takes none (and
    the player's 20 wins against 17). *)
Example dealer_sixteen_draws :
  fst <$> http_stand 17 dealerSixteen alice 0
    = Some (StandOk [card 10; card 6; mkCard 7 (Some Clubs)] 23 Win 20%Q 0).
Proof. reflexivity. Qed.

Example dealer_seventeen_stops :
  fst <$> http_stand 17 dealerSeventeen alice 0
    = Some (StandOk [card 10; card 7] 17 Win 20%Q 0).
Proof. reflexivity. Qed.

(** *** Hit *)

(** C4, as the code has it: on an open round Hit (HTTP and gRPC) takes exactly
    one card from the random source, appends it to the player's hand and
    leaves the round in the store with the same dealer hand and bet, also when
    the player's score now exceeds 21; the response carries the new card and
    the new score.  A round whose player is above 21 is settled by the Stand
    that follows: a loss with payout 0, after which the round is gone. *)
Theorem hit_draws_one_card_round_stays_open
    (w : World) (p : Body) (now : Time) (g : Game) :
  games w !! usernameOf p = Some g ->
  let user := usernameOf p in
  let c := fst (drawCard (rng w)) in
  let gm := mkGame (playerHand g ++ [c]) (dealerHand g) (betAmount g) in
  snd (http_hit w p now)
    = mkWorld (<[user := gm]> (games w)) (redis w) (recorded w) (snd (drawCard (rng w))) /\
  games (snd (grpc_Hit w p now)) = <[user := gm]> (games w) /\
  rng (snd (grpc_Hit w p now)) = snd (drawCard (rng w)) /\
  games (snd (http_hit w p now)) !! user = Some gm /\
  games (snd (grpc_Hit w p now)) !! user = Some gm /\
  (forall (c0 : Card) (rest : list Card), dealerHand g = c0 :: rest ->
     fst (http_hit w p now)
       = HitOk c (scoreHand (playerHand g ++ [c])) (scoreHand [c0]) now /\
     fst (grpc_Hit w p now)
       = HitOk c (scoreHand (playerHand g ++ [c])) (scoreHand [c0]) now) /\
  (21 < scoreHand (playerHand g ++ [c]) ->
   Forall validCard (dealerHand g) ->
   forall (fuel : nat) (now' : Time), (17 <= fuel)%nat ->
     exists (dh : list Card) (ds : Z) (w' : World),
       http_stand fuel (snd (http_hit w p now)) p now'
         = Some (StandOk dh ds Lose 0%Q now', w') /\
       games w' !! user = None).
Proof.
  intros Hg. cbv zeta.
  assert (Hhttp : snd (http_hit w p now)
    = mkWorld (<[usernameOf p := mkGame (playerHand g ++ [fst (drawCard (rng w))])
                                   (dealerHand g) (betAmount g)]> (games w))
        (redis w) (recorded w) (snd (drawCard (rng w)))).
  { unfold http_hit. rewrite Hg.
    destruct (drawCard (rng w)) as [c1 g1]. unfold pushPlayerCard. simpl.
    by destruct (upCardScore (dealerHand g)). }
  assert (Hgrpc : games (snd (grpc_Hit w p now))
                  = <[usernameOf p := mkGame (playerHand g ++ [fst (drawCard (rng w))])
                                        (dealerHand g) (betAmount g)]> (games w)
                  /\ rng (snd (grpc_Hit w p now)) = snd (drawCard (rng w))).
  { unfold grpc_Hit. rewrite Hg.
    destruct (drawCard (rng w)) as [c1 g1]. unfold pushPlayerCard. simpl.
    by destruct (upCardScore (dealerHand g)). }
  destruct Hgrpc as [Hgrpc1 Hgrpc2].
  split; [exact Hhttp|]. split; [exact Hgrpc1|]. split; [exact Hgrpc2|].
  split; [rewrite Hhttp; apply lookup_insert_eq|].
  split; [rewrite Hgrpc1; apply lookup_insert_eq|].
  split.
  { intros c0 rest Hd. unfold http_hit, grpc_Hit. rewrite Hg.
    destruct (drawCard (rng w)) as [c1 g1]. unfold pushPlayerCard. simpl.
    rewrite Hd. simpl. done. }
  intros Hbust Hvalid fuel now' Hfuel.
  destruct (stand_run fuel (snd (http_hit w p now)) p now'
              (mkGame (playerHand g ++ [fst (drawCard (rng w))])
                 (dealerHand g) (betAmount g)))
    as (drawn & g' & _ & _ & _ & Hstand & _); auto.
  { rewrite Hhttp. apply lookup_insert_eq. }
  cbn [playerHand dealerHand betAmount] in Hstand. eexists. eexists. eexists.
  split.
  - rewrite Hstand. unfold settle.
    destruct (Z.gtb_spec (scoreHand (playerHand g ++ [fst (drawCard (rng w))])) 21);
      [reflexivity | lia].
  - apply lookup_delete_eq.
Qed.

Lemma hit_draws_one_card_round_stays_open_witness :
  games aliceTwenty !! usernameOf alice
    = Some (mkGame [card 10; card 10] [card 10; card 6] 10%Q) /\
  games (snd (http_hit aliceTwenty alice 0)) !! "alice"
    = Some (mkGame [card 10; card 10; mkCard 5 (Some Diamonds)] [card 10; card 6] 10%Q).
Proof.
  assert (H1 : games aliceTwenty !! usernameOf alice
               = Some (mkGame [card 10; card 10] [card 10; card 6] 10%Q))
    by reflexivity.
  split; [exact H1|].
  exact (proj1 (proj2 (proj2 (proj2
    (hit_draws_one_card_round_stays_open aliceTwenty alice 0 _ H1))))).
Defined.

(** C4, as stated, fails: Alice holds 10 and 10 and hits a five; her score is
    25, above 21, and yet the response is an ordinary Hit response and her
    round is still in the store, unsettled, for both front ends. *)
Lemma hit_above_21_round_not_settled :
  fst (http_hit aliceTwenty alice 0) = HitOk (mkCard 5 (Some Diamonds)) 25 10 0 /\
  games (snd (http_hit aliceTwenty alice 0)) !! "alice"
    = Some (mkGame [card 10; card 10; mkCard 5 (Some Diamonds)] [card 10; card 6] 10%Q) /\
  fst (grpc_Hit aliceTwenty alice 0) = HitOk (mkCard 5 (Some Diamonds)) 25 10 0 /\
  games (snd (grpc_Hit aliceTwenty alice 0)) !! "alice"
    = Some (mkGame [card 10; card 10; mkCard 5 (Some Diamonds)] [card 10; card 6] 10%Q).
Proof. repeat split; reflexivity. Qed.

(** *** Actions without a round *)

(** C6: Hit, Stand and Double for a user with no round fail with the
    "No active hand" error (status 400 over HTTP, INVALID_ARGUMENT over gRPC)
    and return the state they were given: the [games] map, the Redis keys, the
    recorded results and the random source are all untouched. *)
Theorem action_without_round_fails_and_keeps_state
    (w : World) (p : Body) (now : Time) (fuel : nat) (doubleDownEnabled : bool) :
  games w !! usernameOf p = None ->
  http_hit w p now = (HttpError 400 "No active hand", w) /\
  http_stand fuel w p now = Some (HttpError 400 "No active hand", w) /\
  http_double doubleDownEnabled w p now = (HttpError 400 "No active hand", w) /\
  grpc_Hit w p now = (GrpcError "INVALID_ARGUMENT" "No active hand", w) /\
  grpc_Stand fuel w p now = Some (GrpcError "INVALID_ARGUMENT" "No active hand", w) /\
  grpc_Double doubleDownEnabled w p now
    = (GrpcError "INVALID_ARGUMENT" "No active hand", w).
Proof.
  intros Hnone.
  unfold http_hit, http_stand, http_double, grpc_Hit, grpc_Stand, grpc_Double.
  rewrite Hnone. repeat split; reflexivity.
Qed.

Lemma action_without_round_fails_and_keeps_state_witness :
  games noRounds !! usernameOf alice = None /\
  http_hit noRounds alice 0 = (HttpError 400 "No active hand", noRounds) /\
  grpc_Double true noRounds alice 0
    = (GrpcError "INVALID_ARGUMENT" "No active hand", noRounds).
Proof.
  assert (H1 : games noRounds !! usernameOf alice = None) by reflexivity.
  pose proof (action_without_round_fails_and_keeps_state noRounds alice 0 17 true H1)
    as (Hhit & _ & _ & _ & _ & Hdouble).
  split; [exact H1|]. split; [exact Hhit | exact Hdouble].
Defined.

(** *** More on scores *)

Lemma scoreHandState_reduce (hand : list Card) :
  scoreHandState hand = reduceAces (aceCount hand) (softTotal hand).
Proof. unfold scoreHandState. by rewrite scoreCards_totals. Qed.

Lemma softTotal_perm (h1 h2 : list Card) : h1 ≡ₚ h2 -> softTotal h1 = softTotal h2.
Proof. induction 1; simpl; lia. Qed.

Lemma aceCount_perm (h1 h2 : list Card) : h1 ≡ₚ h2 -> aceCount h1 = aceCount h2.
Proof. intros H. unfold aceCount. by rewrite H. Qed.

(** X1: the score of a hand does not depend on the order of its cards: two
    hands that hold the same cards score the same and keep the same number
    of aces at 11. *)
Theorem scoreHand_order_irrelevant (h1 h2 : list Card) :
  h1 ≡ₚ h2 ->
  scoreHand h1 = scoreHand h2 /\ scoreHandState h1 = scoreHandState h2.
Proof.
  intros H. unfold scoreHand. rewrite !scoreHandState_reduce.
  by rewrite (softTotal_perm _ _ H), (aceCount_perm _ _ H).
Qed.

Lemma scoreHand_order_irrelevant_witness :
  [card 1; card 13; card 5] ≡ₚ [card 5; card 1; card 13] /\
  scoreHand [card 1; card 13; card 5] = scoreHand [card 5; card 1; card 13].
Proof.
  assert (H : [card 1; card 13; card 5] ≡ₚ [card 5; card 1; card 13]).
  { change [card 5; card 1; card 13] with ([card 5] ++ [card 1; card 13]).
    change [card 1; card 13; card 5] with ([card 1; card 13] ++ [card 5]).
    apply Permutation_app_comm. }
  split; [exact H|].
  exact (proj1 (scoreHand_order_irrelevant _ _ H)).
Defined.

(** The score is the total with aces as 1 plus 10 for each ace left at 11;
    it stays within 21 when the total with aces as 1 does, and is that total
    otherwise. *)
Lemma scoreHand_cases (hand : list Card) :
  (hardTotal hand <= 21 /\ hardTotal hand <= scoreHand hand <= 21) \/
  (21 < hardTotal hand /\ scoreHand hand = hardTotal hand).
Proof.
  destruct (scoreHandState_spec hand) as (k & Hk & Hs & _ & Hstop).
  unfold scoreHand, hardTotal in *. rewrite Hs. simpl.
  destruct (Z_lt_le_dec 21 (softTotal hand - 10 * Z.of_nat k)) as [Hgt|Hle].
  - specialize (Hstop Hgt). subst k. right. lia.
  - left. lia.
Qed.

(** X2: [scoreHand] returns the best total a hand allows.  Counting [j] of
    its aces as 11 and the others as 1 gives one of the hand's totals; when
    some total is at most 21 the score is at most 21 and no such total is
    higher than the score; when even the total with every ace as 1 exceeds 21
    the score is that total.  The score is always one of the hand's totals. *)
Theorem scoreHand_best_total (hand : list Card) :
  (exists j : nat, (j <= aceCount hand)%nat /\
                   scoreHand hand = hardTotal hand + 10 * Z.of_nat j) /\
  (hardTotal hand <= 21 ->
     scoreHand hand <= 21 /\
     forall j : nat, (j <= aceCount hand)%nat ->
                     hardTotal hand + 10 * Z.of_nat j <= 21 ->
                     hardTotal hand + 10 * Z.of_nat j <= scoreHand hand) /\
  (21 < hardTotal hand -> scoreHand hand = hardTotal hand).
Proof.
  destruct (scoreHandState_spec hand) as (k & Hk & Hs & Hj & Hstop).
  unfold scoreHand, hardTotal in *. rewrite Hs. simpl.
  split; [|split].
  - exists (aceCount hand - k)%nat. split; lia.
  - intros Hhard. split.
    + destruct (Z_lt_le_dec 21 (softTotal hand - 10 * Z.of_nat k)) as [Hgt|]; [|done].
      specialize (Hstop Hgt). subst k. lia.
    + intros j Hjle Hfit.
      destruct (le_lt_dec k (aceCount hand - j)) as [Hok|Hbad]; [lia|].
      specialize (Hj (aceCount hand - j)%nat Hbad). lia.
  - intros Hhard.
    assert (Hgt : 21 < softTotal hand - 10 * Z.of_nat k) by lia.
    specialize (Hstop Hgt). subst k. lia.
Qed.

Lemma scoreHand_best_total_witness :
  hardTotal [card 1; card 1; card 9] <= 21 /\
  scoreHand [card 1; card 1; card 9] <= 21 /\
  hardTotal [card 1; card 1; card 9] + 10 * Z.of_nat 1 <= scoreHand [card 1; card 1; card 9].
Proof.
  assert (H : hardTotal [card 1; card 1; card 9] <= 21) by (vm_compute; discriminate).
  destruct (proj1 (proj2 (scoreHand_best_total [card 1; card 1; card 9])) H) as [H21 Hbest].
  split; [exact H|]. split; [exact H21|].
  apply Hbest; [vm_compute; lia | vm_compute; discriminate].
Defined.

Lemma hardTotal_single_le (c : Card) : validCard c -> hardTotal [c] <= 10.
Proof.
  unfold validCard, hardTotal, aceCount. simpl. rewrite filter_cons, filter_nil.
  intros Hc. unfold softValue.
  destruct (Z.eqb_spec (rank c) 1) as [E|E].
  - rewrite decide_True by done. simpl. lia.
  - rewrite decide_False by done. simpl.
    destruct (Z.gtb_spec (rank c) 10); lia.
Qed.

(** One more card raises a score by at most 10, unless the new score is
    still within 21. *)
Lemma scoreHand_add_card (hand : list Card) (c : Card) :
  validCard c -> scoreHand (hand ++ [c]) <= Z.max 21 (scoreHand hand + 10).
Proof.
  intros Hc.
  pose proof (hardTotal_single_le c Hc) as Hc10.
  pose proof (hardTotal_le_scoreHand hand) as Hle.
  destruct (scoreHand_cases (hand ++ [c])) as [[_ [_ H21]]|[Hgt ->]]; [lia|].
  rewrite hardTotal_app. lia.
Qed.

Lemma drawCard_suit (g : Rng) : is_Some (suit (fst (drawCard g))).
Proof.
  unfold drawCard, random. cbn [fst suit].
  change (Z.of_nat (length suits)) with 4.
  pose proof (randomIndex_range (g 1%nat) 4 ltac:(lia)) as Hr.
  destruct (Z.ltb_spec (randomIndex (g 1%nat) 4) 0) as [Hneg|Hpos]; [lia|].
  apply lookup_lt_is_Some. change (length suits) with 4%nat. lia.
Qed.

Lemma drawCards_valid (n : nat) : forall g : Rng, Forall validCard (fst (drawCards n g)).
Proof.
  induction n as [|n IH]; intros g; cbn [drawCards]; [constructor|].
  pose proof (drawCard_valid g) as Hc.
  destruct (drawCard g) as [c g1]. specialize (IH g1).
  destruct (drawCards n g1) as [cs g2]. constructor; assumption.
Qed.

(** *** Deal *)

Lemma deal_round (w : World) (p : Body) (now : Time) :
  exists (c1 c2 c3 c4 : Card) (g' : Rng),
    drawCards 4 (rng w) = ([c1; c2; c3; c4], g') /\
    Forall validCard [c1; c2; c3; c4] /\
    Forall (fun c => is_Some (suit c)) [c1; c2; c3; c4] /\
    http_deal w p now =
      (DealOk [c1; c2] [c3; c4] (scoreHand [c1; c2])
         (if scoreHand [c1; c2] >=? 21 then scoreHand [c3; c4] else scoreHand [c3])
         (betAmountOf p) now,
       mkWorld (<[usernameOf p := mkGame [c1; c2] [c3; c4] (betAmountOf p)]> (games w))
         (redis w) (recorded w) g') /\
    grpc_Deal w p now =
      (DealOk [c1; c2] [c3; c4] (scoreHand [c1; c2])
         (if scoreHand [c1; c2] >=? 21 then scoreHand [c3; c4] else scoreHand [c3])
         (betAmountOf p) now,
       mkWorld (<[usernameOf p := mkGame [c1; c2] [c3; c4] (betAmountOf p)]> (games w))
         (<[stateKey (usernameOf p) :=
              mkRedisState [c1; c2] [c3; c4] (betAmountOf p) now]> (redis w))
         (recorded w) g').
Proof.
  unfold http_deal, grpc_Deal, dealHands. cbn [drawCards].
  pose proof (drawCard_valid (rng w)) as V1. pose proof (drawCard_suit (rng w)) as S1.
  destruct (drawCard (rng w)) as [c1 g1].
  pose proof (drawCard_valid g1) as V2. pose proof (drawCard_suit g1) as S2.
  destruct (drawCard g1) as [c2 g2].
  pose proof (drawCard_valid g2) as V3. pose proof (drawCard_suit g2) as S3.
  destruct (drawCard g2) as [c3 g3].
  pose proof (drawCard_valid g3) as V4. pose proof (drawCard_suit g3) as S4.
  destruct (drawCard g3) as [c4 g4].
  cbn [fst] in *.
  exists c1, c2, c3, c4, g4.
  split; [done|].
  split; [repeat (apply Forall_cons; split; [assumption|]); apply Forall_nil_2|].
  split; [repeat (apply Forall_cons; split; [assumption|]); apply Forall_nil_2|].
  unfold shownDealerScore, upCardScore.
  destruct (scoreHand [c1; c2] >=? 21); done.
Qed.

Lemma two_cards_within_21 (c1 c2 : Card) :
  validCard c1 -> validCard c2 -> scoreHand [c1; c2] <= 21.
Proof.
  intros H1 H2.
  pose proof (hardTotal_single_le c1 H1). pose proof (hardTotal_single_le c2 H2).
  destruct (scoreHand_cases [c1; c2]) as [[_ [_ H21]]|[Hgt _]]; [done|].
  change [c1; c2] with ([c1] ++ [c2]) in Hgt. rewrite hardTotal_app in Hgt. lia.
Qed.

(** X3: a Deal (HTTP and gRPC) takes four cards from the random source, the
    first two for the player and the next two for the dealer, each of rank
    1..13 with one of the four suits, and stores them as the user's round with
    the requested bet (10 when the bet is absent or 0); a round the user
    already had is replaced, unsettled and unrecorded; the rounds of other
    users stay as they were; the player's score is at most 21. *)
Theorem deal_opens_round (w : World) (p : Body) (now : Time) :
  exists (c1 c2 c3 c4 : Card),
    fst (drawCards 4 (rng w)) = [c1; c2; c3; c4] /\
    Forall validCard [c1; c2; c3; c4] /\
    Forall (fun c => is_Some (suit c)) [c1; c2; c3; c4] /\
    games (snd (http_deal w p now)) !! usernameOf p
      = Some (mkGame [c1; c2] [c3; c4] (betAmountOf p)) /\
    games (snd (grpc_Deal w p now)) !! usernameOf p
      = Some (mkGame [c1; c2] [c3; c4] (betAmountOf p)) /\
    (forall other : string, other <> usernameOf p ->
       games (snd (http_deal w p now)) !! other = games w !! other /\
       games (snd (grpc_Deal w p now)) !! other = games w !! other) /\
    recorded (snd (http_deal w p now)) = recorded w /\
    recorded (snd (grpc_Deal w p now)) = recorded w /\
    (exists ds : Z,
       fst (http_deal w p now)
         = DealOk [c1; c2] [c3; c4] (scoreHand [c1; c2]) ds (betAmountOf p) now /\
       fst (grpc_Deal w p now) = fst (http_deal w p now)) /\
    scoreHand [c1; c2] <= 21 /\
    (BetAmount p = None \/ BetAmount p = Some 0%Q -> betAmountOf p = 10%Q).
Proof.
  destruct (deal_round w p now)
    as (c1 & c2 & c3 & c4 & g' & Hcards & Hvalid & Hsuits & Hhttp & Hgrpc).
  exists c1, c2, c3, c4. rewrite Hhttp, Hgrpc, Hcards. cbn [fst snd games recorded].
  split; [done|]. split; [done|]. split; [done|].
  split; [apply lookup_insert_eq|]. split; [apply lookup_insert_eq|].
  split; [intros other Hne; by rewrite lookup_insert_ne|].
  split; [done|]. split; [done|].
  split; [eexists; split; reflexivity|].
  split.
  - inversion Hvalid as [|? ? H1 Hrest]; subst.
    inversion Hrest as [|? ? H2 _]; subst. by apply two_cards_within_21.
  - unfold betAmountOf. intros [-> | ->]; reflexivity.
Qed.

Lemma deal_opens_round_witness :
  exists (c1 c2 c3 c4 : Card),
    games (snd (http_deal aliceTwenty alice 0)) !! usernameOf alice
      = Some (mkGame [c1; c2] [c3; c4] 10%Q) /\
    Forall validCard [c1; c2; c3; c4].
Proof.
  destruct (deal_opens_round aliceTwenty alice 0)
    as (c1 & c2 & c3 & c4 & _ & Hvalid & _ & Hround & _).
  exists c1, c2, c3, c4. split; [exact Hround | exact Hvalid].
Defined.

(** *** No handler touches another user's round *)

(** X4: whatever a handler does for the user of the request, the [games]
    entry of every other user is after the call what it was before, for Deal,
    Hit, Stand and Double of both front ends. *)
Theorem handlers_leave_other_rounds
    (w : World) (p : Body) (now : Time) (fuel : nat) (flag : bool) (other : string) :
  other <> usernameOf p ->
  games (snd (http_deal w p now)) !! other = games w !! other /\
  games (snd (grpc_Deal w p now)) !! other = games w !! other /\
  games (snd (http_hit w p now)) !! other = games w !! other /\
  games (snd (grpc_Hit w p now)) !! other = games w !! other /\
  games (snd (http_double flag w p now)) !! other = games w !! other /\
  games (snd (grpc_Double flag w p now)) !! other = games w !! other /\
  (forall r w', http_stand fuel w p now = Some (r, w') ->
                games w' !! other = games w !! other) /\
  (forall r w', grpc_Stand fuel w p now = Some (r, w') ->
                games w' !! other = games w !! other).
Proof.
  intros Hne.
  destruct (deal_round w p now) as (c1 & c2 & c3 & c4 & g' & _ & _ & _ & Hhttp & Hgrpc).
  rewrite Hhttp, Hgrpc. cbn [snd games].
  split; [by rewrite lookup_insert_ne|]. split; [by rewrite lookup_insert_ne|].
  unfold http_hit, grpc_Hit, http_double, grpc_Double, doubleDown, http_stand, grpc_Stand.
  destruct (games w !! usernameOf p) as [g|] eqn:Hg.
  - destruct (drawCard (rng w)) as [c gr]. cbn [dealerHand pushPlayerCard].
    destruct (upCardScore (dealerHand g)); destruct flag; cbn [negb snd games];
      rewrite ?lookup_insert_ne by done;
      (repeat split; try done);
      intros r w'; destruct (dealerPlay fuel (dealerHand g) (rng w)) as [[dh g2]|];
      try done; intros [= _ <-]; cbn [games]; by rewrite lookup_delete_ne.
  - repeat split; try done; by intros r w' [= _ <-].
Qed.

Lemma handlers_leave_other_rounds_witness :
  "bob" <> usernameOf alice /\
  games (snd (http_hit aliceTwenty alice 0)) !! "bob" = games aliceTwenty !! "bob".
Proof.
  assert (H : "bob" <> usernameOf alice) by discriminate.
  split; [exact H|].
  exact (proj1 (proj2 (proj2
    (handlers_leave_other_rounds aliceTwenty alice 0 17 true "bob" H)))).
Defined.

(** *** Double *)

(** X5: on an open round, Double with the feature flag off answers 403
    (PERMISSION_DENIED over gRPC) and changes nothing.  With the flag on it
    takes exactly one card for the player, doubles the stored bet, reports
    the old bet as the additional bet and leaves the round open; the gRPC
    method leaves the Redis copy as it was.  The Stand that follows settles
    on the doubled bet, so a win pays four times the bet of the Deal. *)
Theorem double_doubles_bet_and_keeps_round
    (w : World) (p : Body) (now : Time) (g : Game) :
  games w !! usernameOf p = Some g ->
  let user := usernameOf p in
  let c := fst (drawCard (rng w)) in
  let gm := mkGame (playerHand g ++ [c]) (dealerHand g) (betAmount g * 2)%Q in
  http_double false w p now = (HttpError 403 "Double-down feature is disabled", w) /\
  grpc_Double false w p now
    = (GrpcError "PERMISSION_DENIED" "Double-down feature is disabled", w) /\
  snd (http_double true w p now)
    = mkWorld (<[user := gm]> (games w)) (redis w) (recorded w) (snd (drawCard (rng w))) /\
  snd (grpc_Double true w p now) = snd (http_double true w p now) /\
  (forall (c0 : Card) (rest : list Card), dealerHand g = c0 :: rest ->
     fst (http_double true w p now)
       = DoubleOk c (scoreHand (playerHand g ++ [c])) (scoreHand [c0]) (betAmount g) now /\
     fst (grpc_Double true w p now) = fst (http_double true w p now)) /\
  (Forall validCard (dealerHand g) ->
   forall (fuel : nat) (later : Time), (17 <= fuel)%nat ->
     exists (dh : list Card) (ds : Z) (result : Outcome) (w' : World),
       http_stand fuel (snd (http_double true w p now)) p later
         = Some (StandOk dh ds result (payoutOf result (betAmount g * 2)%Q) later, w') /\
       (result = Win -> payoutOf result (betAmount g * 2)%Q = (betAmount g * 2 * 2)%Q) /\
       games w' !! user = None).
Proof.
  intros Hg. cbv zeta.
  unfold http_double, grpc_Double, doubleDown. rewrite Hg. cbn [negb].
  destruct (drawCard (rng w)) as [c g'] eqn:Hdraw. cbn [fst snd dealerHand].
  split; [done|]. split; [done|].
  split; [by destruct (upCardScore (dealerHand g))|].
  split; [done|].
  split.
  { intros c0 rest Hd. rewrite Hd. cbn [upCardScore playerHand]. done. }
  intros Hvalid fuel later Hfuel.
  assert (Hw : (if upCardScore (dealerHand g) is Some ds
                then (DoubleOk c (scoreHand (playerHand
                        (mkGame (playerHand g ++ [c]) (dealerHand g) (betAmount g * 2)%Q)))
                        ds (betAmount g) now,
                      mkWorld (<[usernameOf p :=
                                   mkGame (playerHand g ++ [c]) (dealerHand g)
                                     (betAmount g * 2)%Q]> (games w))
                        (redis w) (recorded w) g')
                else (TypeError,
                      mkWorld (<[usernameOf p :=
                                   mkGame (playerHand g ++ [c]) (dealerHand g)
                                     (betAmount g * 2)%Q]> (games w))
                        (redis w) (recorded w) g')).2
               = mkWorld (<[usernameOf p :=
                              mkGame (playerHand g ++ [c]) (dealerHand g)
                                (betAmount g * 2)%Q]> (games w))
                   (redis w) (recorded w) g')
    by (by destruct (upCardScore (dealerHand g))).
  rewrite Hw.
  destruct (stand_run fuel
              (mkWorld (<[usernameOf p :=
                            mkGame (playerHand g ++ [c]) (dealerHand g)
                              (betAmount g * 2)%Q]> (games w))
                 (redis w) (recorded w) g')
              p later
              (mkGame (playerHand g ++ [c]) (dealerHand g) (betAmount g * 2)%Q))
    as (drawn & g2 & _ & _ & _ & Hstand & _); auto.
  { apply lookup_insert_eq. }
  cbn [playerHand dealerHand betAmount games redis recorded] in Hstand.
  eexists. eexists. eexists. eexists.
  split; [exact Hstand|]. split.
  - intros ->. reflexivity.
  - apply lookup_delete_eq.
Qed.

Lemma double_doubles_bet_and_keeps_round_witness :
  games aliceTwenty !! usernameOf alice
    = Some (mkGame [card 10; card 10] [card 10; card 6] 10%Q) /\
  snd (http_double true aliceTwenty alice 0)
    = mkWorld (<["alice" := mkGame ([card 10; card 10] ++ [fst (drawCard fives)])
                              [card 10; card 6] (10 * 2)%Q]> (games aliceTwenty))
        ∅ [] (snd (drawCard fives)).
Proof.
  assert (H1 : games aliceTwenty !! usernameOf alice
               = Some (mkGame [card 10; card 10] [card 10; card 6] 10%Q))
    by reflexivity.
  split; [exact H1|].
  exact (proj1 (proj2 (proj2
    (double_doubles_bet_and_keeps_round aliceTwenty alice 0 _ H1)))).
Defined.

(** *** After a Stand *)

(** X6: a Stand ends the round for good: after it the user has no round,
    and a Hit, a Stand or a Double that follows fails with "No active hand"
    and changes nothing, over HTTP and over gRPC alike. *)
Theorem stand_closes_round
    (fuel : nat) (w : World) (p : Body) (now later : Time) (g : Game)
    (fuel' : nat) (flag : bool) :
  games w !! usernameOf p = Some g ->
  Forall validCard (dealerHand g) ->
  (17 <= fuel)%nat ->
  exists (r1 r2 : Response) (w1 w2 : World),
    http_stand fuel w p now = Some (r1, w1) /\
    grpc_Stand fuel w p now = Some (r2, w2) /\
    games w1 !! usernameOf p = None /\
    games w2 !! usernameOf p = None /\
    redis w2 !! stateKey (usernameOf p) = None /\
    http_hit w1 p later = (HttpError 400 "No active hand", w1) /\
    http_stand fuel' w1 p later = Some (HttpError 400 "No active hand", w1) /\
    http_double flag w1 p later = (HttpError 400 "No active hand", w1) /\
    grpc_Hit w2 p later = (GrpcError "INVALID_ARGUMENT" "No active hand", w2) /\
    grpc_Stand fuel' w2 p later
      = Some (GrpcError "INVALID_ARGUMENT" "No active hand", w2) /\
    grpc_Double flag w2 p later = (GrpcError "INVALID_ARGUMENT" "No active hand", w2).
Proof.
  intros Hg Hvalid Hfuel.
  destruct (stand_run fuel w p now g Hg Hvalid Hfuel)
    as (drawn & g' & _ & _ & _ & Hhttp & Hgrpc).
  cbv zeta in Hhttp, Hgrpc.
  eexists. eexists. eexists. eexists.
  split; [exact Hhttp|]. split; [exact Hgrpc|].
  unfold http_hit, http_stand, http_double, grpc_Hit, grpc_Stand, grpc_Double.
  cbn [games redis]. rewrite !lookup_delete_eq. repeat split; reflexivity.
Qed.

Lemma stand_closes_round_witness :
  games dealerSixteen !! usernameOf alice
    = Some (mkGame [card 10; card 10] [card 10; card 6] 10%Q) /\
  Forall validCard [card 10; card 6] /\
  (17 <= 17)%nat /\
  exists (r1 : Response) (w1 : World),
    http_stand 17 dealerSixteen alice 0 = Some (r1, w1) /\
    http_hit w1 alice 1 = (HttpError 400 "No active hand", w1).
Proof.
  assert (H1 : games dealerSixteen !! usernameOf alice
               = Some (mkGame [card 10; card 10] [card 10; card 6] 10%Q))
    by reflexivity.
  assert (H2 : Forall validCard [card 10; card 6])
    by (repeat constructor; unfold validCard; simpl; lia).
  assert (H3 : (17 <= 17)%nat) by lia.
  split; [exact H1|]. split; [exact H2|]. split; [exact H3|].
  destruct (stand_closes_round 17 dealerSixteen alice 0 1 _ 0%nat true H1 H2 H3)
    as (r1 & r2 & w1 & w2 & Hs & _ & _ & _ & _ & Hh & _).
  exists r1, w1. split; [exact Hs | exact Hh].
Defined.

(** *** The dealer's final score *)

Lemma dealer_score_range (hand drawn : list Card) :
  Forall validCard drawn ->
  scoreHand hand <= 26 ->
  (forall n : nat, (n < length drawn)%nat -> scoreHand (hand ++ take n drawn) < 17) ->
  scoreHand (hand ++ drawn) <= 26.
Proof.
  intros Hvalid Hinit Hpre.
  destruct drawn as [|c rest _] using rev_ind; [by rewrite app_nil_r|].
  apply Forall_app in Hvalid as [_ Hc]. rewrite Forall_singleton in Hc.
  specialize (Hpre (length rest)). rewrite take_app_length in Hpre.
  rewrite length_app in Hpre. cbn [length] in Hpre.
  rewrite app_assoc.
  pose proof (scoreHand_add_card (hand ++ rest) c Hc). lia.
Qed.

(** X7: on an open round whose dealer cards have ranks 1..13 and score at
    most 26, a Stand ends with a dealer score between 17 and 26, the dealer's
    final hand extends the stored one, and the payout is 0, the bet, or twice
    the bet. *)
Theorem stand_dealer_final_score
    (fuel : nat) (w : World) (p : Body) (now : Time) (g : Game) :
  games w !! usernameOf p = Some g ->
  Forall validCard (dealerHand g) ->
  scoreHand (dealerHand g) <= 26 ->
  (17 <= fuel)%nat ->
  exists (drawn : list Card) (ds : Z) (result : Outcome) (payout : Q) (w1 w2 : World),
    http_stand fuel w p now
      = Some (StandOk (dealerHand g ++ drawn) ds result payout now, w1) /\
    grpc_Stand fuel w p now
      = Some (StandOk (dealerHand g ++ drawn) ds result payout now, w2) /\
    17 <= ds <= 26 /\
    Forall validCard drawn /\
    (payout = 0%Q \/ payout = betAmount g \/ payout = (betAmount g * 2)%Q).
Proof.
  intros Hg Hvalid Hinit Hfuel.
  destruct (stand_run fuel w p now g Hg Hvalid Hfuel)
    as (drawn & g' & Hcards & Hpre & Hfin & Hhttp & Hgrpc).
  cbv zeta in Hhttp, Hgrpc.
  assert (Hdrawn : Forall validCard drawn).
  { pose proof (drawCards_valid (length drawn) (rng w)) as H. by rewrite Hcards in H. }
  exists drawn. eexists. eexists. eexists. eexists. eexists.
  split; [exact Hhttp|]. split; [exact Hgrpc|].
  split; [split; [exact Hfin | by apply dealer_score_range]|].
  split; [exact Hdrawn|].
  destruct (settle _ _); cbn [payoutOf]; auto.
Qed.

Lemma stand_dealer_final_score_witness :
  games dealerSixteen !! usernameOf alice
    = Some (mkGame [card 10; card 10] [card 10; card 6] 10%Q) /\
  Forall validCard [card 10; card 6] /\
  scoreHand [card 10; card 6] <= 26 /\
  (17 <= 17)%nat /\
  exists (drawn : list Card) (ds : Z) (result : Outcome) (payout : Q) (w1 : World),
    http_stand 17 dealerSixteen alice 0
      = Some (StandOk ([card 10; card 6] ++ drawn) ds result payout 0, w1) /\
    17 <= ds <= 26.
Proof.
  assert (H1 : games dealerSixteen !! usernameOf alice
               = Some (mkGame [card 10; card 10] [card 10; card 6] 10%Q))
    by reflexivity.
  assert (H2 : Forall validCard [card 10; card 6])
    by (repeat constructor; unfold validCard; simpl; lia).
  assert (H3 : scoreHand [card 10; card 6] <= 26) by (vm_compute; discriminate).
  assert (H4 : (17 <= 17)%nat) by lia.
  split; [exact H1|]. split; [exact H2|]. split; [exact H3|]. split; [exact H4|].
  destruct (stand_dealer_final_score 17 dealerSixteen alice 0 _ H1 H2 H3 H4)
    as (drawn & ds & result & payout & w1 & w2 & Hs & _ & Hrange & _).
  exists drawn, ds, result, payout, w1. split; [exact Hs | exact Hrange].
Defined.

(** X8: a Stand right after a Deal always settles.  The player's two cards
    score at most 21, the dealer ends between 17 and 26, the round is a win
    exactly when the dealer is above 21 or below the player, a push exactly
    when the two scores are equal, the payout follows from the bet of the
    Deal, and the round is gone. *)
Theorem deal_then_stand_settles
    (fuel : nat) (w : World) (p : Body) (now later : Time) :
  (17 <= fuel)%nat ->
  exists (c1 c2 c3 c4 : Card) (drawn : list Card) (ds : Z) (result : Outcome)
         (w' : World),
    fst (http_deal w p now)
      = DealOk [c1; c2] [c3; c4] (scoreHand [c1; c2])
          (if scoreHand [c1; c2] >=? 21 then scoreHand [c3; c4] else scoreHand [c3])
          (betAmountOf p) now /\
    http_stand fuel (snd (http_deal w p now)) p later
      = Some (StandOk ([c3; c4] ++ drawn) ds result
                (payoutOf result (betAmountOf p)) later, w') /\
    scoreHand [c1; c2] <= 21 /\
    17 <= ds <= 26 /\
    (result = Win <-> 21 < ds \/ ds < scoreHand [c1; c2]) /\
    (result = Push <-> scoreHand [c1; c2] = ds) /\
    games w' !! usernameOf p = None.
Proof.
  intros Hfuel.
  destruct (deal_round w p now)
    as (c1 & c2 & c3 & c4 & g' & _ & Hvalid & _ & Hhttp & _).
  inversion Hvalid as [|? ? V1 Hr1]; subst.
  inversion Hr1 as [|? ? V2 Hr2]; subst.
  inversion Hr2 as [|? ? V3 Hr3]; subst.
  inversion Hr3 as [|? ? V4 _]; subst.
  pose proof (two_cards_within_21 c1 c2 V1 V2) as Hps.
  pose proof (two_cards_within_21 c3 c4 V3 V4) as Hds0.
  rewrite Hhttp. cbn [fst snd].
  destruct (stand_run fuel
              (mkWorld (<[usernameOf p := mkGame [c1; c2] [c3; c4] (betAmountOf p)]>
                          (games w)) (redis w) (recorded w) g')
              p later (mkGame [c1; c2] [c3; c4] (betAmountOf p)))
    as (drawn & g2 & Hcards & Hpre & Hfin & Hstand & _); auto.
  { apply lookup_insert_eq. }
  cbn [playerHand dealerHand betAmount games redis recorded rng] in *.
  assert (Hdrawn : Forall validCard drawn).
  { pose proof (drawCards_valid (length drawn) g') as H. by rewrite Hcards in H. }
  pose proof (dealer_score_range [c3; c4] drawn Hdrawn ltac:(lia) Hpre) as Hmax.
  exists c1, c2, c3, c4, drawn. eexists. eexists. eexists.
  split; [reflexivity|]. split; [exact Hstand|].
  split; [exact Hps|]. split; [lia|].
  split; [|split; [|apply lookup_delete_eq]].
  - unfold settle.
    destruct (Z.gtb_spec (scoreHand [c1; c2]) 21); [lia|].
    destruct (Z.gtb_spec (scoreHand ([c3; c4] ++ drawn)) 21),
      (Z.gtb_spec (scoreHand [c1; c2]) (scoreHand ([c3; c4] ++ drawn))),
      (Z.eqb_spec (scoreHand [c1; c2]) (scoreHand ([c3; c4] ++ drawn)));
      cbn [orb]; split; intros Hx; try done; try lia.
  - unfold settle.
    destruct (Z.gtb_spec (scoreHand [c1; c2]) 21); [lia|].
    destruct (Z.gtb_spec (scoreHand ([c3; c4] ++ drawn)) 21),
      (Z.gtb_spec (scoreHand [c1; c2]) (scoreHand ([c3; c4] ++ drawn))),
      (Z.eqb_spec (scoreHand [c1; c2]) (scoreHand ([c3; c4] ++ drawn)));
      cbn [orb]; split; intros Hx; try done; try lia.
Qed.

Lemma deal_then_stand_settles_witness :
  (17 <= 17)%nat /\
  exists (r : Response) (w' : World),
    http_stand 17 (snd (http_deal noRounds alice 0)) alice 1 = Some (r, w') /\
    games w' !! usernameOf alice = None.
Proof.
  assert (H : (17 <= 17)%nat) by lia.
  split; [exact H|].
  destruct (deal_then_stand_settles 17 noRounds alice 0 1 H)
    as (c1 & c2 & c3 & c4 & drawn & ds & result & w' & _ & Hs & _ & _ & _ & _ & Hgone).
  eexists. exists w'. split; [exact Hs | exact Hgone].
Defined.

(** *** What reaches the scoring service *)

(** X9: the gRPC Stand hands exactly one record of the round to the scoring
    service, for the user of the request, with the round's bet, the payout of
    the response and a win flag set exactly for a win (a push is recorded as
    not won, with the bet as payout), and it removes the Redis copy of the
    round.  The HTTP Stand records nothing and leaves Redis alone. *)
Theorem grpc_stand_records_round_http_does_not
    (fuel : nat) (w : World) (p : Body) (now : Time) (g : Game) :
  games w !! usernameOf p = Some g ->
  Forall validCard (dealerHand g) ->
  (17 <= fuel)%nat ->
  exists (dh : list Card) (ds : Z) (result : Outcome) (payout : Q)
         (w1 w2 : World) (rec : StandRecord),
    http_stand fuel w p now = Some (StandOk dh ds result payout now, w1) /\
    grpc_Stand fuel w p now = Some (StandOk dh ds result payout now, w2) /\
    recorded w1 = recorded w /\
    redis w1 = redis w /\
    recorded w2 = recorded w ++ [rec] /\
    redis w2 = delete (stateKey (usernameOf p)) (redis w) /\
    sr_username rec = usernameOf p /\
    sr_betAmount rec = betAmount g /\
    sr_payout rec = payout /\
    sr_result rec = result /\
    (sr_win rec = true <-> result = Win) /\
    (result = Push -> sr_win rec = false /\ sr_payout rec = betAmount g) /\
    sr_playerHand rec = playerHand g /\
    sr_dealerHand rec = dh.
Proof.
  intros Hg Hvalid Hfuel.
  destruct (stand_run fuel w p now g Hg Hvalid Hfuel)
    as (drawn & g' & _ & _ & _ & Hhttp & Hgrpc).
  cbv zeta in Hhttp, Hgrpc.
  do 7 eexists.
  split; [exact Hhttp|]. split; [exact Hgrpc|].
  cbn. repeat split; try reflexivity.
  all: simpl; destruct (settle _ _); simpl; intros; try done; by split.
Qed.

Lemma grpc_stand_records_round_http_does_not_witness :
  games dealerSixteen !! usernameOf alice
    = Some (mkGame [card 10; card 10] [card 10; card 6] 10%Q) /\
  Forall validCard [card 10; card 6] /\
  (17 <= 17)%nat /\
  exists (r : Response) (w2 : World) (rec : StandRecord),
    grpc_Stand 17 dealerSixteen alice 0 = Some (r, w2) /\
    recorded w2 = recorded dealerSixteen ++ [rec] /\
    sr_betAmount rec = 10%Q.
Proof.
  assert (H1 : games dealerSixteen !! usernameOf alice
               = Some (mkGame [card 10; card 10] [card 10; card 6] 10%Q))
    by reflexivity.
  assert (H2 : Forall validCard [card 10; card 6])
    by (repeat constructor; unfold validCard; simpl; lia).
  assert (H3 : (17 <= 17)%nat) by lia.
  split; [exact H1|]. split; [exact H2|]. split; [exact H3|].
  destruct (grpc_stand_records_round_http_does_not 17 dealerSixteen alice 0 _ H1 H2 H3)
    as (dh & ds & result & payout & w1 & w2 & rec & _ & Hs & _ & _ & Hrec & _ & _ & Hbet & _).
  eexists. exists w2, rec. split; [exact Hs|]. split; [exact Hrec | exact Hbet].
Defined.

End BlackjackFacts.

(** ** Dice *)

Module DiceFacts.

(** C10 fails on the code: whatever the random source, a Roll returns the
    dice 4 and 3, and the whole reply is the same for any two sources. *)
Theorem rollHandler_dice_ignore_random_source
    (src1 src2 : Dice.RandSource) (betAmount : Q) (betType : string) (now : Time) :
  let req := Dice.mkHttpRequest "POST" (Some (Dice.mkRollRequest betAmount betType)) in
  Dice.dicePair (fst (Dice.rollHandler src1 req now)) = Some (4, 3) /\
  fst (Dice.rollHandler src1 req now) = fst (Dice.rollHandler src2 req now) /\
  snd (Dice.rollHandler src1 req now) = src1.
Proof.
  unfold Dice.rollHandler. simpl.
  destruct (Dice.winRule _ 4 3). simpl. done.
Qed.

(** The roll of the specification's scenario: a pass bet of 10. *)
Example roll_pass_bet :
  fst (Dice.rollHandler (fun _ => 0) (Dice.mkHttpRequest "POST"
         (Some (Dice.mkRollRequest 10%Q "pass"))) 0)
    = Dice.RollOk (Dice.mkRollResponse 4 3 7 true 20%Q 10%Q "pass" 2%Q 0).
Proof. reflexivity. Qed.

(** The die of the service's test file does follow the random source. *)
Example rollDie_follows_source :
  fst (Dice.rollDie (fun _ => 0)) = 1 /\ fst (Dice.rollDie (fun _ => 5)) = 6.
Proof. split; reflexivity. Qed.



(** X11: the rules of the bet types, for any two dice.  The multiplier
    depends on the bet type alone; a bet type outside the known six follows
    the pass rule; pass and dont_pass are never both won; snake_eyes and
    boxcars are never both won, and either one being won means that the field
    bet is won and the pass bet lost; seven_out is won exactly on a sum of 7,
    and then pass is won too.  [calculatePayout] of the test file pays what
    the won one of the three bets snake_eyes, boxcars and seven_out pays. *)
Theorem winRule_relations (d1 d2 : Z) (betType : string) (bet : Q) :
  snd (Dice.winRule betType d1 d2) = snd (Dice.winRule betType 4 3) /\
  (betType <> "pass" -> betType <> "dont_pass" -> betType <> "field" ->
   betType <> "snake_eyes" -> betType <> "boxcars" -> betType <> "seven_out" ->
   Dice.winRule betType d1 d2 = Dice.winRule "pass" d1 d2) /\
  (fst (Dice.winRule "pass" d1 d2) && fst (Dice.winRule "dont_pass" d1 d2) = false) /\
  (fst (Dice.winRule "snake_eyes" d1 d2) && fst (Dice.winRule "boxcars" d1 d2) = false) /\
  (fst (Dice.winRule "snake_eyes" d1 d2) || fst (Dice.winRule "boxcars" d1 d2) = true ->
   fst (Dice.winRule "field" d1 d2) = true /\ fst (Dice.winRule "pass" d1 d2) = false) /\
  (fst (Dice.winRule "seven_out" d1 d2) = true <-> d1 + d2 = 7) /\
  (fst (Dice.winRule "seven_out" d1 d2) = true -> fst (Dice.winRule "pass" d1 d2) = true) /\
  Dice.calculatePayout d1 d2 bet
    = (if fst (Dice.winRule "snake_eyes" d1 d2) || fst (Dice.winRule "boxcars" d1 d2)
       then (bet * snd (Dice.winRule "snake_eyes" d1 d2))%Q
       else if fst (Dice.winRule "seven_out" d1 d2)
            then (bet * snd (Dice.winRule "seven_out" d1 d2))%Q
            else 0%Q).
Proof.
  split; [|split].
  - unfold Dice.winRule. repeat case_bool_decide; reflexivity.
  - intros. unfold Dice.winRule. repeat case_bool_decide; congruence.
  - unfold Dice.calculatePayout, Dice.winRule. cbn.
    destruct (Z.eqb_spec d1 1), (Z.eqb_spec d2 1), (Z.eqb_spec d1 6), (Z.eqb_spec d2 6);
      subst; cbn; repeat split; try done; try lia;
      repeat match goal with
             | |- context [?a + ?b =? ?n] => destruct (Z.eqb_spec (a + b) n)
             end; cbn; try done; try lia; intros; try done; try lia; by split.
Qed.

Lemma winRule_relations_witness :
  fst (Dice.winRule "seven_out" 3 4) = true /\
  fst (Dice.winRule "pass" 3 4) = true.
Proof.
  assert (H : fst (Dice.winRule "seven_out" 3 4) = true) by reflexivity.
  split; [exact H|].
  exact (proj1 (proj2 (proj2 (proj2 (proj2 (proj2 (proj2
    (winRule_relations 3 4 "pass" 10%Q))))))) H).
Defined.

End DiceFacts.

(** ** Scoring *)

Module ScoringFacts.
Import Scoring.

(** *** The stable sort *)

Section Sorting.
Context {A : Type} (le : A -> A -> bool).

Lemma insertSorted_perm (x : A) (l : list A) : insertSorted le x l ≡ₚ x :: l.
Proof.
  induction l as [|y r IH]; simpl; [done|].
  destruct (le x y); [done|]. rewrite IH. apply Permutation_swap.
Qed.

Lemma stableSort_perm (l : list A) : stableSort le l ≡ₚ l.
Proof.
  induction l as [|x r IH]; simpl; [done|].
  rewrite insertSorted_perm. by rewrite IH.
Qed.

Hypothesis le_total : forall x y, le x y = true \/ le y x = true.
Hypothesis le_trans : forall x y z, le x y = true -> le y z = true -> le x z = true.

Lemma insertSorted_sorted (x : A) (l : list A) :
  StronglySorted (fun a b => le a b = true) l ->
  StronglySorted (fun a b => le a b = true) (insertSorted le x l).
Proof.
  induction 1 as [|y r Hr IH Hy]; simpl.
  - repeat constructor.
  - destruct (le x y) eqn:E.
    + constructor; [by constructor|].
      constructor; [done|].
      eapply Forall_impl; [exact Hy|]. intros z Hz. by eapply le_trans.
    + constructor; [done|].
      rewrite insertSorted_perm. constructor; [|done].
      destruct (le_total x y); congruence.
Qed.

Lemma stableSort_sorted (l : list A) :
  StronglySorted (fun a b => le a b = true) (stableSort le l).
Proof.
  induction l as [|x r IH]; simpl; [constructor|].
  by apply insertSorted_sorted.
Qed.

End Sorting.

Lemma scoreDesc_total (a b : PlayerScore) : scoreDesc a b = true \/ scoreDesc b a = true.
Proof.
  unfold scoreDesc.
  destruct (Qlt_le_dec (ps_score a) (ps_score b)) as [H|H].
  - right. apply Qle_bool_iff. by apply Qlt_le_weak.
  - left. by apply Qle_bool_iff.
Qed.

Lemma scoreDesc_trans (a b c : PlayerScore) :
  scoreDesc a b = true -> scoreDesc b c = true -> scoreDesc a c = true.
Proof.
  unfold scoreDesc. rewrite !Qle_bool_iff. intros H1 H2. by eapply Qle_trans.
Qed.

Lemma StronglySorted_weaken {A} (R1 R2 : A -> A -> Prop) (l : list A) :
  (forall a b, R1 a b -> R2 a b) -> StronglySorted R1 l -> StronglySorted R2 l.
Proof.
  intros HR. induction 1 as [|x r Hr IH Hx]; constructor; [done|].
  eapply Forall_impl; [exact Hx|]. intros y. apply HR.
Qed.

(** Sorting by score and keeping the first [n] rows: the rows kept are in
    descending order of score and are the head of a descending arrangement of
    all the rows. *)
Lemma sorted_by_score_desc (rows : list PlayerScore) :
  stableSort scoreDesc rows ≡ₚ rows /\
  StronglySorted (fun a b => (ps_score b <= ps_score a)%Q) (stableSort scoreDesc rows).
Proof.
  split; [apply stableSort_perm|].
  pose proof (stableSort_sorted scoreDesc scoreDesc_total scoreDesc_trans rows) as H.
  eapply StronglySorted_weaken; [|exact H].
  intros a b Hab. by apply Qle_bool_iff.
Qed.

Lemma take_sorted {A} (R : A -> A -> Prop) (n : nat) (l : list A) :
  StronglySorted R l -> StronglySorted R (take n l).
Proof.
  intros H. rewrite <- (take_drop n l) in H. by apply StronglySorted_app_1_l in H.
Qed.

Section Facts.
Context {P : Platform}.

(** *** Rejected submissions *)

(** C3: a submission whose bet is null, zero or negative is answered with
    400 Bad Request and the database it was run on is returned as it was: no
    round row, no score row, no id consumed; every dashboard computed
    afterwards is the one computed before. *)
Theorem invalid_bet_rejected_before_any_effect
    (db : Db) (now : Time) (request : GameResultRequest) :
  (req_betAmount request = None \/
   exists b : Q, req_betAmount request = Some b /\ (b <= 0)%Q) ->
  ScoringController_recordGameResult db now request = (BadRequest, db) /\
  game_results (snd (ScoringController_recordGameResult db now request))
    = game_results db /\
  player_scores (snd (ScoringController_recordGameResult db now request))
    = player_scores db /\
  forall (game : string) (later : Time),
    ScoringController_getDashboardStats
      (snd (ScoringController_recordGameResult db now request)) later game
    = ScoringController_getDashboardStats db later game.
Proof.
  intros Hbet.
  assert (H : ScoringController_recordGameResult db now request = (BadRequest, db)).
  { unfold ScoringController_recordGameResult.
    destruct (requestValid request); [|done]. simpl.
    destruct Hbet as [-> | (b & -> & Hb)]; [done|].
    apply Qle_bool_iff in Hb. by rewrite Hb. }
  rewrite H. done.
Qed.

(** *** Dashboard *)

Lemma getTopPlayers_db_ok (db : Db) (game : string) (limit : Z) :
  0 <= limit -> exists l, getTopPlayers (dbRepositories db) game limit = Ok l.
Proof.
  intros Hl. unfold getTopPlayers. simpl. unfold db_findTopNByGame.
  destruct (Z.ltb_spec limit 0); [lia|].
  destruct (bool_decide (game = "all")); eauto.
Qed.

Lemma wins_le_total (db : Db) (game : string) :
  0 <= db_countWinsByGame db game <= db_countTotalByGame db game.
Proof.
  unfold db_countWinsByGame, db_countTotalByGame.
  induction (game_results db) as [|g l IH]; [simpl; lia|].
  rewrite !filter_cons.
  destruct (counted game g) eqn:Hc; simpl.
  - destruct (decide (gr_win g = true)); simpl; lia.
  - exact IH.
Qed.

Lemma rate_range (w t : Z) :
  0 <= w <= t -> 0 < t ->
  (0 <= inject_Z w / inject_Z t * 100 <= 100)%Q.
Proof.
  intros Hw Ht.
  assert (Ht' : (0 < inject_Z t)%Q) by (change 0%Q with (inject_Z 0); rewrite <- Zlt_Qlt; lia).
  assert (H0 : (0 <= inject_Z w / inject_Z t)%Q).
  { apply Qle_shift_div_l; [done|]. rewrite Qmult_0_l.
    change 0%Q with (inject_Z 0). rewrite <- Zle_Qle. lia. }
  assert (H1 : (inject_Z w / inject_Z t <= 1)%Q).
  { apply Qle_shift_div_r; [done|]. rewrite Qmult_1_l. rewrite <- Zle_Qle. lia. }
  split.
  - apply Qmult_le_0_compat; done.
  - apply Qle_trans with (1 * 100)%Q.
    + apply Qmult_le_compat_r; done.
    + apply Qle_bool_iff. reflexivity.
Qed.

(** C7: over any database the dashboard of a game is computed; its
    [totalGames] and [totalWins] count the stored rounds of that game with a
    positive bet (the wins among them); [winRate] is
    [totalWins / totalGames * 100] when there is a game, exactly 0 when there
    is none, and lies between 0 and 100. *)
Theorem winRate_formula_and_range (db : Db) (now : Time) (game : string) :
  exists stats : DashboardStats,
    ScoringController_getDashboardStats db now game = Ok stats /\
    totalGames stats
      = Z.of_nat (length (filter (fun g => gr_game g = game /\ (0 < gr_betAmount g)%Q)
                                 (game_results db))) /\
    totalWins stats
      = Z.of_nat (length (filter (fun g => (gr_game g = game /\ (0 < gr_betAmount g)%Q)
                                           /\ gr_win g = true)
                                 (game_results db))) /\
    0 <= totalWins stats <= totalGames stats /\
    (totalGames stats = 0 -> winRate stats = 0%Q) /\
    (0 < totalGames stats ->
       winRate stats
         = (inject_Z (totalWins stats) / inject_Z (totalGames stats) * 100)%Q) /\
    (0 <= winRate stats <= 100)%Q.
Proof.
  destruct (getTopPlayers_db_ok db game 10) as [top Htop]; [lia|].
  unfold ScoringController_getDashboardStats, getDashboardStats. simpl.
  rewrite Htop. simpl. eexists. split; [reflexivity|]. simpl.
  pose proof (wins_le_total db game) as Hwt.
  assert (Hcounted : forall g, counted game g = true
                               <-> gr_game g = game /\ (0 < gr_betAmount g)%Q).
  { intros g. unfold counted, Qgtb.
    rewrite andb_true_iff, bool_decide_eq_true, negb_true_iff.
    split; intros [Hg Hb]; split; auto.
    - apply Qnot_le_lt. intros Hle. apply Qle_bool_iff in Hle. congruence.
    - destruct (Qle_bool (gr_betAmount g) 0) eqn:E; [|done].
      apply Qle_bool_iff in E. exfalso. by apply (Qlt_not_le _ _ Hb). }
  split.
  { unfold db_countTotalByGame. f_equal. f_equal.
    apply list_filter_iff. exact Hcounted. }
  split.
  { unfold db_countWinsByGame. f_equal. f_equal.
    apply list_filter_iff. intros g.
    rewrite andb_true_iff, Hcounted. done. }
  split; [exact Hwt|].
  destruct (Z.gtb_spec (db_countTotalByGame db game) 0) as [Hpos|Hzero].
  - split; [lia|]. split; [done|]. apply rate_range; lia.
  - split; [done|]. split; [lia|]. split; done.
Qed.

Lemma getDashboardStats_game (R : Repositories) (now : Time) (game : string)
    (stats : DashboardStats) :
  getDashboardStats R now game = Ok stats -> ds_game stats = game.
Proof.
  unfold getDashboardStats.
  destruct (countTotalByGame R game); [|done]. simpl.
  destruct (countWinsByGame R game); [|done]. simpl.
  destruct (sumBetAmountsByGame R game); [|done]. simpl.
  destruct (sumPayoutsByGame R game); [|done]. simpl.
  destruct (findByGameAndTimestampBetweenOrderByTimestampDesc R game _ now); [|done]. simpl.
  destruct (getTopPlayers R game 10); [|done]. simpl.
  intros [= <-]. done.
Qed.

(** C8: whatever the repositories do, the statistics of all games are a list
    with one entry per game of the fixed list, in its order; the entry of a
    game whose statistics raised is the zero row of that game (counts and
    amounts 0, no top players), and the entry of any other game is its
    statistics. *)
Theorem all_games_stats_zero_row_on_failure (R : Repositories) (now : Time) :
  ds_game <$> getAllGamesDashboardStats R now = ["slots"; "roulette"; "dice"; "blackjack"] /\
  (forall (i : nat) (game e : string),
     ["slots"; "roulette"; "dice"; "blackjack"] !! i = Some game ->
     getDashboardStats R now game = Throw e ->
     getAllGamesDashboardStats R now !! i
       = Some (mkDashboardStats game 0 0 0 0%Q 0%Q 0%Q 0%Q 0%Q 0%Q 0 [])) /\
  (forall (i : nat) (game : string) (stats : DashboardStats),
     ["slots"; "roulette"; "dice"; "blackjack"] !! i = Some game ->
     getDashboardStats R now game = Ok stats ->
     getAllGamesDashboardStats R now !! i = Some stats).
Proof.
  unfold getAllGamesDashboardStats, allGames.
  split.
  { assert (H : forall game,
      ds_game (match getDashboardStats R now game with
               | Ok stats => stats
               | Throw _ => emptyStats game
               end) = game).
    { intros game. destruct (getDashboardStats R now game) eqn:E; [|done].
      by apply getDashboardStats_game in E. }
    simpl. rewrite !H. done. }
  split.
  - intros i game e Hi He. rewrite list_lookup_fmap, Hi. simpl. by rewrite He.
  - intros i game stats Hi Hs. rewrite list_lookup_fmap, Hi. simpl. by rewrite Hs.
Qed.

(** *** Leaderboard *)

(** The map built by [Collectors.toMap]: under each user name it holds a row
    of that user, one whose score no other row of the user exceeds, and every
    user of the rows has an entry. *)
Lemma toMapBestPerUser_fold (rows : list PlayerScore) :
  forall (m : gmap string PlayerScore) (seen : list PlayerScore),
    (forall u r, m !! u = Some r ->
       r ∈ seen /\ ps_username r = u /\
       forall r', r' ∈ seen -> ps_username r' = u -> (ps_score r' <= ps_score r)%Q) ->
    (forall r, r ∈ seen -> is_Some (m !! ps_username r)) ->
    let m' := foldl (fun m s =>
                       match m !! ps_username s with
                       | Some a =>
                           <[ps_username s :=
                               if Qgtb (ps_score a) (ps_score s) then a else s]> m
                       | None => <[ps_username s := s]> m
                       end) m rows in
    (forall u r, m' !! u = Some r ->
       r ∈ seen ++ rows /\ ps_username r = u /\
       forall r', r' ∈ seen ++ rows -> ps_username r' = u ->
                  (ps_score r' <= ps_score r)%Q) /\
    (forall r, r ∈ seen ++ rows -> is_Some (m' !! ps_username r)).
Proof.
  induction rows as [|s rows IH]; intros m seen Hbest Hall; simpl.
  - rewrite app_nil_r. split; assumption.
  - replace (seen ++ s :: rows) with ((seen ++ [s]) ++ rows)
      by (by rewrite <- app_assoc).
    apply IH.
    + intros u r Hr.
      destruct (m !! ps_username s) as [a|] eqn:Ha.
      * destruct (Hbest _ _ Ha) as (Hain & Hau & Hamax).
        destruct (decide (ps_username s = u)) as [<-|Hne].
        -- rewrite lookup_insert_eq in Hr. injection Hr as <-.
           unfold Qgtb. destruct (Qle_bool (ps_score a) (ps_score s)) eqn:E; simpl.
           ++ apply Qle_bool_iff in E.
              split; [apply elem_of_app; right; by apply list_elem_of_singleton|].
              split; [done|]. intros r' Hr' Hu.
              apply elem_of_app in Hr' as [Hr'|Hr'].
              ** eapply Qle_trans; [by apply Hamax | done].
              ** apply list_elem_of_singleton in Hr' as ->. apply Qle_refl.
           ++ split; [apply elem_of_app; by left|]. split; [done|].
              intros r' Hr' Hu.
              apply elem_of_app in Hr' as [Hr'|Hr']; [by apply Hamax|].
              apply list_elem_of_singleton in Hr' as ->.
              apply Qlt_le_weak, Qnot_le_lt. intros Hle.
              apply Qle_bool_iff in Hle. congruence.
        -- rewrite lookup_insert_ne in Hr by done.
           destruct (Hbest _ _ Hr) as (Hrin & Hru & Hrmax).
           split; [apply elem_of_app; by left|]. split; [done|].
           intros r' Hr' Hu.
           apply elem_of_app in Hr' as [Hr'|Hr']; [by apply Hrmax|].
           apply list_elem_of_singleton in Hr' as ->. done.
      * destruct (decide (ps_username s = u)) as [<-|Hne].
        -- rewrite lookup_insert_eq in Hr. injection Hr as <-.
           split; [apply elem_of_app; right; by apply list_elem_of_singleton|].
           split; [done|]. intros r' Hr' Hu.
           apply elem_of_app in Hr' as [Hr'|Hr'].
           ++ destruct (Hall _ Hr') as [x Hx]. rewrite Hu, Ha in Hx. done.
           ++ apply list_elem_of_singleton in Hr' as ->. apply Qle_refl.
        -- rewrite lookup_insert_ne in Hr by done.
           destruct (Hbest _ _ Hr) as (Hrin & Hru & Hrmax).
           split; [apply elem_of_app; by left|]. split; [done|].
           intros r' Hr' Hu.
           apply elem_of_app in Hr' as [Hr'|Hr']; [by apply Hrmax|].
           apply list_elem_of_singleton in Hr' as ->. done.
    + intros r Hr.
      assert (Hins : forall v, is_Some (<[ps_username s := v]> m !! ps_username r)).
      { intros v. apply lookup_insert_is_Some.
        destruct (decide (ps_username s = ps_username r)); [by left|right].
        split; [done|].
        apply elem_of_app in Hr as [Hr|Hr]; [by apply Hall|].
        apply list_elem_of_singleton in Hr as ->. done. }
      destruct (m !! ps_username s); apply Hins.
Qed.

Lemma toMapBestPerUser_spec (rows : list PlayerScore) :
  (forall u r, toMapBestPerUser rows !! u = Some r ->
     r ∈ rows /\ ps_username r = u /\
     forall r', r' ∈ rows -> ps_username r' = u -> (ps_score r' <= ps_score r)%Q) /\
  (forall r, r ∈ rows -> is_Some (toMapBestPerUser rows !! ps_username r)).
Proof.
  apply (toMapBestPerUser_fold rows ∅ []).
  - intros u r Hr. by rewrite lookup_empty in Hr.
  - intros r Hr. by apply not_elem_of_nil in Hr.
Qed.

Lemma values_usernames (l : list (string * PlayerScore)) :
  (forall u r, (u, r) ∈ l -> ps_username r = u) -> ps_username <$> l.*2 = l.*1.
Proof.
  induction l as [|[u r] l IH]; intros H; [done|].
  rewrite !fmap_cons. cbn [fst snd]. f_equal.
  - apply H, list_elem_of_here.
  - apply IH. intros u' r' Hin. by apply H, list_elem_of_further.
Qed.

(** The rows the cross-game leaderboard sorts: one row per user, each a stored
    row with the highest score among the rows of its user. *)
Lemma bestPerUser_spec (rows : list PlayerScore) :
  let best := hashMapValues (toMapBestPerUser rows) in
  NoDup (ps_username <$> best) /\
  (forall r, r ∈ best ->
     r ∈ rows /\
     forall r', r' ∈ rows -> ps_username r' = ps_username r ->
                (ps_score r' <= ps_score r)%Q) /\
  (forall r, r ∈ rows -> exists r', r' ∈ best /\ ps_username r' = ps_username r).
Proof.
  destruct (toMapBestPerUser_spec rows) as [Hbest Hall].
  pose proof (hashMapValues_perm (toMapBestPerUser rows)) as Hperm.
  simpl. split; [|split].
  - rewrite Hperm, values_usernames; [apply NoDup_fst_map_to_list|].
    intros u r Hin. apply elem_of_map_to_list in Hin. by apply Hbest.
  - intros r Hr. rewrite Hperm in Hr.
    apply list_elem_of_fmap in Hr as ([u r0] & -> & Hin). simpl.
    apply elem_of_map_to_list in Hin.
    destruct (Hbest _ _ Hin) as (Hrin & Hu & Hmax).
    split; [done|]. intros r' Hr' Hu'. apply Hmax; congruence.
  - intros r Hr. destruct (Hall r Hr) as [r' Hr'].
    exists r'. split.
    + rewrite Hperm. apply list_elem_of_fmap. exists (ps_username r, r').
      split; [done|]. by apply elem_of_map_to_list.
    + by destruct (Hbest _ _ Hr') as (_ & Hu & _).
Qed.

(** C9, as the code has it: for a limit that is not negative, the leaderboard
    of a game is the first [limit] rows of an arrangement of the game's score
    rows in descending order of best payout, and nothing but the score orders
    it; the leaderboard of all games is the first [limit] rows of such an
    arrangement of one row per player, each a stored row whose best payout no
    other row of that player exceeds. *)
Theorem leaderboard_sorted_by_score_only (db : Db) (game : string) (limit : Z) :
  0 <= limit ->
  (game <> "all" ->
   exists full : list PlayerScore,
     getTopPlayers (dbRepositories db) game limit = Ok (take (Z.to_nat limit) full) /\
     full ≡ₚ filter (fun s => ps_game s = game) (player_scores db) /\
     StronglySorted (fun a b => (ps_score b <= ps_score a)%Q) full /\
     StronglySorted (fun a b => (ps_score b <= ps_score a)%Q)
                    (take (Z.to_nat limit) full)) /\
  (exists full : list PlayerScore,
     getTopPlayers (dbRepositories db) "all" limit = Ok (take (Z.to_nat limit) full) /\
     StronglySorted (fun a b => (ps_score b <= ps_score a)%Q) full /\
     StronglySorted (fun a b => (ps_score b <= ps_score a)%Q)
                    (take (Z.to_nat limit) full) /\
     NoDup (ps_username <$> full) /\
     (forall r, r ∈ full ->
        r ∈ player_scores db /\
        forall r', r' ∈ player_scores db -> ps_username r' = ps_username r ->
                   (ps_score r' <= ps_score r)%Q) /\
     (forall r, r ∈ player_scores db ->
        exists r', r' ∈ full /\ ps_username r' = ps_username r)).
Proof.
  intros Hlimit. split.
  - intros Hgame. unfold getTopPlayers. rewrite bool_decide_eq_false_2 by done.
    simpl. unfold db_findTopNByGame.
    destruct (Z.ltb_spec limit 0); [lia|].
    destruct (sorted_by_score_desc (filter (fun s => ps_game s = game) (player_scores db)))
      as [Hperm Hsorted].
    eexists. split; [reflexivity|]. split; [exact Hperm|].
    split; [exact Hsorted | by apply take_sorted].
  - unfold getTopPlayers. rewrite bool_decide_eq_true_2 by done. simpl.
    destruct (Z.ltb_spec limit 0); [lia|].
    destruct (sorted_by_score_desc (hashMapValues (toMapBestPerUser (player_scores db))))
      as [Hperm Hsorted].
    destruct (bestPerUser_spec (player_scores db)) as (Hnodup & Hbest & Hall).
    eexists. split; [reflexivity|].
    split; [exact Hsorted|]. split; [by apply take_sorted|].
    split; [by rewrite Hperm|].
    split.
    + intros r Hr. rewrite Hperm in Hr. by apply Hbest.
    + intros r Hr. destruct (Hall r Hr) as (r' & Hr' & Hu).
      exists r'. split; [by rewrite Hperm | done].
Qed.

(** *** Recording rounds *)

Lemma filter_key_none (l : list PlayerScore) (u g : string) :
  (forall r, r ∈ l -> ~ (ps_username r = u /\ ps_game r = g)) ->
  filter (fun s => ps_username s = u /\ ps_game s = g) l = [].
Proof.
  induction l as [|x l IH]; intros H; [done|].
  rewrite filter_cons_False.
  - apply IH. intros r Hr. by apply H, list_elem_of_further.
  - apply H, list_elem_of_here.
Qed.

Lemma filter_key_unique (l : list PlayerScore) (u g : string) (r : PlayerScore) :
  NoDup (scoreKey <$> l) -> r ∈ l -> ps_username r = u -> ps_game r = g ->
  filter (fun s => ps_username s = u /\ ps_game s = g) l = [r].
Proof.
  induction l as [|x l IH]; intros Hnd Hin Hu Hg.
  - by apply not_elem_of_nil in Hin.
  - rewrite fmap_cons in Hnd. apply NoDup_cons in Hnd as [Hx Hnd].
    apply elem_of_cons in Hin as [->|Hin].
    + rewrite filter_cons_True by done. f_equal.
      apply filter_key_none. intros y Hy [Hyu Hyg]. apply Hx.
      apply list_elem_of_fmap. exists y. split; [|done]. unfold scoreKey. congruence.
    + rewrite filter_cons_False; [by apply IH|].
      intros [Hxu Hxg]. apply Hx.
      apply list_elem_of_fmap. exists r. split; [|done]. unfold scoreKey. congruence.
Qed.

Lemma storedScore_elem (db : Db) (u g : string) (r : PlayerScore) :
  storedScore db u g = Some r ->
  r ∈ player_scores db /\ ps_username r = u /\ ps_game r = g.
Proof.
  unfold storedScore, db_findByUsernameAndGameOrderByTimestampDesc. intros H.
  apply head_Some_elem_of in H. rewrite stableSort_perm in H.
  apply list_elem_of_filter in H. tauto.
Qed.

Lemma storedScore_Some (db : Db) (u g : string) (r : PlayerScore) :
  NoDup (scoreKey <$> player_scores db) ->
  r ∈ player_scores db -> ps_username r = u -> ps_game r = g ->
  storedScore db u g = Some r.
Proof.
  intros Hnd Hin Hu Hg.
  unfold storedScore, db_findByUsernameAndGameOrderByTimestampDesc.
  by rewrite (filter_key_unique _ u g r).
Qed.

Lemma storedScore_None (db : Db) (u g : string) :
  storedScore db u g = None ->
  forall r, r ∈ player_scores db -> ~ (ps_username r = u /\ ps_game r = g).
Proof.
  unfold storedScore, db_findByUsernameAndGameOrderByTimestampDesc. intros H r Hr Hk.
  apply head_None in H.
  assert (Hin : r ∈ stableSort timestampDesc
                     (filter (fun s => ps_username s = u /\ ps_game s = g)
                             (player_scores db))).
  { rewrite stableSort_perm. by apply list_elem_of_filter. }
  rewrite H in Hin. by apply not_elem_of_nil in Hin.
Qed.

Lemma NoDup_fmap_same {A B} (f : A -> B) (l : list A) (x y : A) :
  NoDup (f <$> l) -> x ∈ l -> y ∈ l -> f x = f y -> x = y.
Proof.
  induction l as [|z l IH]; intros Hnd Hx Hy Hf.
  - by apply not_elem_of_nil in Hx.
  - rewrite fmap_cons in Hnd. apply NoDup_cons in Hnd as [Hz Hnd].
    apply elem_of_cons in Hx as [->|Hx]; apply elem_of_cons in Hy as [->|Hy].
    + done.
    + exfalso. apply Hz. rewrite Hf. by apply list_elem_of_fmap_2.
    + exfalso. apply Hz. rewrite <- Hf. by apply list_elem_of_fmap_2.
    + by apply IH.
Qed.

(** The score row a recorded round leaves for its player and game. *)
Lemma runCall_scores (db : Db) (c : Call) (bet pay : Q) :
  c_betAmount c = Some bet -> c_payout c = Some pay ->
  match storedScore db (c_username c) (c_game c) with
  | Some row =>
      player_scores (runCall db c)
        = (fun r => if ps_id r =? ps_id row
                    then (if Qgtb pay (ps_score row)
                          then setMetadata (setTimestamp (setScore row pay) (c_now c))
                                 (formatScoreMetadata bet pay (pay - bet)%Q (c_now c))
                          else setTimestamp row (c_now c))
                    else r) <$> player_scores db /\
      next_score_id (runCall db c) = next_score_id db
  | None =>
      player_scores (runCall db c)
        = player_scores db ++
          [mkPlayerScore (next_score_id db) (c_username c) "player" (c_game c) pay
             (c_now c) (Some (formatScoreMetadata bet pay (pay - bet)%Q (c_now c)))] /\
      next_score_id (runCall db c) = next_score_id db + 1
  end.
Proof.
  intros Hbet Hpay. unfold runCall, recordGameResult, storedScore.
  rewrite Hbet, Hpay. cbn [saveNewGameResult].
  unfold db_findByUsernameAndGameOrderByTimestampDesc. cbn [player_scores].
  destruct (head _) as [row|]; [|done].
  destruct (Qgtb pay (ps_score row)); done.
Qed.

Lemma runCall_null (db : Db) (c : Call) :
  c_betAmount c = None \/ c_payout c = None -> runCall db c = db.
Proof.
  unfold runCall, recordGameResult. intros [-> | ->]; [done|].
  by destruct (c_betAmount c).
Qed.

Lemma emptyDb_consistent : scoresConsistent emptyDb.
Proof. repeat split; simpl; constructor. Qed.

Lemma runCall_consistent (db : Db) (c : Call) :
  scoresConsistent db -> scoresConsistent (runCall db c).
Proof.
  intros (Hkeys & Hids & Hbound).
  destruct (c_betAmount c) as [bet|] eqn:Hbet; [|by rewrite runCall_null; [|left]].
  destruct (c_payout c) as [pay|] eqn:Hpay; [|by rewrite runCall_null; [|right]].
  pose proof (runCall_scores db c bet pay Hbet Hpay) as Hrun.
  destruct (storedScore db (c_username c) (c_game c)) as [row|] eqn:Hrow.
  - destruct Hrun as [Hscores Hnext].
    apply storedScore_elem in Hrow as (Hin & Hu & Hg).
    unfold scoresConsistent. rewrite Hscores, Hnext.
    split; [|split].
    + rewrite <- list_fmap_compose.
      replace (_ <$> player_scores db) with (scoreKey <$> player_scores db); [done|].
      apply Forall_fmap_ext, Forall_forall. intros x Hx. simpl.
      destruct (Z.eqb_spec (ps_id x) (ps_id row)) as [E|E]; [|done].
      assert (x = row) as -> by (by eapply (NoDup_fmap_same ps_id)).
      by destruct (Qgtb pay (ps_score row)).
    + rewrite <- list_fmap_compose.
      replace (_ <$> player_scores db) with (ps_id <$> player_scores db); [done|].
      apply Forall_fmap_ext, Forall_forall. intros x Hx. simpl.
      destruct (Z.eqb_spec (ps_id x) (ps_id row)) as [E|E]; [|done].
      by destruct (Qgtb pay (ps_score row)).
    + apply Forall_fmap, Forall_forall. intros x Hx. simpl.
      rewrite Forall_forall in Hbound.
      destruct (Z.eqb_spec (ps_id x) (ps_id row)) as [E|E]; [|by apply Hbound].
      destruct (Qgtb pay (ps_score row)); simpl; by apply Hbound.
  - destruct Hrun as [Hscores Hnext].
    pose proof (storedScore_None db _ _ Hrow) as Hfresh.
    unfold scoresConsistent. rewrite Hscores, Hnext, !fmap_app. simpl.
    rewrite Forall_forall in Hbound.
    split; [|split].
    + apply NoDup_app. split; [done|]. split; [|apply NoDup_singleton].
      intros k Hk Hnew. apply list_elem_of_singleton in Hnew as ->.
      apply list_elem_of_fmap in Hk as (x & Hkx & Hx).
      apply (Hfresh x Hx). unfold scoreKey in Hkx. simpl in Hkx. by injection Hkx.
    + apply NoDup_app. split; [done|]. split; [|apply NoDup_singleton].
      intros k Hk Hnew. apply list_elem_of_singleton in Hnew as ->.
      apply list_elem_of_fmap in Hk as (x & Hkx & Hx).
      specialize (Hbound x Hx). simpl in Hbound. lia.
    + apply Forall_app. split.
      * apply Forall_forall. intros x Hx. specialize (Hbound x Hx). simpl in *. lia.
      * repeat constructor. simpl. lia.
Qed.

Lemma runCalls_consistent (calls : list Call) : forall db,
  scoresConsistent db -> scoresConsistent (runCalls db calls).
Proof.
  induction calls as [|c calls IH]; intros db Hdb; [done|].
  simpl. by apply IH, runCall_consistent.
Qed.

(** A round recorded for a player and game whose score row exists: the row
    takes the payout, the instant and fresh metadata when the payout exceeds
    its score, and only the instant otherwise. *)
Lemma runCall_same_key (db : Db) (c : Call) (bet pay : Q) (row : PlayerScore) :
  scoresConsistent db ->
  c_betAmount c = Some bet -> c_payout c = Some pay ->
  storedScore db (c_username c) (c_game c) = Some row ->
  storedScore (runCall db c) (c_username c) (c_game c)
    = Some (if Qgtb pay (ps_score row)
            then setMetadata (setTimestamp (setScore row pay) (c_now c))
                   (formatScoreMetadata bet pay (pay - bet)%Q (c_now c))
            else setTimestamp row (c_now c)).
Proof.
  intros Hdb Hbet Hpay Hrow.
  pose proof (runCall_consistent db c Hdb) as (Hkeys' & _ & _).
  pose proof (runCall_scores db c bet pay Hbet Hpay) as Hrun.
  rewrite Hrow in Hrun. destruct Hrun as [Hscores _].
  apply storedScore_elem in Hrow as (Hin & Hu & Hg).
  apply storedScore_Some; [done| |by destruct (Qgtb pay (ps_score row))
                                |by destruct (Qgtb pay (ps_score row))].
  rewrite Hscores. apply list_elem_of_fmap. exists row.
  split; [|done]. by rewrite Z.eqb_refl.
Qed.

(** The first round recorded for a player and game creates the score row. *)
Lemma runCall_first (db : Db) (c : Call) (bet pay : Q) :
  scoresConsistent db ->
  c_betAmount c = Some bet -> c_payout c = Some pay ->
  storedScore db (c_username c) (c_game c) = None ->
  storedScore (runCall db c) (c_username c) (c_game c)
    = Some (mkPlayerScore (next_score_id db) (c_username c) "player" (c_game c) pay
              (c_now c) (Some (formatScoreMetadata bet pay (pay - bet)%Q (c_now c)))).
Proof.
  intros Hdb Hbet Hpay Hrow.
  pose proof (runCall_consistent db c Hdb) as (Hkeys' & _ & _).
  pose proof (runCall_scores db c bet pay Hbet Hpay) as Hrun.
  rewrite Hrow in Hrun. destruct Hrun as [Hscores _].
  apply storedScore_Some; [done| |done|done].
  rewrite Hscores. apply elem_of_app. right. by apply list_elem_of_singleton.
Qed.

(** A round leaves the score rows of every other player and game alone. *)
Lemma runCall_other_key (db : Db) (c : Call) (u g : string) :
  scoresConsistent db ->
  ~ (c_username c = u /\ c_game c = g) ->
  storedScore (runCall db c) u g = storedScore db u g.
Proof.
  intros Hdb Hother.
  destruct (c_betAmount c) as [bet|] eqn:Hbet; [|by rewrite runCall_null; [|left]].
  destruct (c_payout c) as [pay|] eqn:Hpay; [|by rewrite runCall_null; [|right]].
  pose proof (runCall_consistent db c Hdb) as (Hkeys' & _ & _).
  destruct Hdb as (Hkeys & Hids & _).
  pose proof (runCall_scores db c bet pay Hbet Hpay) as Hrun.
  assert (Hold : forall x, x ∈ player_scores db -> ps_username x = u -> ps_game x = g ->
                           x ∈ player_scores (runCall db c)).
  { intros x Hx Hxu Hxg.
    destruct (storedScore db (c_username c) (c_game c)) as [row|] eqn:Hrow.
    - destruct Hrun as [-> _]. apply list_elem_of_fmap. exists x. split; [|done].
      destruct (Z.eqb_spec (ps_id x) (ps_id row)) as [E|E]; [|done].
      apply storedScore_elem in Hrow as (Hin & Hru & Hrg).
      assert (x = row) as -> by (by eapply (NoDup_fmap_same ps_id)).
      exfalso. apply Hother. by rewrite <- Hru, <- Hrg.
    - destruct Hrun as [-> _]. apply elem_of_app. by left. }
  assert (Hnew : forall y, y ∈ player_scores (runCall db c) -> ps_username y = u ->
                           ps_game y = g -> y ∈ player_scores db).
  { intros y Hy Hyu Hyg.
    destruct (storedScore db (c_username c) (c_game c)) as [row|] eqn:Hrow.
    - destruct Hrun as [Hscores _]. rewrite Hscores in Hy.
      apply list_elem_of_fmap in Hy as (x & -> & Hx).
      destruct (Z.eqb_spec (ps_id x) (ps_id row)) as [E|E]; [|done].
      apply storedScore_elem in Hrow as (Hin & Hru & Hrg).
      exfalso. apply Hother.
      destruct (Qgtb pay (ps_score row)); simpl in Hyu, Hyg; by rewrite <- Hru, <- Hrg.
    - destruct Hrun as [Hscores _]. rewrite Hscores in Hy.
      apply elem_of_app in Hy as [Hy|Hy]; [done|].
      apply list_elem_of_singleton in Hy as ->. simpl in Hyu, Hyg.
      exfalso. by apply Hother. }
  destruct (storedScore db u g) as [x|] eqn:Hx.
  - apply storedScore_elem in Hx as (Hin & Hxu & Hxg).
    apply storedScore_Some; auto.
  - destruct (storedScore (runCall db c) u g) as [y|] eqn:Hy; [|done].
    apply storedScore_elem in Hy as (Hin & Hyu & Hyg).
    exfalso. eapply (storedScore_None db u g Hx y); auto.
Qed.

Lemma Qgtb_true (a b : Q) : Qgtb a b = true <-> (b < a)%Q.
Proof.
  unfold Qgtb. rewrite negb_true_iff. split.
  - intros H. apply Qnot_le_lt. intros Hle. apply Qle_bool_iff in Hle. congruence.
  - intros H. destruct (Qle_bool a b) eqn:E; [|done].
    apply Qle_bool_iff in E. exfalso. by apply (Qlt_not_le _ _ H).
Qed.

Lemma Qgtb_false (a b : Q) : Qgtb a b = false <-> (a <= b)%Q.
Proof.
  unfold Qgtb. rewrite negb_false_iff. apply Qle_bool_iff.
Qed.

(** One more round never lowers a best payout, and changes it only to the
    strictly higher payout of a round of that player and game. *)
Lemma runCall_bestPayout (db : Db) (c : Call) (u g : string) (best : Q) :
  scoresConsistent db ->
  bestPayout db u g = Some best ->
  exists best' : Q,
    bestPayout (runCall db c) u g = Some best' /\
    (best <= best')%Q /\
    (best' <> best ->
       c_username c = u /\ c_game c = g /\ c_payout c = Some best' /\ (best < best')%Q).
Proof.
  intros Hdb Hbest. unfold bestPayout in *.
  destruct (storedScore db u g) as [row|] eqn:Hrow; [|done].
  simpl in Hbest. injection Hbest as <-.
  destruct (decide (c_username c = u /\ c_game c = g)) as [[<- <-]|Hother].
  - destruct (c_betAmount c) as [bet|] eqn:Hbet;
      [|exists (ps_score row); rewrite runCall_null by (by left); rewrite Hrow;
        split; [done|]; split; [apply Qle_refl | done]].
    destruct (c_payout c) as [pay|] eqn:Hpay;
      [|exists (ps_score row); rewrite runCall_null by (by right); rewrite Hrow;
        split; [done|]; split; [apply Qle_refl | done]].
    rewrite (runCall_same_key db c bet pay row) by done.
    destruct (Qgtb pay (ps_score row)) eqn:E.
    + apply Qgtb_true in E. exists pay. simpl.
      split; [done|]. split; [by apply Qlt_le_weak | done].
    + exists (ps_score row). simpl. split; [done|]. split; [apply Qle_refl | done].
  - exists (ps_score row). rewrite runCall_other_key, Hrow by done.
    split; [done|]. split; [apply Qle_refl | done].
Qed.

Lemma runCalls_bestPayout (more : list Call) : forall (db : Db) (u g : string) (best : Q),
  scoresConsistent db ->
  bestPayout db u g = Some best ->
  exists best' : Q, bestPayout (runCalls db more) u g = Some best' /\ (best <= best')%Q.
Proof.
  induction more as [|c more IH]; intros db u g best Hdb Hbest; simpl.
  - exists best. split; [done | apply Qle_refl].
  - destruct (runCall_bestPayout db c u g best Hdb Hbest) as (b1 & Hb1 & Hle1 & _).
    destruct (IH (runCall db c) u g b1 (runCall_consistent db c Hdb) Hb1)
      as (b2 & Hb2 & Hle2).
    exists b2. split; [done|]. by eapply Qle_trans.
Qed.

(** C1: take the database reached from the empty one by any sequence of
    calls of [recordGameResult], and a player and game whose score row holds
    the best payout [best].  One more call leaves a best payout that is not
    lower, and a different one only when the call is a round of that player
    and game with a strictly higher payout, which then is the new best.  For
    a round of that player and game, a payout that does not exceed the best
    changes nothing in the row but its timestamp, which becomes the instant of
    the call; a higher payout brings the payout, the instant and new metadata.
    After any further sequence of calls the best payout is still not lower. *)
Theorem bestPayout_never_decreases
    (calls : list Call) (c : Call) (more : list Call) (username game : string)
    (row : PlayerScore) :
  let db := runCalls emptyDb calls in
  storedScore db username game = Some row ->
  (exists best' : Q,
     bestPayout (runCall db c) username game = Some best' /\
     (ps_score row <= best')%Q /\
     (best' <> ps_score row ->
        c_username c = username /\ c_game c = game /\ c_payout c = Some best' /\
        (ps_score row < best')%Q)) /\
  (forall bet pay : Q,
     c_username c = username -> c_game c = game ->
     c_betAmount c = Some bet -> c_payout c = Some pay ->
     ((pay <= ps_score row)%Q ->
        storedScore (runCall db c) username game = Some (setTimestamp row (c_now c)) /\
        bestPayout (runCall db c) username game = Some (ps_score row)) /\
     ((ps_score row < pay)%Q ->
        storedScore (runCall db c) username game
          = Some (setMetadata (setTimestamp (setScore row pay) (c_now c))
                    (formatScoreMetadata bet pay (pay - bet)%Q (c_now c))) /\
        bestPayout (runCall db c) username game = Some pay)) /\
  (exists best' : Q,
     bestPayout (runCalls db more) username game = Some best' /\
     (ps_score row <= best')%Q).
Proof.
  intros db Hrow.
  assert (Hdb : scoresConsistent db) by apply runCalls_consistent, emptyDb_consistent.
  assert (Hbest : bestPayout db username game = Some (ps_score row))
    by (unfold bestPayout; by rewrite Hrow).
  split; [by apply runCall_bestPayout|].
  split; [|by apply runCalls_bestPayout].
  intros bet pay <- <- Hbet Hpay.
  pose proof (runCall_same_key db c bet pay row Hdb Hbet Hpay Hrow) as Hstep.
  unfold bestPayout. rewrite Hstep. split.
  - intros Hle. apply Qgtb_false in Hle. by rewrite Hle.
  - intros Hlt. apply Qgtb_true in Hlt. by rewrite Hlt.
Qed.


(** *** The stored rounds *)

Lemma runCall_results (db : Db) (c : Call) (bet pay : Q) :
  c_betAmount c = Some bet -> c_payout c = Some pay ->
  game_results (runCall db c)
    = game_results db ++
      [mkGameResult (next_result_id db) (c_username c) (c_game c) (c_action c) bet pay
         (c_win c) (c_result c) (c_gameData c) (c_metadata c) (c_now c)] /\
  next_result_id (runCall db c) = next_result_id db + 1.
Proof.
  intros Hbet Hpay. unfold runCall, recordGameResult.
  rewrite Hbet, Hpay. cbn [saveNewGameResult].
  destruct (head _) as [row|]; [|done].
  destruct (Qgtb pay (ps_score row)); done.
Qed.

(** X12: the table of rounds is append-only.  Whatever calls of
    [recordGameResult] are run on a database, its round rows are still there,
    unchanged and in place, followed by one new row per call that had a bet
    and a payout, in the order of the calls; the new rows carry the data of
    their calls and consecutive ids from the database's next id on; a call
    with a null amount adds nothing. *)
Theorem recordGameResult_appends_rounds (db : Db) (calls : list Call) :
  exists added : list GameResult,
    game_results (runCalls db calls) = game_results db ++ added /\
    next_result_id (runCalls db calls) = next_result_id db + Z.of_nat (length added) /\
    (forall (i : nat) (r : GameResult),
       added !! i = Some r -> gr_id r = next_result_id db + Z.of_nat i) /\
    Forall2 (fun c r =>
               gr_username r = c_username c /\ gr_game r = c_game c /\
               gr_action r = c_action c /\
               c_betAmount c = Some (gr_betAmount r) /\
               c_payout c = Some (gr_payout r) /\
               gr_win r = c_win c /\ gr_timestamp r = c_now c)
            (filter (fun c => is_Some (c_betAmount c) /\ is_Some (c_payout c)) calls)
            added.
Proof.
  revert db. induction calls as [|c calls IH]; intros db.
  - exists []. cbn. rewrite app_nil_r. repeat split; [lia | done | constructor].
  - cbn [runCalls foldl]. fold (runCalls (runCall db c) calls).
    destruct (IH (runCall db c)) as (added & Hres & Hnext & Hids & Hdata).
    destruct (c_betAmount c) as [bet|] eqn:Hbet;
      [destruct (c_payout c) as [pay|] eqn:Hpay|].
    + destruct (runCall_results db c bet pay Hbet Hpay) as [Hr1 Hn1].
      eexists (_ :: added). rewrite Hres, Hnext, Hr1, Hn1, <- app_assoc.
      split; [reflexivity|]. split; [cbn [length]; lia|]. split.
      * intros [|i] r Hi; cbn in Hi.
        -- injection Hi as <-. cbn. lia.
        -- rewrite (Hids i r Hi), Hn1. lia.
      * rewrite filter_cons_True by (rewrite Hbet, Hpay; split; eauto).
        constructor; [|exact Hdata]. cbn. by rewrite Hbet, Hpay.
    + rewrite (runCall_null db c) in * by (by right).
      exists added. split; [done|]. split; [done|]. split; [done|].
      rewrite filter_cons_False; [done|].
      rewrite Hpay. intros [_ [x Hx]]. done.
    + rewrite (runCall_null db c) in * by (by left).
      exists added. split; [done|]. split; [done|]. split; [done|].
      rewrite filter_cons_False; [done|].
      rewrite Hbet. intros [[x Hx] _]. done.
Qed.

Lemma scoresMirrorRounds_step (db : Db) (c : Call) :
  scoresConsistent db -> scoresMirrorRounds db -> scoresMirrorRounds (runCall db c).
Proof.
  intros Hdb Hinv.
  destruct (c_betAmount c) as [bet|] eqn:Hbet; [|by rewrite runCall_null; [|left]].
  destruct (c_payout c) as [pay|] eqn:Hpay; [|by rewrite runCall_null; [|right]].
  destruct (runCall_results db c bet pay Hbet Hpay) as [Hres _].
  intros u g. specialize (Hinv u g). rewrite Hres.
  destruct (decide (c_username c = u /\ c_game c = g)) as [[<- <-]|Hother].
  - destruct (storedScore db (c_username c) (c_game c)) as [row|] eqn:Hrow.
    + rewrite (runCall_same_key db c bet pay row) by done.
      destruct Hinv as [(r0 & Hr0 & Hu0 & Hg0 & Hp0) Hmax].
      destruct (Qgtb pay (ps_score row)) eqn:E; cbn.
      * apply Qgtb_true in E. split.
        -- eexists. split; [apply elem_of_app; right; by apply list_elem_of_singleton|].
           done.
        -- intros r Hr Hu Hg. apply elem_of_app in Hr as [Hr|Hr].
           ++ eapply Qle_trans; [by apply Hmax|]. by apply Qlt_le_weak.
           ++ apply list_elem_of_singleton in Hr as ->. cbn. apply Qle_refl.
      * apply Qgtb_false in E. split.
        -- exists r0. split; [apply elem_of_app; by left | done].
        -- intros r Hr Hu Hg. apply elem_of_app in Hr as [Hr|Hr]; [by apply Hmax|].
           apply list_elem_of_singleton in Hr as ->. done.
    + rewrite (runCall_first db c bet pay) by done. cbn. split.
      * eexists. split; [apply elem_of_app; right; by apply list_elem_of_singleton|].
        done.
      * intros r Hr Hu Hg. apply elem_of_app in Hr as [Hr|Hr].
        -- exfalso. by apply (Hinv r Hr).
        -- apply list_elem_of_singleton in Hr as ->. cbn. apply Qle_refl.
  - rewrite runCall_other_key by done.
    destruct (storedScore db u g) as [row|].
    + destruct Hinv as [(r0 & Hr0 & Hrest) Hmax]. split.
      * exists r0. split; [apply elem_of_app; by left | done].
      * intros r Hr Hu Hg. apply elem_of_app in Hr as [Hr|Hr]; [by apply Hmax|].
        apply list_elem_of_singleton in Hr as ->. cbn in Hu, Hg. exfalso. by apply Hother.
    + intros r Hr. apply elem_of_app in Hr as [Hr|Hr]; [by apply Hinv|].
      apply list_elem_of_singleton in Hr as ->. cbn. done.
Qed.

Lemma scoresMirrorRounds_reached (calls : list Call) : forall db,
  scoresConsistent db -> scoresMirrorRounds db ->
  scoresMirrorRounds (runCalls db calls).
Proof.
  induction calls as [|c calls IH]; intros db Hdb Hinv; [done|].
  cbn. apply IH; [by apply runCall_consistent | by apply scoresMirrorRounds_step].
Qed.

(** X13: in a database filled from the empty one by calls of
    [recordGameResult], the score row of a player and game holds the highest
    payout of their stored rounds: it is the payout of one of those rounds
    and none of them paid more; and a player and game have a score row
    exactly when they have a stored round. *)
Theorem bestPayout_is_highest_recorded_payout
    (calls : list Call) (username game : string) :
  let db := runCalls emptyDb calls in
  (bestPayout db username game = None <->
     forall r, r ∈ game_results db -> ~ (gr_username r = username /\ gr_game r = game)) /\
  (forall best : Q,
     bestPayout db username game = Some best ->
     (exists r, r ∈ game_results db /\ gr_username r = username /\ gr_game r = game /\
                gr_payout r = best) /\
     (forall r, r ∈ game_results db -> gr_username r = username -> gr_game r = game ->
                (gr_payout r <= best)%Q)).
Proof.
  intros db.
  assert (Hinv : scoresMirrorRounds db).
  { apply scoresMirrorRounds_reached; [apply emptyDb_consistent|].
    intros u g. cbn. intros r Hr. by apply not_elem_of_nil in Hr. }
  specialize (Hinv username game). unfold bestPayout.
  destruct (storedScore db username game) as [row|]; cbn.
  - destruct Hinv as [(r0 & Hr0 & Hu & Hg & Hp) Hmax]. split.
    + split; [done|]. intros Hnone. exfalso. by apply (Hnone r0 Hr0).
    + intros best [= <-]. split; [by exists r0 | done].
  - split; [done|]. intros best [=].
Qed.

(** *** More on the dashboard *)

Lemma getDashboardStats_db (db : Db) (now : Time) (game : string) :
  exists top : list PlayerScore,
    getTopPlayers (dbRepositories db) game 10 = Ok top /\
    ScoringController_getDashboardStats db now game
      = Ok (mkDashboardStats game
              (db_countTotalByGame db game) (db_countWinsByGame db game)
              (db_countTotalByGame db game - db_countWinsByGame db game)
              (if db_countTotalByGame db game >? 0
               then (inject_Z (db_countWinsByGame db game)
                     / inject_Z (db_countTotalByGame db game) * 100)%Q
               else 0%Q)
              (db_sumBetAmountsByGame db game) (db_sumPayoutsByGame db game)
              (db_sumBetAmountsByGame db game - db_sumPayoutsByGame db game)%Q
              (if db_countTotalByGame db game >? 0
               then (db_sumBetAmountsByGame db game
                     / inject_Z (db_countTotalByGame db game))%Q
               else 0%Q)
              (if db_countTotalByGame db game >? 0
               then (db_sumPayoutsByGame db game
                     / inject_Z (db_countTotalByGame db game))%Q
               else 0%Q)
              (Z.of_nat (length (db_findByGameAndTimestampBetween db game
                                   (now - hours24) now)))
              (imap toScoreResponse top)).
Proof.
  destruct (getTopPlayers_db_ok db game 10) as [top Htop]; [lia|].
  exists top. split; [done|].
  unfold ScoringController_getDashboardStats, getDashboardStats. cbn.
  rewrite Htop. reflexivity.
Qed.

Lemma filter_none {A} (pred : A -> Prop) `{forall x, Decision (pred x)} (l : list A) :
  (forall x, x ∈ l -> ~ pred x) -> filter pred l = [].
Proof.
  induction l as [|x l IH]; intros Hl; [done|].
  rewrite filter_cons_False by (apply Hl, list_elem_of_here).
  apply IH. intros y Hy. by apply Hl, list_elem_of_further.
Qed.

Lemma filter_andb_length {A} (f g : A -> bool) (l : list A) :
  (length (filter (fun x => f x && g x = true) l)
   <= length (filter (fun x => f x = true) l))%nat.
Proof.
  induction l as [|x l IH]; [done|].
  rewrite !filter_cons.
  destruct (f x) eqn:Hf; simpl.
  - destruct (decide (g x = true)); simpl; lia.
  - exact IH.
Qed.

Lemma counted_iff (game : string) (g : GameResult) :
  counted game g = true <-> gr_game g = game /\ (0 < gr_betAmount g)%Q.
Proof.
  unfold counted. rewrite andb_true_iff, bool_decide_eq_true, Qgtb_true. done.
Qed.

Lemma Qsum_app (a b : list Q) : (Qsum (a ++ b) == Qsum a + Qsum b)%Q.
Proof.
  induction a as [|x a IH]; cbn.
  - by rewrite Qplus_0_l.
  - rewrite IH. apply Qplus_assoc.
Qed.

Lemma getTopPlayers_db_length (db : Db) (game : string) (limit : Z) (l : list PlayerScore) :
  getTopPlayers (dbRepositories db) game limit = Ok l ->
  (length l <= Z.to_nat limit)%nat.
Proof.
  unfold getTopPlayers. cbn. unfold db_findTopNByGame.
  destruct (bool_decide (game = "all")); destruct (limit <? 0); intros [= <-];
    rewrite length_take; lia.
Qed.

(** X14: the figures of a dashboard hang together.  The losses are the games
    less the wins and are not negative; the net revenue is the total bet less
    the total payout; with at least one game, each average times the number
    of games gives back its total, and with none every amount is 0; the
    games of the last 24 hours are at most the games; at most ten top players
    are listed, and the rank of each is its position, from 1. *)
Theorem dashboard_figures_consistent (db : Db) (now : Time) (game : string) :
  exists s : DashboardStats,
    ScoringController_getDashboardStats db now game = Ok s /\
    ds_game s = game /\
    totalLosses s = totalGames s - totalWins s /\
    0 <= totalLosses s /\
    netRevenue s = (totalBetAmount s - totalPayout s)%Q /\
    (0 < totalGames s ->
       (averageBetAmount s * inject_Z (totalGames s) == totalBetAmount s)%Q /\
       (averagePayout s * inject_Z (totalGames s) == totalPayout s)%Q) /\
    (totalGames s = 0 ->
       totalBetAmount s = 0%Q /\ totalPayout s = 0%Q /\
       averageBetAmount s = 0%Q /\ averagePayout s = 0%Q) /\
    0 <= recentGames s <= totalGames s /\
    (length (topPlayers s) <= 10)%nat /\
    (forall (i : nat) (e : ScoreResponse),
       topPlayers s !! i = Some e -> resp_rank e = Some (Z.of_nat i + 1)).
Proof.
  destruct (getDashboardStats_db db now game) as (top & Htop & ->).
  eexists. split; [reflexivity|]. cbn.
  pose proof (wins_le_total db game) as Hwt.
  split; [done|]. split; [done|]. split; [lia|]. split; [done|].
  split; [|split; [|split; [|split]]].
  - intros Hpos.
    assert (Hnz : ~ (inject_Z (db_countTotalByGame db game) == 0)%Q).
    { change 0%Q with (inject_Z 0). rewrite inject_Z_injective. lia. }
    destruct (Z.gtb_spec (db_countTotalByGame db game) 0); [|lia].
    split; (rewrite Qmult_comm; by apply Qmult_div_r).
  - intros Hzero. rewrite Hzero. cbn.
    unfold db_sumBetAmountsByGame, db_sumPayoutsByGame, db_countTotalByGame in *.
    destruct (filter _ (game_results db)); [done|]. cbn in Hzero. lia.
  - unfold db_findByGameAndTimestampBetween, db_countTotalByGame.
    rewrite stableSort_perm. split; [lia|].
    apply Nat2Z.inj_le.
    etransitivity; [apply filter_andb_length|].
    apply (filter_andb_length (counted game)).
  - rewrite length_imap. by apply getTopPlayers_db_length in Htop.
  - intros i e Hi. rewrite list_lookup_imap in Hi.
    destruct (top !! i) as [row|]; cbn in Hi; [|done]. injection Hi as <-.
    unfold toScoreResponse.
    destruct (ps_metadata row) as [m|]; [|done].
    destruct (bool_decide (m = "")); [done | by destruct (readMetadata m)].
Qed.

(** X15: a game with no stored round of positive bet and no score row has
    the all-zero dashboard row, the very row [getAllGamesDashboardStats] puts
    in place of a game whose statistics raised. *)
Theorem dashboard_of_unplayed_game_is_zero_row (db : Db) (now : Time) (game : string) :
  game <> "all" ->
  (forall r, r ∈ game_results db -> ~ (gr_game r = game /\ (0 < gr_betAmount r)%Q)) ->
  (forall s, s ∈ player_scores db -> ps_game s <> game) ->
  ScoringController_getDashboardStats db now game
    = Ok (mkDashboardStats game 0 0 0 0%Q 0%Q 0%Q 0%Q 0%Q 0%Q 0 []) /\
  ScoringController_getDashboardStats db now game = Ok (emptyStats game).
Proof.
  intros Hgame Hrounds Hscores.
  assert (H1 : filter (fun g => counted game g = true) (game_results db) = []).
  { apply filter_none. intros r Hr Hc. apply counted_iff in Hc. by apply (Hrounds r). }
  assert (H2 : filter (fun g => (counted game g && gr_win g) = true) (game_results db) = []).
  { apply filter_none. intros r Hr Hc. apply andb_true_iff in Hc as [Hc _].
    apply counted_iff in Hc. by apply (Hrounds r). }
  assert (H3 : filter (fun g => (counted game g && (now - hours24 <=? gr_timestamp g)
                                 && (gr_timestamp g <=? now)) = true)
                      (game_results db) = []).
  { apply filter_none. intros r Hr Hc. apply andb_true_iff in Hc as [Hc _].
    apply andb_true_iff in Hc as [Hc _].
    apply counted_iff in Hc. by apply (Hrounds r). }
  assert (H4 : filter (fun s => ps_game s = game) (player_scores db) = []).
  { apply filter_none. intros s Hs. by apply Hscores. }
  assert (H : ScoringController_getDashboardStats db now game = Ok (emptyStats game)).
  { unfold ScoringController_getDashboardStats, getDashboardStats, getTopPlayers. cbn.
    rewrite bool_decide_eq_false_2 by done.
    unfold db_countTotalByGame, db_countWinsByGame, db_sumBetAmountsByGame,
      db_sumPayoutsByGame, db_findByGameAndTimestampBetween, db_findTopNByGame.
    rewrite H1, H2, H3, H4. reflexivity. }
  split; exact H.
Qed.

(** *** From a submission to the dashboard *)

Lemma recordGameResult_ok (db : Db) (now : Time) (u g a : string) (bet pay : Q)
    (w : bool) (r gd md : option string) :
  recordGameResult db now u g a (Some bet) (Some pay) w r gd md
    = (Ok (mkGameResult (next_result_id db) u g a bet pay w r gd md now),
       runCall db (mkCall now u g a (Some bet) (Some pay) w r gd md)).
Proof.
  unfold runCall. cbn [c_now c_username c_game c_action c_betAmount c_payout c_win
                       c_result c_gameData c_metadata].
  unfold recordGameResult. cbn [saveNewGameResult].
  destruct (head _) as [row|]; [|done].
  destruct (Qgtb pay (ps_score row)); done.
Qed.

(** X16: a submission with a positive bet, a payout and a win flag that
    passes validation is answered 201 with the stored round, which is the one
    new row of the table, stamped with the instant of the call.  In every
    dashboard computed afterwards the game of the round has one game more, one
    win more exactly when the round was won, and the bet and the payout added
    to its totals; the figures of every other game are what they were. *)
Theorem recorded_round_shows_in_dashboard
    (db : Db) (now later : Time) (request : GameResultRequest)
    (bet pay : Q) (win : bool) :
  requestValid request = true ->
  req_betAmount request = Some bet -> (0 < bet)%Q ->
  req_payout request = Some pay ->
  req_win request = Some win ->
  exists (row : GameResult) (db' : Db),
    ScoringController_recordGameResult db now request = (Created row, db') /\
    game_results db' = game_results db ++ [row] /\
    gr_id row = next_result_id db /\
    gr_username row = req_username request /\ gr_game row = req_game request /\
    gr_betAmount row = bet /\ gr_payout row = pay /\ gr_win row = win /\
    gr_timestamp row = now /\
    forall game : string,
      exists s s' : DashboardStats,
        ScoringController_getDashboardStats db later game = Ok s /\
        ScoringController_getDashboardStats db' later game = Ok s' /\
        (game = req_game request ->
           totalGames s' = totalGames s + 1 /\
           totalWins s' = totalWins s + (if win then 1 else 0) /\
           (totalBetAmount s' == totalBetAmount s + bet)%Q /\
           (totalPayout s' == totalPayout s + pay)%Q) /\
        (game <> req_game request ->
           totalGames s' = totalGames s /\ totalWins s' = totalWins s /\
           totalBetAmount s' = totalBetAmount s /\ totalPayout s' = totalPayout s).
Proof.
  intros Hvalid Hbet Hpos Hpay Hwin.
  assert (Hle : Qle_bool bet 0 = false).
  { destruct (Qle_bool bet 0) eqn:E; [|done].
    apply Qle_bool_iff in E. exfalso. by apply (Qlt_not_le _ _ Hpos). }
  unfold ScoringController_recordGameResult.
  rewrite Hvalid, Hbet, Hle, Hwin, Hpay. cbn [negb].
  rewrite recordGameResult_ok.
  set (call := mkCall now (req_username request) (req_game request) (req_action request)
                 (Some bet) (Some pay) win (req_result request)
                 (req_gameData request) (req_metadata request)).
  destruct (runCall_results db call bet pay eq_refl eq_refl) as [Hres _].
  eexists. eexists. split; [reflexivity|].
  split; [exact Hres|].
  do 7 (split; [reflexivity|]).
  intros game.
  destruct (getDashboardStats_db db later game) as (top & _ & ->).
  destruct (getDashboardStats_db (runCall db call) later game) as (top' & _ & ->).
  eexists. eexists. split; [reflexivity|]. split; [reflexivity|]. cbn.
  unfold db_countTotalByGame, db_countWinsByGame, db_sumBetAmountsByGame,
    db_sumPayoutsByGame. rewrite Hres, !filter_app, !fmap_app, !length_app.
  cbn [c_username c_game c_action c_win c_result c_gameData c_metadata c_now call].
  rewrite !filter_cons, !filter_nil.
  assert (Hgt : Qgtb bet 0 = true) by (by apply Qgtb_true).
  split.
  - intros ->. unfold counted. cbn. rewrite bool_decide_eq_true_2, Hgt by done. simpl.
    split; [lia|]. split.
    + destruct win; simpl; lia.
    + split; (rewrite Qsum_app; simpl; by rewrite Qplus_0_r).
  - intros Hne. unfold counted. cbn.
    rewrite bool_decide_eq_false_2 by done. simpl.
    rewrite !app_nil_r. repeat split; lia.
Qed.

(** *** recordScore and the best score of a user *)

(** X17: [recordScore] never updates a row: with a score it adds one row
    with a fresh id, the instant of the call and the data it was given, and
    leaves the rows and the rounds that were there untouched; with a null
    score it raises and stores nothing.  Two calls for the same player and
    game leave two rows for them. *)
Theorem recordScore_always_adds_a_row
    (db : Db) (now now2 : Time) (u role role2 g : string) (sc sc2 : Q)
    (meta meta2 : option string) :
  let row := mkPlayerScore (next_score_id db) u role g sc now meta in
  let db1 := snd (recordScore db now u role g (Some sc) meta) in
  let db2 := snd (recordScore db1 now2 u role2 g (Some sc2) meta2) in
  fst (recordScore db now u role g (Some sc) meta) = Ok row /\
  player_scores db1 = player_scores db ++ [row] /\
  game_results db1 = game_results db /\
  next_score_id db1 = next_score_id db + 1 /\
  recordScore db now u role g None meta = (Throw "NullPointerException", db) /\
  player_scores db2
    = player_scores db ++ [row; mkPlayerScore (next_score_id db + 1) u role2 g sc2 now2 meta2] /\
  ~ NoDup (scoreKey <$> player_scores db2) /\
  ~ scoresConsistent db2.
Proof.
  intros row db1 db2.
  assert (Hrows : player_scores db2
    = player_scores db ++
      [row; mkPlayerScore (next_score_id db + 1) u role2 g sc2 now2 meta2]).
  { subst db2 db1 row. cbn. by rewrite <- app_assoc. }
  assert (Hdup : ~ NoDup (scoreKey <$> player_scores db2)).
  { rewrite Hrows, fmap_app. intros Hnd.
    apply NoDup_app in Hnd as (_ & _ & Hnd).
    rewrite !fmap_cons in Hnd.
    apply NoDup_cons in Hnd as [Hnotin _]. apply Hnotin. by left. }
  split; [done|]. split; [done|]. split; [done|]. split; [done|].
  split; [done|]. split; [exact Hrows|]. split; [exact Hdup|].
  intros (Hnd & _). by apply Hdup.
Qed.

Lemma stableSort_head_first {A} (le : A -> A -> bool) (l : list A) (x : A) :
  (forall a b, le a b = true \/ le b a = true) ->
  (forall a b c, le a b = true -> le b c = true -> le a c = true) ->
  head (stableSort le l) = Some x ->
  x ∈ l /\ forall y, y ∈ l -> le x y = true.
Proof.
  intros Htotal Htrans Hhead.
  pose proof (stableSort_sorted le Htotal Htrans l) as Hsorted.
  pose proof (stableSort_perm le l) as Hperm.
  destruct (stableSort le l) as [|z rest]; [done|]. injection Hhead as ->.
  split; [rewrite <- Hperm; by left|].
  intros y Hy. rewrite <- Hperm in Hy.
  apply elem_of_cons in Hy as [->|Hy].
  - by destruct (Htotal x x).
  - inversion Hsorted as [|? ? _ Hall]; subst.
    rewrite Forall_forall in Hall. by apply Hall.
Qed.

(** X18: [getBestScoreForUser] finds no row exactly when the player has no
    score row for the game; otherwise it returns one of the player's rows for
    the game, and none of them has a higher score.  Right after a
    [recordScore] for the player and game it returns a row with at least the
    score just recorded. *)
Theorem getBestScoreForUser_highest (db : Db) (u g : string) :
  (getBestScoreForUser db u g = None <->
     forall s, s ∈ player_scores db -> ~ (ps_username s = u /\ ps_game s = g)) /\
  (forall best : PlayerScore,
     getBestScoreForUser db u g = Some best ->
     best ∈ player_scores db /\ ps_username best = u /\ ps_game best = g /\
     forall s, s ∈ player_scores db -> ps_username s = u -> ps_game s = g ->
               (ps_score s <= ps_score best)%Q) /\
  (forall (now : Time) (role : string) (sc : Q) (meta : option string),
     exists best : PlayerScore,
       getBestScoreForUser (snd (recordScore db now u role g (Some sc) meta)) u g
         = Some best /\
       (sc <= ps_score best)%Q).
Proof.
  assert (Hsome : forall db0 best,
    getBestScoreForUser db0 u g = Some best ->
    best ∈ player_scores db0 /\ ps_username best = u /\ ps_game best = g /\
    forall s, s ∈ player_scores db0 -> ps_username s = u -> ps_game s = g ->
              (ps_score s <= ps_score best)%Q).
  { intros db0 best Hbest.
    apply (stableSort_head_first scoreDesc) in Hbest
      as [Hin Hmax]; [|apply scoreDesc_total|apply scoreDesc_trans].
    apply list_elem_of_filter in Hin as [[Hu Hg] Hin].
    split; [done|]. split; [done|]. split; [done|].
    intros s Hs Hsu Hsg. apply Qle_bool_iff. apply (Hmax s).
    by apply list_elem_of_filter. }
  assert (Hnone : forall db0,
    getBestScoreForUser db0 u g = None ->
    forall s, s ∈ player_scores db0 -> ~ (ps_username s = u /\ ps_game s = g)).
  { intros db0 H s Hs Hk.
    unfold getBestScoreForUser, db_findFirstByUsernameAndGameOrderByScoreDesc in H.
    apply head_None in H.
    assert (Hin : s ∈ stableSort scoreDesc
                       (filter (fun s => ps_username s = u /\ ps_game s = g)
                               (player_scores db0))).
    { rewrite stableSort_perm. by apply list_elem_of_filter. }
    rewrite H in Hin. by apply not_elem_of_nil in Hin. }
  split; [|split].
  - split; [apply Hnone|]. intros Hno.
    destruct (getBestScoreForUser db u g) as [best|] eqn:E; [|done].
    destruct (Hsome db best E) as (Hin & Hu & Hg & _). exfalso. by apply (Hno best).
  - apply Hsome.
  - intros now role sc meta.
    destruct (getBestScoreForUser (snd (recordScore db now u role g (Some sc) meta)) u g)
      as [best|] eqn:E.
    + exists best. split; [done|].
      destruct (Hsome _ best E) as (_ & _ & _ & Hmax).
      apply (Hmax (mkPlayerScore (next_score_id db) u role g sc now meta)); [|done|done].
      cbn. apply elem_of_app. right. by left.
    + exfalso.
      apply (Hnone _ E (mkPlayerScore (next_score_id db) u role g sc now meta)); [|done].
      cbn. apply elem_of_app. right. by left.
Qed.

Lemma stableSort_head_last {A} (le : A -> A -> bool) (l : list A) (x : A) :
  (forall y, y ∈ l -> le y x = false) ->
  head (stableSort le (l ++ [x])) = Some x.
Proof.
  induction l as [|a l IH]; intros Hl; [done|].
  cbn [app stableSort foldr]. fold (stableSort le (l ++ [x])).
  specialize (IH (fun y Hy => Hl y (list_elem_of_further _ _ _ Hy))).
  destruct (stableSort le (l ++ [x])) as [|z rest]; [done|]. injection IH as ->.
  cbn. by rewrite (Hl a (list_elem_of_here _ _)).
Qed.

(** X19: the score row [recordGameResult] reads for a player and game is the
    most recent one, whoever wrote it.  After a [recordScore] at an instant
    later than the player's rows for the game, that row is the new one, so
    the best payout read back is the score just recorded, whatever best
    payout was stored before. *)
Theorem recordScore_row_becomes_the_stored_score
    (db : Db) (now : Time) (u role g : string) (sc : Q) (meta : option string) :
  (forall s, s ∈ player_scores db -> ps_username s = u -> ps_game s = g ->
             ps_timestamp s < now) ->
  storedScore (snd (recordScore db now u role g (Some sc) meta)) u g
    = Some (mkPlayerScore (next_score_id db) u role g sc now meta) /\
  bestPayout (snd (recordScore db now u role g (Some sc) meta)) u g = Some sc.
Proof.
  intros Hnewer.
  assert (H : storedScore (snd (recordScore db now u role g (Some sc) meta)) u g
              = Some (mkPlayerScore (next_score_id db) u role g sc now meta)).
  { unfold storedScore, db_findByUsernameAndGameOrderByTimestampDesc. cbn.
    rewrite filter_app, filter_cons_True, filter_nil by done.
    apply stableSort_head_last. intros y Hy.
    apply list_elem_of_filter in Hy as [[Hu Hg] Hin].
    specialize (Hnewer y Hin Hu Hg). unfold timestampDesc. cbn.
    apply Z.leb_gt. done. }
  split; [exact H|]. unfold bestPayout. by rewrite H.
Qed.

(** *** Recent rounds, time ranges and the leaderboard *)

Lemma resultTimestampDesc_total (a b : GameResult) :
  resultTimestampDesc a b = true \/ resultTimestampDesc b a = true.
Proof. unfold resultTimestampDesc. rewrite !Z.leb_le. lia. Qed.

Lemma resultTimestampDesc_trans (a b c : GameResult) :
  resultTimestampDesc a b = true -> resultTimestampDesc b c = true ->
  resultTimestampDesc a c = true.
Proof. unfold resultTimestampDesc. rewrite !Z.leb_le. lia. Qed.

Lemma sorted_by_timestamp_desc (rows : list GameResult) :
  stableSort resultTimestampDesc rows ≡ₚ rows /\
  StronglySorted (fun a b => gr_timestamp b <= gr_timestamp a)
                 (stableSort resultTimestampDesc rows).
Proof.
  split; [apply stableSort_perm|].
  pose proof (stableSort_sorted resultTimestampDesc resultTimestampDesc_total
                resultTimestampDesc_trans rows) as H.
  eapply StronglySorted_weaken; [|exact H].
  intros a b Hab. by apply Z.leb_le.
Qed.

(** X20: for a limit that is not negative, [getRecentGameResults] returns
    the first [limit] rows of the game's rounds of positive bet arranged
    newest first: no more than [limit] rows, and no round left out is newer
    than a round returned.  A negative limit raises. *)
Theorem getRecentGameResults_newest_first (db : Db) (game : string) (limit : Z) :
  (limit < 0 -> exists e : string, getRecentGameResults db game limit = Throw e) /\
  (0 <= limit ->
   exists full : list GameResult,
     getRecentGameResults db game limit = Ok (take (Z.to_nat limit) full) /\
     full ≡ₚ filter (fun g => gr_game g = game /\ (0 < gr_betAmount g)%Q)
                    (game_results db) /\
     StronglySorted (fun a b => gr_timestamp b <= gr_timestamp a) full /\
     (length (take (Z.to_nat limit) full) <= Z.to_nat limit)%nat /\
     (forall a b : GameResult,
        a ∈ take (Z.to_nat limit) full -> b ∈ drop (Z.to_nat limit) full ->
        gr_timestamp b <= gr_timestamp a)).
Proof.
  unfold getRecentGameResults, db_findRecentByGame. split.
  - intros Hneg. destruct (Z.ltb_spec limit 0); [eauto | lia].
  - intros Hpos. destruct (Z.ltb_spec limit 0); [lia|].
    destruct (sorted_by_timestamp_desc
                (filter (fun g => counted game g = true) (game_results db)))
      as [Hperm Hsorted].
    eexists. split; [reflexivity|]. split.
    { rewrite Hperm. erewrite list_filter_iff; [done|]. apply counted_iff. }
    split; [exact Hsorted|]. split; [rewrite length_take; lia|].
    intros a b Ha Hb.
    rewrite <- (take_drop (Z.to_nat limit)) in Hsorted.
    by apply (StronglySorted_app_1_elem_of _ _ _ a b Hsorted).
Qed.

(** X21: [getGameResultsByTimeRange] returns exactly the stored rounds of
    positive bet, of any game, whose instant lies between the two bounds,
    both included, newest first; when the end is before the start it returns
    none. *)
Theorem getGameResultsByTimeRange_window (db : Db) (start stop : Time) :
  getGameResultsByTimeRange db start stop
    ≡ₚ filter (fun g => (0 < gr_betAmount g)%Q /\ start <= gr_timestamp g <= stop)
              (game_results db) /\
  (forall r : GameResult,
     r ∈ getGameResultsByTimeRange db start stop <->
     r ∈ game_results db /\ (0 < gr_betAmount r)%Q /\ start <= gr_timestamp r <= stop) /\
  StronglySorted (fun a b => gr_timestamp b <= gr_timestamp a)
                 (getGameResultsByTimeRange db start stop) /\
  (stop < start -> getGameResultsByTimeRange db start stop = []).
Proof.
  unfold getGameResultsByTimeRange, db_findByTimestampBetween.
  assert (Hiff : forall g : GameResult,
    (Qgtb (gr_betAmount g) 0 && (start <=? gr_timestamp g) && (gr_timestamp g <=? stop)) = true
    <-> (0 < gr_betAmount g)%Q /\ start <= gr_timestamp g <= stop).
  { intros g. rewrite !andb_true_iff, Qgtb_true, !Z.leb_le. tauto. }
  destruct (sorted_by_timestamp_desc
              (filter (fun g => (Qgtb (gr_betAmount g) 0 && (start <=? gr_timestamp g)
                                 && (gr_timestamp g <=? stop)) = true) (game_results db)))
    as [Hperm Hsorted].
  assert (Hfilter : filter (fun g => (Qgtb (gr_betAmount g) 0 && (start <=? gr_timestamp g)
                                      && (gr_timestamp g <=? stop)) = true) (game_results db)
                    = filter (fun g => (0 < gr_betAmount g)%Q
                                       /\ start <= gr_timestamp g <= stop) (game_results db))
    by (apply list_filter_iff; exact Hiff).
  split; [by rewrite Hperm, Hfilter|].
  split.
  { intros r. rewrite Hperm, Hfilter, list_elem_of_filter. tauto. }
  split; [exact Hsorted|].
  intros Hempty. rewrite Hfilter, filter_none; [done|].
  intros r _ [_ Hr]. lia.
Qed.

Lemma getTopPlayers_db_sorted (db : Db) (game : string) (limit : Z) (l : list PlayerScore) :
  getTopPlayers (dbRepositories db) game limit = Ok l ->
  StronglySorted (fun a b => (ps_score b <= ps_score a)%Q) l.
Proof.
  unfold getTopPlayers. cbn. unfold db_findTopNByGame.
  destruct (bool_decide (game = "all")); destruct (limit <? 0); intros [= <-];
    apply take_sorted, sorted_by_score_desc.
Qed.

Lemma imap_sorted {A B} (R1 : A -> A -> Prop) (R2 : B -> B -> Prop) (l : list A) :
  forall f : nat -> A -> B,
    (forall i j a b, R1 a b -> R2 (f i a) (f j b)) ->
    StronglySorted R1 l -> StronglySorted R2 (imap f l).
Proof.
  induction l as [|x l IH]; intros f Hf Hsorted; [constructor|].
  inversion Hsorted as [|? ? Hl Hx]; subst. cbn. constructor.
  - apply IH; [|done]. intros i j a b. apply Hf.
  - rewrite Forall_forall in Hx. apply Forall_forall. intros y Hy.
    apply elem_of_lookup_imap in Hy as (i & a & -> & Ha).
    apply Hf, Hx. by eapply list_elem_of_lookup_2.
Qed.

(** X22: for a limit that is not negative the leaderboard endpoint lists at
    most [limit] entries (none for a limit of 0), each with its position from
    1 as rank and without initial bet or winnings, in descending order of
    score; a negative limit raises. *)
Theorem getLeaderboard_ranks_by_position (db : Db) (game : string) (limit : Z) :
  (limit < 0 ->
   exists e : string,
     ScoringController_getLeaderboard (dbRepositories db) game limit = Throw e) /\
  (0 <= limit ->
   exists (top : list PlayerScore) (entries : list ScoreResponse),
     getTopPlayers (dbRepositories db) game limit = Ok top /\
     ScoringController_getLeaderboard (dbRepositories db) game limit = Ok entries /\
     length entries = length top /\
     (length entries <= Z.to_nat limit)%nat /\
     (forall (i : nat) (e : ScoreResponse),
        entries !! i = Some e ->
        exists row : PlayerScore,
          top !! i = Some row /\
          resp_rank e = Some (Z.of_nat i + 1) /\
          resp_username e = ps_username row /\ resp_game e = ps_game row /\
          resp_score e = ps_score row /\
          resp_initialBet e = None /\ resp_winnings e = None) /\
     StronglySorted (fun a b => (resp_score b <= resp_score a)%Q) entries /\
     (limit = 0 -> entries = [])).
Proof.
  split.
  - intros Hneg. unfold ScoringController_getLeaderboard, getTopPlayers. cbn.
    unfold db_findTopNByGame.
    destruct (Z.ltb_spec limit 0); [|lia].
    destruct (bool_decide (game = "all")); cbn; eauto.
  - intros Hpos.
    destruct (getTopPlayers_db_ok db game limit Hpos) as [top Htop].
    unfold ScoringController_getLeaderboard. rewrite Htop. cbn.
    exists top. eexists. split; [done|]. split; [reflexivity|].
    split; [apply length_imap|].
    split; [rewrite length_imap; by apply getTopPlayers_db_length in Htop|].
    split; [|split].
    + intros i e Hi. rewrite list_lookup_imap in Hi.
      destruct (top !! i) as [row|]; cbn in Hi; [|done]. injection Hi as <-.
      exists row. done.
    + apply (imap_sorted (fun a b => (ps_score b <= ps_score a)%Q)).
      * intros i j a b Hab. done.
      * by apply getTopPlayers_db_sorted in Htop.
    + intros ->. apply getTopPlayers_db_length in Htop.
      destruct top; [done|]. cbn in Htop. lia.
Qed.
End Facts.

(** *** The properties at the sample data *)

Lemma invalid_bet_rejected_before_any_effect_witness :
  (req_betAmount zeroBet = None \/
   exists b : Q, req_betAmount zeroBet = Some b /\ (b <= 0)%Q) /\
  ScoringController_recordGameResult (P := samplePlatform) oneRound 300 zeroBet
    = (BadRequest, oneRound).
Proof.
  assert (H1 : req_betAmount zeroBet = None \/
               exists b : Q, req_betAmount zeroBet = Some b /\ (b <= 0)%Q).
  { right. exists 0%Q. split; [reflexivity | apply Qle_refl]. }
  split; [exact H1|].
  exact (proj1 (invalid_bet_rejected_before_any_effect
                  (P := samplePlatform) oneRound 300 zeroBet H1)).
Defined.

Lemma winRate_formula_and_range_witness :
  exists stats : DashboardStats,
    ScoringController_getDashboardStats (P := samplePlatform) oneRound 300 "slots"
      = Ok stats /\
    (0 <= winRate stats <= 100)%Q.
Proof.
  destruct (winRate_formula_and_range (P := samplePlatform) oneRound 300 "slots")
    as (stats & Hstats & _ & _ & _ & _ & _ & Hrange).
  exists stats. split; [exact Hstats | exact Hrange].
Defined.

(** One round of slots, won: one game, one win, a win rate of 100; no round of
    dice: a win rate of 0. *)
Example winRate_one_round :
  (fun s => (totalGames s, totalWins s, winRate s)) <$>
    match ScoringController_getDashboardStats (P := samplePlatform) oneRound 300 "slots" with
    | Ok s => Some s
    | Throw _ => None
    end = Some (1, 1, 100%Q).
Proof. reflexivity. Qed.

Example winRate_no_round :
  (fun s => (totalGames s, totalWins s, winRate s)) <$>
    match ScoringController_getDashboardStats (P := samplePlatform) oneRound 300 "dice" with
    | Ok s => Some s
    | Throw _ => None
    end = Some (0, 0, 0%Q).
Proof. reflexivity. Qed.

Lemma all_games_stats_zero_row_on_failure_witness :
  ["slots"; "roulette"; "dice"; "blackjack"] !! 2%nat = Some "dice" /\
  getDashboardStats (P := samplePlatform) diceDown 300 "dice" = Throw "connection refused" /\
  getAllGamesDashboardStats (P := samplePlatform) diceDown 300 !! 2%nat
    = Some (mkDashboardStats "dice" 0 0 0 0%Q 0%Q 0%Q 0%Q 0%Q 0%Q 0 []).
Proof.
  assert (H1 : ["slots"; "roulette"; "dice"; "blackjack"] !! 2%nat = Some "dice")
    by reflexivity.
  assert (H2 : getDashboardStats (P := samplePlatform) diceDown 300 "dice"
               = Throw "connection refused") by reflexivity.
  split; [exact H1|]. split; [exact H2|].
  exact (proj1 (proj2 (all_games_stats_zero_row_on_failure
                         (P := samplePlatform) diceDown 300)) 2%nat "dice" _ H1 H2).
Defined.

(** With the dice queries down, the other three games still report: the
    slots row counts its one round. *)
Example all_games_with_dice_down :
  (fun s => (ds_game s, totalGames s)) <$>
    getAllGamesDashboardStats (P := samplePlatform) diceDown 300
    = [("slots", 1); ("roulette", 0); ("dice", 0); ("blackjack", 0)].
Proof. reflexivity. Qed.

Lemma leaderboard_sorted_by_score_only_witness :
  0 <= 1 /\ "slots" <> "all" /\
  exists full : list PlayerScore,
    getTopPlayers (P := samplePlatform) (dbRepositories tiedScores) "slots" 1
      = Ok (take 1 full) /\
    StronglySorted (fun a b => (ps_score b <= ps_score a)%Q) full.
Proof.
  assert (H1 : 0 <= 1) by lia.
  assert (H2 : "slots" <> "all") by discriminate.
  split; [exact H1|]. split; [exact H2|].
  destruct (proj1 (leaderboard_sorted_by_score_only
                     (P := samplePlatform) tiedScores "slots" 1 H1) H2)
    as (full & Htop & _ & Hsorted & _).
  exists full. split; [exact Htop | exact Hsorted].
Defined.

(** C9, as stated, fails: Bob's and Carol's rows have the same best payout
    and Carol's is the more recent one, yet the leaderboard of the game lists
    Bob first; with the two rows stored the other way round it lists Carol
    first.  The order of equal scores follows the table, not the timestamp. *)
Lemma leaderboard_tie_not_by_recency :
  (ps_score bobRow == ps_score carolRow)%Q /\
  ps_timestamp bobRow < ps_timestamp carolRow /\
  getTopPlayers (P := samplePlatform) (dbRepositories tiedScores) "slots" 10
    = Ok [bobRow; carolRow] /\
  getTopPlayers (P := samplePlatform)
    (dbRepositories (mkDb [] [carolRow; bobRow] 1 3)) "slots" 10
    = Ok [carolRow; bobRow].
Proof. repeat split; reflexivity. Qed.

Lemma bestPayout_never_decreases_witness :
  storedScore (runCalls (P := samplePlatform) emptyDb [round50]) "alice" "slots"
    = Some (mkPlayerScore 1 "alice" "player" "slots" 50%Q 100 (Some "{}")) /\
  storedScore (runCall (P := samplePlatform)
                 (runCalls (P := samplePlatform) emptyDb [round50]) round30)
              "alice" "slots"
    = Some (mkPlayerScore 1 "alice" "player" "slots" 50%Q 200 (Some "{}")) /\
  bestPayout (runCall (P := samplePlatform)
                (runCalls (P := samplePlatform) emptyDb [round50]) round30)
             "alice" "slots"
    = Some 50%Q.
Proof.
  assert (H1 : storedScore (runCalls (P := samplePlatform) emptyDb [round50])
                 "alice" "slots"
               = Some (mkPlayerScore 1 "alice" "player" "slots" 50%Q 100 (Some "{}")))
    by reflexivity.
  assert (H2 : (30 <= 50)%Q) by (apply Qle_bool_iff; reflexivity).
  split; [exact H1|].
  exact (proj1 (proj1 (proj2 (bestPayout_never_decreases (P := samplePlatform)
           [round50] round30 [] "alice" "slots" _ H1))
         10%Q 30%Q eq_refl eq_refl eq_refl eq_refl) H2).
Defined.

(** The scenario of the specification, run: after payouts of 50 and then 30
    the best payout is 50 and the row carries the instant of the second
    round; both rounds are stored. *)
Example payouts_50_then_30 :
  let db := runCalls (P := samplePlatform) emptyDb [round50; round30] in
  player_scores db = [mkPlayerScore 1 "alice" "player" "slots" 50%Q 200 (Some "{}")] /\
  gr_payout <$> game_results db = [50%Q; 30%Q].
Proof. split; reflexivity. Qed.


(** *** More properties at the sample data *)

Lemma recordGameResult_appends_rounds_witness :
  exists added : list GameResult,
    game_results (runCalls (P := samplePlatform) oneRound [round30]) = game_results oneRound ++ added /\
    (forall (i : nat) (r : GameResult),
       added !! i = Some r -> gr_id r = next_result_id oneRound + Z.of_nat i).
Proof.
  destruct (recordGameResult_appends_rounds (P := samplePlatform) oneRound [round30])
    as (added & Hres & _ & Hids & _).
  exists added. split; [exact Hres | exact Hids].
Defined.

Lemma bestPayout_is_highest_recorded_payout_witness :
  bestPayout (runCalls (P := samplePlatform) emptyDb [round50; round30]) "alice" "slots"
    = Some 50%Q /\
  exists r : GameResult,
    r ∈ game_results (runCalls (P := samplePlatform) emptyDb [round50; round30]) /\
    gr_payout r = 50%Q.
Proof.
  assert (H : bestPayout (runCalls (P := samplePlatform) emptyDb [round50; round30])
                "alice" "slots" = Some 50%Q) by reflexivity.
  split; [exact H|].
  destruct (proj1 (proj2 (bestPayout_is_highest_recorded_payout (P := samplePlatform)
                            [round50; round30] "alice" "slots") 50%Q H))
    as (r & Hr & _ & _ & Hp).
  exists r. split; [exact Hr | exact Hp].
Defined.

Lemma dashboard_figures_consistent_witness :
  exists s : DashboardStats,
    ScoringController_getDashboardStats (P := samplePlatform) oneRound 300 "slots" = Ok s /\
    0 <= recentGames s <= totalGames s.
Proof.
  destruct (dashboard_figures_consistent (P := samplePlatform) oneRound 300 "slots")
    as (s & Hs & _ & _ & _ & _ & _ & _ & Hrecent & _).
  exists s. split; [exact Hs | exact Hrecent].
Defined.

Lemma dashboard_of_unplayed_game_is_zero_row_witness :
  "dice" <> "all" /\
  (forall r, r ∈ game_results oneRound -> ~ (gr_game r = "dice" /\ (0 < gr_betAmount r)%Q)) /\
  (forall s, s ∈ player_scores oneRound -> ps_game s <> "dice") /\
  ScoringController_getDashboardStats (P := samplePlatform) oneRound 300 "dice"
    = Ok (mkDashboardStats "dice" 0 0 0 0%Q 0%Q 0%Q 0%Q 0%Q 0%Q 0 []).
Proof.
  assert (H1 : "dice" <> "all") by discriminate.
  assert (H2 : forall r, r ∈ game_results oneRound ->
                         ~ (gr_game r = "dice" /\ (0 < gr_betAmount r)%Q)).
  { intros r Hr [Hg _].
    change (game_results oneRound)
      with [mkGameResult 1 "alice" "slots" "spin" 10%Q 50%Q true None None None 100] in Hr.
    apply list_elem_of_singleton in Hr. subst r. discriminate Hg. }
  assert (H3 : forall s, s ∈ player_scores oneRound -> ps_game s <> "dice").
  { intros s Hs Hg.
    change (player_scores oneRound)
      with [mkPlayerScore 1 "alice" "player" "slots" 50%Q 100 (Some "{}")] in Hs.
    apply list_elem_of_singleton in Hs. subst s. discriminate Hg. }
  split; [exact H1|]. split; [exact H2|]. split; [exact H3|].
  exact (proj1 (dashboard_of_unplayed_game_is_zero_row (P := samplePlatform)
                  oneRound 300 "dice" H1 H2 H3)).
Defined.

Lemma recorded_round_shows_in_dashboard_witness :
  let request := mkGameResultRequest "alice" "slots" "spin" (Some 10%Q) (Some 30%Q)
                   (Some true) None None None in
  requestValid (Platform := samplePlatform) request = true /\
  req_betAmount request = Some 10%Q /\ (0 < 10)%Q /\
  req_payout request = Some 30%Q /\ req_win request = Some true /\
  exists (row : GameResult) (db' : Db),
    ScoringController_recordGameResult (P := samplePlatform) oneRound 200 request
      = (Created row, db') /\
    game_results db' = game_results oneRound ++ [row].
Proof.
  intros request.
  assert (H1 : requestValid (Platform := samplePlatform) request = true) by reflexivity.
  assert (H2 : req_betAmount request = Some 10%Q) by reflexivity.
  assert (H3 : (0 < 10)%Q) by reflexivity.
  assert (H4 : req_payout request = Some 30%Q) by reflexivity.
  assert (H5 : req_win request = Some true) by reflexivity.
  split; [exact H1|]. split; [exact H2|]. split; [exact H3|].
  split; [exact H4|]. split; [exact H5|].
  destruct (recorded_round_shows_in_dashboard (P := samplePlatform) oneRound 200 300
              request 10%Q 30%Q true H1 H2 H3 H4 H5)
    as (row & db' & Hrec & Hres & _).
  exists row, db'. split; [exact Hrec | exact Hres].
Defined.

Lemma getBestScoreForUser_highest_witness :
  getBestScoreForUser oneRoundThenScore "alice" "slots"
    = Some (mkPlayerScore 1 "alice" "player" "slots" 50%Q 100 (Some "{}")) /\
  forall s, s ∈ player_scores oneRoundThenScore ->
            ps_username s = "alice" -> ps_game s = "slots" -> (ps_score s <= 50)%Q.
Proof.
  assert (H : getBestScoreForUser oneRoundThenScore "alice" "slots"
              = Some (mkPlayerScore 1 "alice" "player" "slots" 50%Q 100 (Some "{}")))
    by reflexivity.
  split; [exact H|].
  exact (proj2 (proj2 (proj2
    (proj1 (proj2 (getBestScoreForUser_highest oneRoundThenScore "alice" "slots")) _ H)))).
Defined.

Lemma recordScore_row_becomes_the_stored_score_witness :
  (forall s, s ∈ player_scores oneRound -> ps_username s = "alice" -> ps_game s = "slots" ->
             ps_timestamp s < 150) /\
  bestPayout oneRound "alice" "slots" = Some 50%Q /\
  bestPayout oneRoundThenScore "alice" "slots" = Some 7%Q.
Proof.
  assert (H : forall s, s ∈ player_scores oneRound -> ps_username s = "alice" ->
                        ps_game s = "slots" -> ps_timestamp s < 150).
  { intros s Hs _ _.
    change (player_scores oneRound)
      with [mkPlayerScore 1 "alice" "player" "slots" 50%Q 100 (Some "{}")] in Hs.
    apply list_elem_of_singleton in Hs. subst s. reflexivity. }
  split; [exact H|]. split; [reflexivity|].
  exact (proj2 (recordScore_row_becomes_the_stored_score oneRound 150 "alice" "player"
                  "slots" 7%Q None H)).
Defined.

(** After the score of 7 recorded for Alice, her next round, with a payout of
    30, is compared with that 7: the row that takes the 30 is the one
    [recordScore] wrote, and the row holding her best payout of 50 is no
    longer the one read. *)
Example round_after_recordScore :
  let db := runCall (P := samplePlatform) oneRoundThenScore round30 in
  player_scores db
    = [mkPlayerScore 1 "alice" "player" "slots" 50%Q 100 (Some "{}");
       mkPlayerScore 2 "alice" "player" "slots" 30%Q 200 (Some "{}")] /\
  bestPayout db "alice" "slots" = Some 30%Q.
Proof. split; reflexivity. Qed.

Lemma getRecentGameResults_newest_first_witness :
  0 <= 1 /\
  exists full : list GameResult,
    getRecentGameResults (runCalls (P := samplePlatform) emptyDb [round50; round30]) "slots" 1
      = Ok (take 1 full) /\
    StronglySorted (fun a b => gr_timestamp b <= gr_timestamp a) full.
Proof.
  assert (H : 0 <= 1) by lia.
  split; [exact H|].
  destruct (proj2 (getRecentGameResults_newest_first
                     (runCalls (P := samplePlatform) emptyDb [round50; round30]) "slots" 1) H)
    as (full & Hres & _ & Hsorted & _).
  exists full. split; [exact Hres | exact Hsorted].
Defined.

(** The newest of Alice's two rounds is the one of payout 30. *)
Example recent_round_of_two :
  match getRecentGameResults (runCalls (P := samplePlatform) emptyDb [round50; round30])
          "slots" 1 with
  | Ok l => map gr_payout l
  | Throw _ => []
  end = [30%Q].
Proof. reflexivity. Qed.

Lemma getGameResultsByTimeRange_window_witness :
  150 < 160 /\
  getGameResultsByTimeRange (runCalls (P := samplePlatform) emptyDb [round50; round30]) 160 150
    = [].
Proof.
  assert (H : 150 < 160) by lia.
  split; [exact H|].
  exact (proj2 (proj2 (proj2 (getGameResultsByTimeRange_window
           (runCalls (P := samplePlatform) emptyDb [round50; round30]) 160 150))) H).
Defined.

Lemma getLeaderboard_ranks_by_position_witness :
  0 <= 2 /\
  exists entries : list ScoreResponse,
    ScoringController_getLeaderboard (P := samplePlatform) (dbRepositories tiedScores) "slots" 2
      = Ok entries /\
    StronglySorted (fun a b => (resp_score b <= resp_score a)%Q) entries.
Proof.
  assert (H : 0 <= 2) by lia.
  split; [exact H|].
  destruct (proj2 (getLeaderboard_ranks_by_position (P := samplePlatform)
                     tiedScores "slots" 2) H)
    as (top & entries & _ & Hl & _ & _ & _ & Hsorted & _).
  exists entries. split; [exact Hl | exact Hsorted].
Defined.
End ScoringFacts.

(** ** Whack-a-mole *)

Module WhackAMoleFacts.
Import WhackAMole.

Lemma wellFormed_initial now : wellFormed (initializeGame now).
Proof. unfold wellFormed, initializeGame; simpl. repeat split; try lia; reflexivity. Qed.

Lemma hits_next_div (h : Z) :
  0 <= h ->
  (h + 1) / 5 = if Z.rem (h + 1) 5 =? 0 then h / 5 + 1 else h / 5.
Proof.
  intros Hh. rewrite Z.rem_mod_nonneg by lia.
  destruct (Z.eqb_spec ((h + 1) mod 5) 0) as [He|He].
  - pose proof (Z.div_mod (h + 1) 5 ltac:(lia)) as H1.
    pose proof (Z.div_mod h 5 ltac:(lia)) as H2.
    pose proof (Z.mod_pos_bound h 5 ltac:(lia)). lia.
  - pose proof (Z.div_mod (h + 1) 5 ltac:(lia)) as H1.
    pose proof (Z.div_mod h 5 ltac:(lia)) as H2.
    pose proof (Z.mod_pos_bound h 5 ltac:(lia)).
    pose proof (Z.mod_pos_bound (h + 1) 5 ltac:(lia)). lia.
Qed.

Lemma wellFormed_hit g :
  wellFormed g ->
  wellFormed (mkGame (calculateScore (hits g + 1) (misses g) (combo g + 1))
                     (if (Z.rem (hits g + 1) 5 =? 0) && (moles g <? MAX_MOLES)
                      then moles g + 1 else moles g)
                     (timeRemaining g) (hits g + 1) (misses g) (startTime g)
                     (combo g + 1) (Z.max (maxCombo g) (combo g + 1))).
Proof.
  intros (Hm & Hc & Hmax & Hmoles & Hs & Ht).
  unfold wellFormed; simpl.
  repeat split; try lia.
  rewrite hits_next_div by lia.
  unfold MAX_MOLES, INITIAL_MOLE_COUNT in *.
  destruct (Z.rem (hits g + 1) 5 =? 0); simpl;
    [destruct (Z.ltb_spec (moles g) 8)|]; lia.
Qed.

Lemma wellFormed_miss g :
  wellFormed g ->
  wellFormed (mkGame (calculateScore (hits g) (misses g + 1) 0) (moles g)
                     (timeRemaining g) (hits g) (misses g + 1) (startTime g)
                     0 (maxCombo g)).
Proof.
  intros (Hm & Hc & Hmax & Hmoles & Hs & Ht).
  unfold wellFormed; simpl. repeat split; lia.
Qed.

Lemma serve_wellFormed games r :
  map_Forall (fun _ g => wellFormed g) games ->
  map_Forall (fun _ g => wellFormed g) (serve games r).2.
Proof.
  intros Hall. destruct r as [p now idNow|p now|p now|p]; simpl.
  - apply map_Forall_insert_2; [apply wellFormed_initial | exact Hall].
  - unfold post_hit. destruct (games !! usernameOf p) as [g|] eqn:Hg; [|exact Hall].
    destruct (GAME_DURATION <? now - startTime g); [exact Hall|]. simpl.
    apply map_Forall_insert_2; [|exact Hall].
    apply wellFormed_hit. exact (Hall _ _ Hg).
  - unfold post_miss. destruct (games !! usernameOf p) as [g|] eqn:Hg; [|exact Hall].
    destruct (GAME_DURATION <? now - startTime g); [exact Hall|]. simpl.
    apply map_Forall_insert_2; [|exact Hall].
    apply wellFormed_miss. exact (Hall _ _ Hg).
  - unfold post_end. destruct (games !! usernameOf p) as [g|] eqn:Hg; [|exact Hall].
    simpl. by apply map_Forall_delete.
Qed.

Lemma serveAll_wellFormed rs : forall games,
  map_Forall (fun _ g => wellFormed g) games ->
  map_Forall (fun _ g => wellFormed g) (serveAll games rs).
Proof.
  induction rs as [|r rs IH]; intros games Hall; [exact Hall|].
  apply IH, serve_wellFormed, Hall.
Qed.

(** X23.  Every game in the map, after any sequence of start, hit, miss and
    end requests served from the empty map: misses and the combo are not
    negative, the combo is at most the longest combo, which is at most the
    number of hits; there are three moles plus one per five hits, eight at
    most; the score is [calculateScore] of the stored hits, misses and combo;
    and [timeRemaining] still holds the full duration, since no route
    updates it. *)
Theorem stored_game_invariant (rs : list Request) (username : string) (g : Game) :
  serveAll ∅ rs !! username = Some g ->
  0 <= misses g /\
  0 <= combo g <= maxCombo g /\
  maxCombo g <= hits g /\
  3 <= moles g <= 8 /\
  moles g = Z.min 8 (3 + hits g / 5) /\
  score g = Z.max 0 (100 * hits g + 10 * combo g - 5 * misses g) /\
  timeRemaining g = 60000.
Proof.
  intros Hg.
  assert (Hall : map_Forall (fun _ g => wellFormed g) (serveAll ∅ rs))
    by apply serveAll_wellFormed, map_Forall_empty.
  destruct (Hall _ _ Hg) as (Hm & Hc & Hmax & Hmoles & Hs & Ht).
  unfold MAX_MOLES, INITIAL_MOLE_COUNT, GAME_DURATION, calculateScore in *.
  assert (0 <= hits g / 5) by (apply Z.div_pos; lia).
  repeat split; try lia.
Qed.

Lemma stored_game_invariant_witness :
  serveAll ∅ bobPlays !! "bob" = Some (mkGame 495 4 60000 5 1 1000 0 5) /\
  4 = Z.min 8 (3 + 5 / 5).
Proof.
  assert (H : serveAll ∅ bobPlays !! "bob" = Some (mkGame 495 4 60000 5 1 1000 0 5))
    by (vm_compute; reflexivity).
  split; [exact H|].
  exact (proj1 (proj2 (proj2 (proj2 (proj2 (stored_game_invariant bobPlays "bob" _ H)))))).
Defined.

(** X24.  The play window.  While at most 60000 ms have passed since the
    start, [/hit] counts a hit and [/miss] a miss; after that both answer 400
    with the stored figures and change nothing in the map.  [/status] reports
    the game as active only while fewer than 60000 ms have passed: at exactly
    60000 ms it says inactive, with no time remaining, while a hit or a miss
    is still counted. *)
Theorem play_window (games : Games) (p : Body) (g : Game) (now : Time) :
  games !! usernameOf p = Some g ->
  let elapsed := now - startTime g in
  (elapsed <= 60000 ->
     (exists g', (post_hit games p now).2 !! usernameOf p = Some g' /\
                 hits g' = hits g + 1 /\ misses g' = misses g /\
                 combo g' = combo g + 1) /\
     (exists g', (post_miss games p now).2 !! usernameOf p = Some g' /\
                 hits g' = hits g /\ misses g' = misses g + 1 /\ combo g' = 0)) /\
  (60000 < elapsed ->
     post_hit games p now
       = (GameOver (score g) (hits g) (misses g) (maxCombo g), games) /\
     post_miss games p now
       = (GameOver (score g) (hits g) (misses g) (maxCombo g), games)) /\
  (exists active : bool,
     get_status games (usernameOf p) now
       = StatusOk (usernameOf p) active (score g) (hits g) (misses g) (combo g) (moles g)
                  (Z.max 0 (60000 - elapsed)) /\
     (active = true <-> elapsed < 60000)).
Proof.
  intros Hg elapsed.
  unfold get_status, post_hit, post_miss. rewrite Hg. cbv zeta. fold elapsed.
  unfold GAME_DURATION.
  split; [|split].
  - intros Hin.
    rewrite (proj2 (Z.ltb_ge 60000 elapsed)) by lia.
    split; eexists; (split; [apply lookup_insert_eq|]); by simpl.
  - intros Hout.
    rewrite (proj2 (Z.ltb_lt 60000 elapsed)) by lia. split; reflexivity.
  - eexists. split; [reflexivity|]. apply Z.ltb_lt.
Qed.

Lemma play_window_witness :
  serveAll ∅ bobPlays !! usernameOf bob = Some (mkGame 495 4 60000 5 1 1000 0 5) /\
  61000 - 1000 <= 60000 /\
  (exists g', (post_hit (serveAll ∅ bobPlays) bob 61000).2 !! usernameOf bob = Some g' /\
              hits g' = 6) /\
  get_status (serveAll ∅ bobPlays) "bob" 61000 = StatusOk "bob" false 495 5 1 0 4 0.
Proof.
  assert (H : serveAll ∅ bobPlays !! usernameOf bob
              = Some (mkGame 495 4 60000 5 1 1000 0 5)) by (vm_compute; reflexivity).
  assert (H' : 61000 - startTime (mkGame 495 4 60000 5 1 1000 0 5) <= 60000)
    by (simpl; lia).
  split; [exact H|]. split; [lia|].
  destruct (play_window (serveAll ∅ bobPlays) bob _ 61000 H) as (Hin & _ & Hstatus).
  split.
  - destruct (proj1 (Hin H')) as (g' & Hg' & Hh & _). exists g'. split; [exact Hg' | exact Hh].
  - destruct Hstatus as (active & Hs & Hact).
    destruct active.
    + exfalso. pose proof (proj1 Hact eq_refl) as Hlt. simpl in Hlt. lia.
    + exact Hs.
Defined.

(** X25.  [/end] answers with the stored figures and removes the game, also
    when the game is still running; afterwards every route answers 404 for
    that user until a new [/start], and the games of other users are as they
    were. *)
Theorem end_removes_game (games : Games) (p : Body) (g : Game) :
  games !! usernameOf p = Some g ->
  let games' := (post_end games p).2 in
  (post_end games p).1
    = Ended (score g) (hits g) (misses g) (maxCombo g) (accuracy (hits g) (misses g)) /\
  (forall now, post_hit games' p now = (NotFound, games')) /\
  (forall now, post_miss games' p now = (NotFound, games')) /\
  post_end games' p = (NotFound, games') /\
  (forall now, get_status games' (usernameOf p) now = NotFound) /\
  (forall other, other <> usernameOf p -> games' !! other = games !! other).
Proof.
  intros Hg games'.
  assert (Hgone : games' !! usernameOf p = None).
  { unfold games', post_end. rewrite Hg. apply lookup_delete_eq. }
  unfold post_hit, post_miss, get_status.
  repeat split; intros; try (rewrite Hgone; reflexivity).
  - unfold post_end. by rewrite Hg.
  - unfold post_end at 1. by rewrite Hgone.
  - unfold games', post_end. rewrite Hg. simpl. by apply lookup_delete_ne.
Qed.

Lemma end_removes_game_witness :
  serveAll ∅ bobPlays !! usernameOf bob = Some (mkGame 495 4 60000 5 1 1000 0 5) /\
  (post_end (serveAll ∅ bobPlays) bob).1 = Ended 495 5 1 5 (accuracy 5 1).
Proof.
  assert (H : serveAll ∅ bobPlays !! usernameOf bob
              = Some (mkGame 495 4 60000 5 1 1000 0 5)) by (vm_compute; reflexivity).
  split; [exact H|].
  exact (proj1 (end_removes_game (serveAll ∅ bobPlays) bob _ H)).
Defined.

(** X26.  While a game runs, a hit never lowers the score and a miss never
    raises it: a hit adds 110 unless the penalties still hold the score at
    zero, and a miss takes away the whole combo bonus and five points more,
    down to zero. *)
Theorem hit_raises_miss_lowers_score (rs : list Request) (p : Body) (g : Game)
    (now : Time) :
  serveAll ∅ rs !! usernameOf p = Some g ->
  now - startTime g <= 60000 ->
  (exists g', (post_hit (serveAll ∅ rs) p now).2 !! usernameOf p = Some g' /\
              score g <= score g' /\
              (0 < score g -> score g' = score g + 110)) /\
  (exists g', (post_miss (serveAll ∅ rs) p now).2 !! usernameOf p = Some g' /\
              score g' <= score g /\
              (0 < score g -> score g' = Z.max 0 (score g - 10 * combo g - 5))).
Proof.
  intros Hg Hnow.
  assert (Hall : map_Forall (fun _ g => wellFormed g) (serveAll ∅ rs))
    by apply serveAll_wellFormed, map_Forall_empty.
  destruct (Hall _ _ Hg) as (Hm & Hc & Hmax & Hmoles & Hs & Ht).
  assert (Hrun : (GAME_DURATION <? now - startTime g) = false)
    by (apply Z.ltb_ge; unfold GAME_DURATION; lia).
  unfold post_hit, post_miss. rewrite Hg. cbv zeta. rewrite Hrun.
  split.
  - eexists. split; [apply lookup_insert_eq|]. simpl.
    rewrite Hs. unfold calculateScore. lia.
  - eexists. split; [apply lookup_insert_eq|]. simpl.
    rewrite Hs. unfold calculateScore. lia.
Qed.

Lemma hit_raises_miss_lowers_score_witness :
  serveAll ∅ bobPlays !! usernameOf bob = Some (mkGame 495 4 60000 5 1 1000 0 5) /\
  8000 - 1000 <= 60000 /\
  exists g', (post_hit (serveAll ∅ bobPlays) bob 8000).2 !! usernameOf bob = Some g' /\
             495 <= score g'.
Proof.
  assert (H : serveAll ∅ bobPlays !! usernameOf bob
              = Some (mkGame 495 4 60000 5 1 1000 0 5)) by (vm_compute; reflexivity).
  assert (H' : 8000 - startTime (mkGame 495 4 60000 5 1 1000 0 5) <= 60000)
    by (simpl; lia).
  split; [exact H|]. split; [lia|].
  destruct (proj1 (hit_raises_miss_lowers_score bobPlays bob _ 8000 H H'))
    as (g' & Hg' & Hle & _).
  exists g'. split; [exact Hg' | exact Hle].
Defined.

End WhackAMoleFacts.

(** ** Slots *)

Module SlotsFacts.
Import Blackjack(Unit01, u_val, Rng, random, randomIndex).
Import Slots.

Ltac each_symbol H :=
  unfold symbols in H;
  repeat (apply elem_of_cons in H as [->|H]);
  [..|by apply elem_of_nil in H].

Lemma calculateWin_pays (s1 s2 s3 : string) (betAmount : Q) :
  s1 ∈ symbols -> s2 ∈ symbols -> s3 ∈ symbols ->
  let r := calculateWin [s1; s2; s3] betAmount in
  (win r = true <-> s1 = s2 /\ s2 = s3) /\
  (win r = true ->
     multiplier r ∈ [2; 3; 5; 10; 25; 50; 100] /\
     winAmount r = (betAmount * inject_Z (multiplier r))%Q) /\
  (win r = false -> multiplier r = 0 /\ winAmount r = 0%Q).
Proof.
  intros H1 H2 H3.
  each_symbol H1; each_symbol H2; each_symbol H3.
  all: vm_compute; repeat split; intros;
    repeat match goal with
           | H : _ /\ _ |- _ => destruct H
           end;
    try discriminate; try congruence;
    solve [repeat constructor].
Qed.

(** X27.  For three symbols of the reel, [calculateWin] reports a win
    exactly when the three are the same; a win pays the bet times the
    multiplier of the table and anything else pays 0; the win type is
    ['none'] exactly when neither the first two nor the last two symbols
    agree; and three lemons or three oranges, which pay 3 and 2 times the
    bet, are labelled ['near-miss'], not ['win']. *)
Theorem calculateWin_three_symbols (s1 s2 s3 : string) (betAmount : Q) :
  s1 ∈ symbols -> s2 ∈ symbols -> s3 ∈ symbols ->
  let r := calculateWin [s1; s2; s3] betAmount in
  (win r = true <-> s1 = s2 /\ s2 = s3) /\
  (win r = true ->
     multiplier r ∈ [2; 3; 5; 10; 25; 50; 100] /\
     winAmount r = (betAmount * inject_Z (multiplier r))%Q) /\
  (win r = false -> multiplier r = 0 /\ winAmount r = 0%Q) /\
  (winType r = "none" <-> s1 <> s2 /\ s2 <> s3) /\
  (win r = true /\ winType r = "near-miss" <->
     s1 = s2 /\ s2 = s3 /\ (s1 = "🍋" \/ s1 = "🍊")).
Proof.
  intros H1 H2 H3 r.
  destruct (calculateWin_pays s1 s2 s3 betAmount H1 H2 H3) as (Hwin & Hpay & Hnone).
  split; [exact Hwin|]. split; [exact Hpay|]. split; [exact Hnone|].
  clear Hwin Hpay Hnone. subst r.
  each_symbol H1; each_symbol H2; each_symbol H3.
  all: vm_compute; repeat split; intros;
    repeat match goal with
           | H : _ /\ _ |- _ => destruct H
           | H : _ \/ _ |- _ => destruct H
           end;
    try discriminate; try congruence;
    solve [left; reflexivity | right; reflexivity].
Qed.

Lemma calculateWin_three_symbols_witness :
  "🍋" ∈ symbols /\
  win (calculateWin ["🍋"; "🍋"; "🍋"] 10) = true /\
  winType (calculateWin ["🍋"; "🍋"; "🍋"] 10) = "near-miss".
Proof.
  assert (H : "🍋" ∈ symbols) by (unfold symbols; repeat constructor).
  split; [exact H|].
  exact (proj2 (proj2 (proj2 (proj2 (proj2
            (calculateWin_three_symbols "🍋" "🍋" "🍋" 10 H H H)))))
           (conj eq_refl (conj eq_refl (or_introl eq_refl)))).
Defined.

Lemma drawSymbol_symbol (g : Rng) : (drawSymbol g).1 ∈ symbols.
Proof.
  unfold drawSymbol, random. cbn [fst].
  change (Z.of_nat (length symbols)) with 7.
  pose proof (BlackjackFacts.randomIndex_range (g O) 7 ltac:(lia)) as Hr.
  destruct (symbols !! Z.to_nat (randomIndex (g O) 7)) as [s|] eqn:E.
  - simpl. eapply list_elem_of_lookup_2. exact E.
  - apply lookup_ge_None in E. simpl in E. lia.
Qed.

Lemma drawSymbol_rng (g : Rng) : (drawSymbol g).2 = fun n => g (S n).
Proof. reflexivity. Qed.

Lemma spinSymbols_spec (g : Rng) (cheatActive : bool) (cheatType : string) :
  exists s1 s2 s3 boosted g',
    spinSymbols g cheatActive cheatType = ([s1; s2; s3], boosted, g') /\
    s1 ∈ symbols /\ s2 ∈ symbols /\ s3 ∈ symbols /\
    (boosted = true <->
       cheatActive = true /\ cheatType = "symbolControl" /\ (u_val (g 3%nat) < 3 # 10)%Q) /\
    (boosted = true -> [s1; s2; s3] = threeSevens).
Proof.
  unfold spinSymbols.
  pose proof (drawSymbol_symbol g) as H1.
  destruct (drawSymbol g) as [s1 g1] eqn:E1.
  assert (Hg1 : g1 = fun n => g (S n)) by (rewrite <- (drawSymbol_rng g), E1; reflexivity).
  pose proof (drawSymbol_symbol g1) as H2.
  destruct (drawSymbol g1) as [s2 g2] eqn:E2.
  assert (Hg2 : g2 = fun n => g1 (S n)) by (rewrite <- (drawSymbol_rng g1), E2; reflexivity).
  pose proof (drawSymbol_symbol g2) as H3.
  destruct (drawSymbol g2) as [s3 g3] eqn:E3.
  assert (Hg3 : g3 = fun n => g2 (S n)) by (rewrite <- (drawSymbol_rng g2), E3; reflexivity).
  assert (Hr : (random g3).1 = g 3%nat) by (subst; reflexivity).
  simpl in H1, H2, H3.
  destruct cheatActive; cbn [andb].
  - case_bool_decide as Hty.
    + destruct (random g3) as [r g4] eqn:E4. simpl in Hr. subst r.
      case_bool_decide as Hlt.
      * exists "7️⃣", "7️⃣", "7️⃣", true, g4.
        split; [reflexivity|].
        assert (H7 : "7️⃣" ∈ symbols) by (unfold symbols; repeat constructor).
        repeat split; auto.
      * exists s1, s2, s3, false, g4.
        repeat split; auto; try discriminate. by intros (_ & _ & ?).
    + exists s1, s2, s3, false, g3.
      repeat split; auto; try discriminate. by intros (_ & ? & _).
  - exists s1, s2, s3, false, g3.
    repeat split; auto; try discriminate. by intros (? & _).
Qed.

Lemma betAmountOf_nonzero (p : Body) : ~ (betAmountOf p == 0)%Q.
Proof.
  unfold betAmountOf. destruct (BetAmount p) as [b|]; [|discriminate].
  destruct (Qeq_bool b 0) eqn:E; [discriminate|].
  intros Hb. apply Qeq_bool_iff in Hb. congruence.
Qed.

(** X28.  The gRPC [Spin] rejects a bet below the minimum or above the
    maximum with INVALID_ARGUMENT before anything else happens: no symbol is
    drawn, nothing is written to Redis and nothing is sent to the scoring
    service.  The HTTP route [/spin] has no such limits: it answers every
    request with a spin at the bet given, and neither stores nor records it.
    In both, an absent bet or a bet of 0 counts as 10. *)
Theorem spin_bet_limits_grpc_only (f : Flags) (w : World) (p : Body) (now : Time) :
  let bet := betAmountOf p in
  ~ (bet == 0)%Q /\
  ((bet < minBetOf f)%Q \/ (maxBetOf f < bet)%Q ->
     grpc_Spin f w p now = (InvalidArgument (minBetOf f) (maxBetOf f), w)) /\
  (exists reply g',
     http_spin w p now = (SpinOk reply, mkWorld (redis w) (recorded w) g') /\
     r_betAmount reply = bet).
Proof.
  intros bet. split; [apply betAmountOf_nonzero|]. split.
  - intros Hout. unfold grpc_Spin. fold bet.
    destruct Hout as [Hlow|Hhigh].
    + rewrite (bool_decide_eq_true_2 _ Hlow). reflexivity.
    + rewrite (bool_decide_eq_true_2 _ Hhigh). by rewrite orb_true_r.
  - unfold http_spin.
    destruct (spinSymbols (rng w) (cheatActiveOf p) (cheatTypeOf p)) as [[result boosted] g'].
    eexists _, g'. split; reflexivity.
Qed.

Lemma spin_bet_limits_grpc_only_witness :
  let p := mkBody (Some 5%Q) None None None in
  (betAmountOf p < minBetOf defaultFlags)%Q /\
  grpc_Spin defaultFlags idle p 1 = (InvalidArgument 10 1000, idle).
Proof.
  intros p.
  assert (H : (betAmountOf p < minBetOf defaultFlags)%Q) by reflexivity.
  split; [exact H|].
  exact (proj1 (proj2 (spin_bet_limits_grpc_only defaultFlags idle p 1)) (or_introl H)).
Defined.

(** X29.  A gRPC [Spin] whose bet is within the limits shows three symbols
    of the reel and wins exactly when they are the same; it writes the
    outcome under the user's Redis key and sends exactly one round to the
    scoring service, whose payout and win flag are those of the reply.  The
    spin is boosted only under the cheat [symbolControl], and a boosted spin
    is the jackpot line paying 100 times the bet. *)
Theorem grpc_Spin_accepted_round (f : Flags) (w : World) (p : Body) (now : Time) :
  let bet := betAmountOf p in
  (minBetOf f <= bet)%Q -> (bet <= maxBetOf f)%Q ->
  exists (reply : SpinReply) (record : SpinRecord) (g' : Rng) (s1 s2 s3 : string),
    grpc_Spin f w p now
      = (SpinOk reply,
         mkWorld (<[stateKey (usernameOf p) :=
                      mkSlotsState now (r_result reply) (r_win reply) (r_winAmount reply)]>
                    (redis w))
                 (recorded w ++ [record]) g') /\
    r_result reply = [s1; s2; s3] /\
    s1 ∈ symbols /\ s2 ∈ symbols /\ s3 ∈ symbols /\
    (r_win reply = true <-> s1 = s2 /\ s2 = s3) /\
    r_betAmount reply = bet /\
    (if r_win reply
     then r_winAmount reply = (bet * inject_Z (r_multiplier reply))%Q /\ 2 <= r_multiplier reply
     else r_winAmount reply = 0%Q) /\
    sr_username record = usernameOf p /\
    sr_betAmount record = bet /\
    sr_payout record = r_winAmount reply /\
    sr_win record = r_win reply /\
    (r_cheatBoosted reply = true ->
       cheatActiveOf p = true /\ cheatTypeOf p = "symbolControl" /\
       r_result reply = threeSevens /\ r_winType reply = "jackpot" /\
       r_winAmount reply = (bet * 100)%Q).
Proof.
  intros bet Hmin Hmax.
  unfold grpc_Spin. fold bet.
  rewrite (bool_decide_eq_false_2 (bet < minBetOf f)%Q) by by apply Qle_not_lt.
  rewrite (bool_decide_eq_false_2 (maxBetOf f < bet)%Q) by by apply Qle_not_lt.
  cbn [orb].
  destruct (spinSymbols_spec (rng w) (cheatActiveOf p) (cheatTypeOf p))
    as (s1 & s2 & s3 & boosted & g' & -> & H1 & H2 & H3 & Hb & Hline).
  destruct (calculateWin_pays s1 s2 s3 bet H1 H2 H3) as (Hwin & Hpay & Hnone).
  cbv zeta in Hwin, Hpay, Hnone.
  set (r := calculateWin [s1; s2; s3] bet) in *.
  exists (mkSpinReply [s1; s2; s3] (win r) (winAmount r) bet (multiplier r) (winType r)
                      now (cheatActiveOf p) (cheatTypeOf p) boosted),
         (mkSpinRecord (usernameOf p) bet (winAmount r) (win r) [s1; s2; s3] (multiplier r)
                       (winType r) (cheatActiveOf p) (cheatTypeOf p) boosted now),
         g', s1, s2, s3.
  split; [reflexivity|]. cbn [r_result r_win r_winAmount r_betAmount r_multiplier
                               r_winType r_cheatBoosted sr_username sr_betAmount
                               sr_payout sr_win].
  split; [reflexivity|]. split; [exact H1|]. split; [exact H2|]. split; [exact H3|].
  split; [exact Hwin|]. split; [reflexivity|]. split.
  { destruct (win r) eqn:Ew.
    - destruct (Hpay eq_refl) as [Hm Ha]. split; [exact Ha|].
      repeat (apply elem_of_cons in Hm as [->|Hm]); try lia. by apply elem_of_nil in Hm.
    - by destruct (Hnone eq_refl). }
  do 4 (split; [reflexivity|]).
  intros Hboost.
  destruct (proj1 Hb Hboost) as (Hc & Ht & _).
  pose proof (Hline Hboost) as Hl.
  split; [exact Hc|]. split; [exact Ht|]. split; [exact Hl|].
  subst r. rewrite Hl. split; reflexivity.
Qed.

Lemma grpc_Spin_accepted_round_witness :
  let p := mkBody None None None None in
  (minBetOf defaultFlags <= betAmountOf p)%Q /\
  (betAmountOf p <= maxBetOf defaultFlags)%Q /\
  exists (reply : SpinReply) (w' : World),
    grpc_Spin defaultFlags idle p 1 = (SpinOk reply, w') /\
    r_betAmount reply = 10%Q.
Proof.
  intros p.
  assert (H1 : (minBetOf defaultFlags <= betAmountOf p)%Q) by discriminate.
  assert (H2 : (betAmountOf p <= maxBetOf defaultFlags)%Q) by discriminate.
  split; [exact H1|]. split; [exact H2|].
  destruct (grpc_Spin_accepted_round defaultFlags idle p 1 H1 H2)
    as (reply & record & g' & s1 & s2 & s3 & Hspin & _ & _ & _ & _ & _ & Hbet & _).
  exists reply. eexists. split; [exact Hspin | exact Hbet].
Defined.

End SlotsFacts.

(** ** Frontend *)

Module FrontendFacts.
Import Frontend.

Lemma max0_nonneg (x : Q) : (0 <= max0 x)%Q.
Proof.
  unfold max0. destruct (Qle_bool 0 x) eqn:E; [by apply Qle_bool_iff|apply Qle_refl].
Qed.

Lemma max0_id (x : Q) : (0 <= x)%Q -> max0 x = x.
Proof. intros H. unfold max0. by rewrite (proj2 (Qle_bool_iff 0 x) H). Qed.

Lemma updateUserBalance_available (r : Redis) (u : option string) (d : Q) :
  available (updateUserBalance r u d).2 = available r.
Proof. unfold updateUserBalance. by destruct (available r) eqn:E. Qed.

Lemma updateUserBalance_balance (r : Redis) (u : option string) (d : Q) :
  available r = true ->
  getUserBalance (updateUserBalance r u d).2 u = max0 (getUserBalance r u + d).
Proof.
  intros Ha. unfold updateUserBalance. rewrite Ha. cbn [snd].
  unfold getUserBalance at 1. cbn [available balances].
  by rewrite lookup_insert_eq.
Qed.

Lemma usernameOf_nonempty (b : Body) : usernameOf b <> "".
Proof.
  unfold usernameOf, strOr.
  destruct (Username b) as [s|]; [case_bool_decide; [|done]|];
    (destruct (username_lc b) as [s'|]; [case_bool_decide; [|done]|]); done.
Qed.

Lemma betAmountOf_positive (b : Body) : (0 < betAmountOf b)%Q.
Proof.
  unfold betAmountOf.
  destruct (Qle_bool _ 0) eqn:E; [reflexivity|].
  apply Qnot_le_lt. intros H. apply Qle_bool_iff in H. congruence.
Qed.

Lemma numOr_idem (a : option Q) : numOr (Some (numOr a 0)) 0 = numOr a 0.
Proof.
  unfold numOr. destruct a as [x|]; [|reflexivity].
  destruct (Qeq_bool x 0) eqn:E; [reflexivity|]. by rewrite E.
Qed.

Lemma takeBet_balance (r : Redis) (u : option string) (bet x : Q) :
  available r = true ->
  (getUserBalance r u == x)%Q -> (bet <= x)%Q ->
  (getUserBalance (updateUserBalance r u (- bet)).2 u == x - bet)%Q.
Proof.
  intros Ha Hx Hle.
  rewrite updateUserBalance_balance by done.
  rewrite max0_id by lra. lra.
Qed.

Lemma addPayout_available (r : Redis) (u : option string) (pay : Q) :
  available (if bool_decide (0 < pay)%Q then (updateUserBalance r u pay).2 else r)
    = available r.
Proof. case_bool_decide; [apply updateUserBalance_available|done]. Qed.

Lemma addPayout_balance (r : Redis) (u : option string) (pay x : Q) :
  available r = true -> (0 <= pay)%Q ->
  (getUserBalance r u == x)%Q -> (0 <= x)%Q ->
  (getUserBalance (if bool_decide (0 < pay)%Q then (updateUserBalance r u pay).2 else r) u
   == x + pay)%Q.
Proof.
  intros Ha Hpay Hx H0. case_bool_decide as Hp.
  - rewrite updateUserBalance_balance by done. rewrite max0_id by lra. lra.
  - lra.
Qed.

(** X30.  A blackjack hand played through the frontend is settled twice.
    With Redis answering and a balance that covers the bet, [/deal] takes the
    bet; [/stand] adds the payout and answers with the balance it then reads;
    after that [updateBalanceFromGameResult] takes the bet and adds the
    payout once more.  So, as long as no step is held at zero, the stored
    balance ends at the balance before the hand minus twice the bet plus
    twice the payout, while the answer of [/stand] shows it minus the bet
    plus the payout; a lost hand costs the bet twice.  The stored balance is
    the one posted to the scoring service, as the score, after the round. *)
Theorem blackjack_hand_settled_twice {A : Type} (st : State) (b : Body) (gameId : string)
    (dealt : A) (o : GameOutcome) (now : Time) :
  let user := Some (usernameOf b) in
  let bet := betAmountOf b in
  let before := getUserBalance (redis st) user in
  let pay := numOr (payout o) 0 in
  available (redis st) = true ->
  (bet <= before)%Q ->
  (0 <= pay)%Q -> winAmount o = None ->
  (2 * bet <= before + pay)%Q ->
  exists (afterDeal reported stored : Q) (shown : GameOutcome) (st1 st2 : State),
    post_deal st b true (Some dealt) = (Played dealt afterDeal, st1) /\
    post_stand st1 gameId b true (Some o) now = (Played shown reported, st2) /\
    (afterDeal == before - bet)%Q /\
    (reported == before - bet + pay)%Q /\
    getUserBalance (redis st2) user = stored /\
    (stored == before - 2 * bet + 2 * pay)%Q /\
    posts st2 =
      posts st ++
        [GameResultPost (usernameOf b) (strOr (Some gameId) "unknown") "stand" bet pay
                        (bool_decide (0 < pay)%Q)
                        (strOr (result o) (if bool_decide (0 < pay)%Q then "win" else "lose"))
                        stored (default false (cheat_active o))
                        (match cheat_type o with
                         | Some s => if bool_decide (s = "") then None else Some s
                         | None => None
                         end) now;
         RecordPost (usernameOf b) "player" (strOr (Some gameId) "unknown") stored bet pay
                    (bool_decide (0 < pay)%Q) now].
Proof.
  intros user bet before pay Ha Hcover Hpay Hwa Hroom.
  pose proof (betAmountOf_positive b) as Hbet. fold bet in Hbet.
  assert (Hbet0 : Qle_bool bet 0 = false).
  { destruct (Qle_bool bet 0) eqn:E; [|done]. apply Qle_bool_iff in E. lra. }
  assert (Huser : bool_decide (strOr user "" = "") = false).
  { apply bool_decide_eq_false_2. unfold user, strOr.
    rewrite bool_decide_eq_false_2 by apply usernameOf_nonempty.
    apply usernameOf_nonempty. }
  assert (Huser' : strOr user "" = usernameOf b).
  { unfold user, strOr. by rewrite bool_decide_eq_false_2 by apply usernameOf_nonempty. }
  (* /deal *)
  set (r1 := (updateUserBalance (redis st) user (- bet)).2).
  assert (Ha1 : available r1 = true)
    by (unfold r1; by rewrite updateUserBalance_available).
  assert (Hb1 : (getUserBalance r1 user == before - bet)%Q)
    by (apply takeBet_balance; [done|reflexivity|done]).
  (* /stand: the payout *)
  set (r2 := if bool_decide (0 < pay)%Q then (updateUserBalance r1 user pay).2 else r1).
  assert (Ha2 : available r2 = true) by (unfold r2; by rewrite addPayout_available).
  assert (Hb2 : (getUserBalance r2 user == before - bet + pay)%Q)
    by (apply addPayout_balance; [done|done|done|lra]).
  (* updateBalanceFromGameResult *)
  set (r3 := (updateUserBalance r2 user (- bet)).2).
  assert (Ha3 : available r3 = true)
    by (unfold r3; by rewrite updateUserBalance_available).
  assert (Hb3 : (getUserBalance r3 user == before - bet + pay - bet)%Q)
    by (apply takeBet_balance; [done|done|lra]).
  set (r4 := if bool_decide (0 < pay)%Q then (updateUserBalance r3 user pay).2 else r3).
  assert (Hb4 : (getUserBalance r4 user == before - bet + pay - bet + pay)%Q)
    by (apply addPayout_balance; [done|done|done|lra]).
  assert (Hdeal : post_deal st b true (Some dealt)
                  = (Played dealt (getUserBalance r1 user), mkState r1 (posts st))).
  { unfold post_deal. cbn [negb]. fold bet user before.
    by rewrite bool_decide_eq_false_2 by by apply Qle_not_lt. }
  assert (Hstand : exists shown st2,
             post_stand (mkState r1 (posts st)) gameId b true (Some o) now
               = (Played shown (getUserBalance r2 user), st2) /\
             redis st2 = r4 /\
             posts st2 =
               posts st ++
               [GameResultPost (usernameOf b) (strOr (Some gameId) "unknown") "stand" bet pay
                  (bool_decide (0 < pay)%Q)
                  (strOr (result o) (if bool_decide (0 < pay)%Q then "win" else "lose"))
                  (getUserBalance r4 user) (default false (cheat_active o))
                  (match cheat_type o with
                   | Some s => if bool_decide (s = "") then None else Some s
                   | None => None
                   end) now;
                RecordPost (usernameOf b) "player" (strOr (Some gameId) "unknown")
                  (getUserBalance r4 user) bet pay (bool_decide (0 < pay)%Q) now]).
  { unfold post_stand. cbn [negb]. cbv zeta.
    cbn [payout winAmount game action result cheat_active cheat_type redis posts].
    fold bet user pay. fold r2.
    unfold updateBalanceFromGameResult. rewrite Huser, Hbet0.
    cbv zeta.
    cbn [payout winAmount game action result cheat_active cheat_type redis posts snd].
    rewrite Hwa. change (numOr None 0) with 0%Q.
    assert (Hidem : numOr (Some pay) 0 = pay) by apply numOr_idem.
    rewrite !Hidem. fold r3. fold r4.
    rewrite Huser'.
    eexists _, _. split; [reflexivity|]. split; reflexivity. }
  destruct Hstand as (shown & st2 & Hst & Hr & Hposts).
  exists (getUserBalance r1 user), (getUserBalance r2 user), (getUserBalance r4 user),
         shown, (mkState r1 (posts st)), st2.
  split; [exact Hdeal|]. split; [exact Hst|].
  split; [exact Hb1|]. split; [exact Hb2|].
  split; [by rewrite Hr|]. split; [rewrite Hb4; lra|]. exact Hposts.
Qed.

Lemma blackjack_hand_settled_twice_witness :
  available (redis danaHolds100) = true /\
  (betAmountOf dana <= getUserBalance (redis danaHolds100) (Some (usernameOf dana)))%Q /\
  exists (reported stored : Q) (shown : GameOutcome) (st2 : State),
    post_stand (post_deal danaHolds100 dana true (Some tt)).2 "blackjack" dana true
               (Some wonTwenty) 5
      = (Played shown reported, st2) /\
    (reported == 100 - 10 + 20)%Q /\
    getUserBalance (redis st2) (Some "dana") = stored /\
    (stored == 100 - 2 * 10 + 2 * 20)%Q.
Proof.
  assert (H1 : available (redis danaHolds100) = true) by reflexivity.
  assert (H2 : (betAmountOf dana
                <= getUserBalance (redis danaHolds100) (Some (usernameOf dana)))%Q)
    by (vm_compute; discriminate).
  assert (H3 : (0 <= numOr (payout wonTwenty) 0)%Q) by (vm_compute; discriminate).
  assert (H4 : winAmount wonTwenty = None) by reflexivity.
  assert (H5 : (2 * betAmountOf dana
                <= getUserBalance (redis danaHolds100) (Some (usernameOf dana))
                   + numOr (payout wonTwenty) 0)%Q)
    by (vm_compute; discriminate).
  split; [exact H1|]. split; [exact H2|].
  destruct (blackjack_hand_settled_twice danaHolds100 dana "blackjack" tt wonTwenty 5
              H1 H2 H3 H4 H5)
    as (afterDeal & reported & stored & shown & st1 & st2
        & Hdeal & Hstand & _ & Hrep & Hst & Hsto & _).
  exists reported, stored, shown, st2.
  rewrite Hdeal. cbn [snd].
  split; [exact Hstand|]. split; [exact Hrep|]. split; [exact Hst | exact Hsto].
Defined.

End FrontendFacts.
